(** * Galaxy-collision snapshot visualisation: reader, projection and view window

    A shallow embedding of the three scripts under
    [examples/CollidingGalaxiesSFR]:

    - [allstars/visualize_animation.py]   (face-on view, X-Y plane),
    - [edge_on/visualize_edge_on.py]      (edge-on view, X-Z plane),
    - [tilted_view/visualize_tilted.py]   (rotated view).

    Numbers.  The scripts compute with NumPy [float64].  The embedding
    idealises them as the real numbers [R] of the Standard Library: every
    arithmetic operation is the exact one, [np.cos], [np.sin] and [np.pi]
    are [cos], [sin] and [PI].  Rounding, NaN and infinities are outside the
    model.

    Arrays.  An [N x 3] position array is a list of rows, each row a triple;
    an [N x 2] array of plot offsets is a list of pairs; a one-dimensional
    array is a list of reals.  The shape [(0, 3)] is the empty list of
    triples.

    Files.  An HDF5 snapshot is a record of optional groups, each group a
    record of optional datasets, so that both [key in f] and the [KeyError]
    of [f[key]] on an absent member can be written as the source has them.

    Exceptions are values of [exn]; a function that can raise returns a
    [result]. *)

From Stdlib Require Import String Ascii Decimal DecimalString DecimalNat.
From Stdlib Require Import Reals Lra Lia List Permutation Sorted Arith.
Import ListNotations.
Open Scope R_scope.

(** ** Exceptions and results *)

Inductive exn : Type :=
| KeyError (key : string)      (* h5py: no such group, dataset or attribute *)
| IndexError                   (* list index out of range *)
| PercentileOfEmpty            (* np.percentile / set_xlim on an empty pool *)
| FigureSizeError.             (* plt.subplots: figure size not finite *)

Inductive result (A : Type) : Type :=
| Ok (a : A)
| Raise (e : exn).

Arguments KeyError key%_string.
Arguments Ok {A} a.
Arguments Raise {A} e.

Definition bind {A B : Type} (r : result A) (k : A -> result B) : result B :=
  match r with
  | Ok a => k a
  | Raise e => Raise e
  end.

Notation "x <- r ;; k" := (bind r (fun x => k))
  (at level 61, r at next level, right associativity).

Fixpoint mapM {A B : Type} (f : A -> result B) (l : list A) : result (list B) :=
  match l with
  | [] => Ok []
  | a :: t => b <- f a ;; bs <- mapM f t ;; Ok (b :: bs)
  end.

(** ** Arrays *)

Definition vec3 : Type := (R * R * R)%type.
Definition vec2 : Type := (R * R)%type.
Definition mat3 : Type := (vec3 * vec3 * vec3)%type.   (* three rows *)

(** [p[0]], [p[1]], [p[2]] of a row, and the column [a[:, k]] of an array. *)
Definition c0 (p : vec3) : R := fst (fst p).
Definition c1 (p : vec3) : R := snd (fst p).
Definition c2 (p : vec3) : R := snd p.

Definition column (k : vec3 -> R) (a : list vec3) : list R := map k a.

(** [a[:, :2]] and [a[:, [0, 2]]]. *)
Definition cols01 (a : list vec3) : list vec2 := map (fun p => (c0 p, c1 p)) a.
Definition cols02 (a : list vec3) : list vec2 := map (fun p => (c0 p, c2 p)) a.

(** [np.vstack([a, b])] on arrays of equal row width. *)
Definition vstack {A : Type} (a b : list A) : list A := a ++ b.

(** ** Snapshot files *)

Record Attrs : Type := { Time : option R }.

Record Group : Type := {
  Coordinates : option (list vec3);
  Masses : option (list R);
  StellarFormationTime : option (list R)
}.

Record h5file : Type := {
  Header : option Attrs;
  PartType2 : option Group;
  PartType3 : option Group;
  PartType4 : option Group
}.

(** [f[key]] and [attrs[key]]: the member, or [KeyError]. *)
Definition getitem {A : Type} (key : string) (o : option A) : result A :=
  match o with
  | Some a => Ok a
  | None => Raise (KeyError key)
  end.

Arguments getitem {A} key%_string o.

(** The dictionary [data] that [load_snapshot] returns. *)
Record snapshot : Type := {
  newstars_pos : list vec3;
  newstars_mass : list R;
  newstars_time : list R;
  disk_pos : list vec3;
  bulge_pos : list vec3;
  time : R
}.

(** [load_snapshot] is the same function, line for line, in the three
    scripts. *)
Definition load_snapshot (f : h5file) : result snapshot :=
  hdr <- getitem "Header" (Header f) ;;
  t <- getitem "Time" (Time hdr) ;;
  new <- match PartType4 f with
         | Some g =>
             pos <- getitem "PartType4/Coordinates" (Coordinates g) ;;
             mass <- getitem "PartType4/Masses" (Masses g) ;;
             sft <- getitem "PartType4/StellarFormationTime"
                      (StellarFormationTime g) ;;
             Ok (pos, mass, sft)
         | None => Ok ([], [], [])
         end ;;
  disk <- match PartType2 f with
          | Some g => getitem "PartType2/Coordinates" (Coordinates g)
          | None => Ok []
          end ;;
  bulge <- match PartType3 f with
           | Some g => getitem "PartType3/Coordinates" (Coordinates g)
           | None => Ok []
           end ;;
  Ok {| newstars_pos := fst (fst new);
        newstars_mass := snd (fst new);
        newstars_time := snd new;
        disk_pos := disk;
        bulge_pos := bulge;
        time := t |}.

(** ** Percentiles

    [np.percentile(a, q)] with the default linear method: the data are
    ordered, the virtual index is [(n - 1) * q / 100], and the result
    interpolates between the entries at its floor and at the next index
    (clipped to [n - 1]).  The source passes the integer literals [1] and
    [99] for [q], so the floor and the fraction of the virtual index are the
    quotient and the remainder of [(n - 1) * q] by [100].  NumPy's two
    algebraic forms of the interpolation agree over [R]; the first is used.

    On an empty sequence there is no percentile: depending on the NumPy
    release the call raises or yields NaN, and [Axes.set_xlim] refuses NaN
    limits.  The model raises [PercentileOfEmpty] at the call. *)

Fixpoint insert (x : R) (l : list R) : list R :=
  match l with
  | [] => [x]
  | y :: t => if Rle_dec x y then x :: y :: t else y :: insert x t
  end.

Fixpoint sort (l : list R) : list R :=
  match l with
  | [] => []
  | x :: t => insert x (sort t)
  end.

Definition lerp (a b t : R) : R := a + (b - a) * t.

Definition percentile (a : list R) (q : nat) : result R :=
  match sort a with
  | [] => Raise PercentileOfEmpty
  | (s0 :: _) as s =>
      let n := length s in
      let k := ((n - 1) * q)%nat in
      let previous := (k / 100)%nat in
      let next := Nat.min (previous + 1) (n - 1) in
      let gamma := INR (k mod 100) / 100 in
      Ok (lerp (nth previous s s0) (nth next s s0) gamma)
  end.

(** The limits of one axis before padding, [[percentile(a, 1),
    percentile(a, 99)]], and the padding step
    [[lim[0] - 0.1*range, lim[1] + 0.1*range]]. *)
Definition percentile_limits (a : list R) : result (R * R) :=
  lo <- percentile a 1 ;;
  hi <- percentile a 99 ;;
  Ok (lo, hi).

Definition pad (lim : R * R) : R * R :=
  let range := snd lim - fst lim in
  (fst lim - 0.1 * range, snd lim + 0.1 * range).

(** ** The plot

    The state of the Matplotlib axes that the scripts touch: the two axis
    limits as given to [set_xlim] and [set_ylim], the offsets of the two
    scatter collections and the two text artists ([None] is the empty
    string; number formatting is left to the renderer).  A rendered frame
    is the state of the axes when it is drawn. *)

Record axes : Type := {
  ax_xlim : R * R;
  ax_ylim : R * R;
  old_stars : list vec2;
  new_stars : list vec2;
  time_text : option R;
  count_text : option nat
}.

(** [fig, ax = plt.subplots(...)] followed by [ax.set_xlim], [ax.set_ylim]
    and the empty scatter plots and texts. *)
Definition subplots (xlim ylim : R * R) : axes :=
  {| ax_xlim := xlim; ax_ylim := ylim;
     old_stars := []; new_stars := [];
     time_text := None; count_text := None |}.

(** [init], the same in the three scripts. *)
Definition init (ax : axes) : axes :=
  {| ax_xlim := ax_xlim ax; ax_ylim := ax_ylim ax;
     old_stars := []; new_stars := [];
     time_text := None; count_text := None |}.

(** The artist updates at the end of every [animate]. *)
Definition set_frame (ax : axes) (old new : list vec2) (snap : snapshot)
  : axes :=
  {| ax_xlim := ax_xlim ax; ax_ylim := ax_ylim ax;
     old_stars := old; new_stars := new;
     time_text := Some (time snap);
     count_text := Some (length (newstars_pos snap)) |}.

(** [snapshots[frame]]. *)
Definition index {A : Type} (l : list A) (i : nat) : result A :=
  match nth_error l i with
  | Some a => Ok a
  | None => Raise IndexError
  end.

(** [animation.FuncAnimation(fig, animate, init_func=init, frames=n)] once
    saved: [init] is drawn first, then [animate(0)], ..., [animate(n-1)] on
    the same axes; the frames written are the axes after each call. *)
Fixpoint draw_frames (animate : nat -> axes -> result axes)
  (frames : list nat) (ax : axes) : result (list axes) :=
  match frames with
  | [] => Ok []
  | k :: rest =>
      ax' <- animate k ax ;;
      later <- draw_frames animate rest ax' ;;
      Ok (ax' :: later)
  end.

Definition FuncAnimation (animate : nat -> axes -> result axes)
  (frames : nat) (ax : axes) : result (list axes) :=
  draw_frames animate (seq 0 frames) (init ax).

(** What a call of [create_animation] leaves behind when it returns: the
    message that no snapshot was found, or the saved animation. *)
Inductive outcome : Type :=
| NoSnapshotsFound
| Saved (frames : list axes).

(** The frames a run has rendered. *)
Definition frames_of (r : result outcome) : list axes :=
  match r with
  | Ok (Saved frames) => frames
  | _ => []
  end.

Definition static_frames_of (r : result (list axes)) : list axes :=
  match r with
  | Ok frames => frames
  | Raise _ => []
  end.

(** The accumulation loop of the face-on and edge-on scripts, which differ
    in the second column only ([1] face-on, [2] edge-on):
    [all_x.extend(...[:, 0])] and [all_y.extend(...[:, k])] for the new
    stars when there are any, then for the disk, then for the bulge. *)
Definition extend_pools (k : vec3 -> R) (acc : list R * list R)
  (snap : snapshot) : list R * list R :=
  let acc1 :=
    if (0 <? length (newstars_pos snap))%nat
    then (fst acc ++ column c0 (newstars_pos snap),
          snd acc ++ column k (newstars_pos snap))
    else acc in
  let acc2 := (fst acc1 ++ column c0 (disk_pos snap),
               snd acc1 ++ column k (disk_pos snap)) in
  (fst acc2 ++ column c0 (bulge_pos snap),
   snd acc2 ++ column k (bulge_pos snap)).

Definition pools (k : vec3 -> R) (snapshots : list snapshot)
  : list R * list R :=
  fold_left (extend_pools k) snapshots ([], []).

(** ** Face-on view: [allstars/visualize_animation.py] *)

Module Allstars.

(** Lines 67-86: the pooled coordinates, their percentile limits and the
    padding. *)
Definition coordinate_limits (snapshots : list snapshot)
  : result ((R * R) * (R * R)) :=
  let all_x := fst (pools c1 snapshots) in
  let all_y := snd (pools c1 snapshots) in
  xlim <- percentile_limits all_x ;;
  ylim <- percentile_limits all_y ;;
  Ok (pad xlim, pad ylim).

Definition animate (snapshots : list snapshot) (frame : nat) (ax : axes)
  : result axes :=
  snap <- index snapshots frame ;;
  let old_pos := vstack (cols01 (disk_pos snap)) (cols01 (bulge_pos snap)) in
  let new_pos :=
    if (0 <? length (newstars_pos snap))%nat
    then cols01 (newstars_pos snap)
    else [] in
  Ok (set_frame ax old_pos new_pos snap).

Definition create_animation (snapshot_files : list h5file)
  : result outcome :=
  match snapshot_files with
  | [] => Ok NoSnapshotsFound
  | _ :: _ =>
      snapshots <- mapM load_snapshot snapshot_files ;;
      lims <- coordinate_limits snapshots ;;
      let ax := subplots (fst lims) (snd lims) in
      anim <- FuncAnimation (animate snapshots) (length snapshots) ax ;;
      Ok (Saved anim)
  end.

(** One figure per snapshot, each with the limits set anew. *)
Definition static_frame (xlim ylim : R * R) (snap : snapshot) : axes :=
  let old_pos := vstack (cols01 (disk_pos snap)) (cols01 (bulge_pos snap)) in
  let new_pos :=
    if (0 <? length (newstars_pos snap))%nat
    then cols01 (newstars_pos snap)
    else [] in
  set_frame (subplots xlim ylim) old_pos new_pos snap.

Definition create_static_frames (snapshot_files : list h5file)
  : result (list axes) :=
  snapshots <- mapM load_snapshot snapshot_files ;;
  lims <- coordinate_limits snapshots ;;
  Ok (map (static_frame (fst lims) (snd lims)) snapshots).

(** The script body once the [output] directory is known to exist: the
    static frames first, outside any handler; then the animation, whose
    exceptions are caught and reported. *)
Definition main (snapshot_files : list h5file)
  : result (list axes * result outcome) :=
  frames <- create_static_frames snapshot_files ;;
  Ok (frames, create_animation snapshot_files).

End Allstars.

(** ** Edge-on view: [edge_on/visualize_edge_on.py] *)

Module EdgeOn.

(** Lines 67-90 (and 195-214): the X limits are the padded percentile
    limits; the Z percentiles are computed and then replaced by
    [[-z_max, z_max]] with [z_max = (xlim[1] - xlim[0]) / 3.0]. *)
Definition coordinate_limits (snapshots : list snapshot)
  : result ((R * R) * (R * R)) :=
  let all_x := fst (pools c2 snapshots) in
  let all_z := snd (pools c2 snapshots) in
  xlim <- percentile_limits all_x ;;
  zlim <- percentile_limits all_z ;;
  let xlim := pad xlim in
  let z_max := (snd xlim - fst xlim) / 3 in
  Ok (xlim, (- z_max, z_max)).

(** Lines 94-102 (and 216-224): the figure is [8 * aspect_ratio] wide with
    [aspect_ratio = x_range / z_range].  When [z_range] is zero the quotient
    of the two [float64] values is not a finite number, and [plt.subplots]
    refuses such a figure size. *)
Definition figure (xlim zlim : R * R) : result axes :=
  let z_range := snd zlim - fst zlim in
  if Req_dec_T z_range 0 then Raise FigureSizeError
  else Ok (subplots xlim zlim).

Definition animate (snapshots : list snapshot) (frame : nat) (ax : axes)
  : result axes :=
  snap <- index snapshots frame ;;
  let old_pos := vstack (disk_pos snap) (bulge_pos snap) in
  let new_pos :=
    if (0 <? length (newstars_pos snap))%nat
    then cols02 (newstars_pos snap)
    else [] in
  Ok (set_frame ax (cols02 old_pos) new_pos snap).

Definition create_animation (snapshot_files : list h5file)
  : result outcome :=
  match snapshot_files with
  | [] => Ok NoSnapshotsFound
  | _ :: _ =>
      snapshots <- mapM load_snapshot snapshot_files ;;
      lims <- coordinate_limits snapshots ;;
      ax <- figure (fst lims) (snd lims) ;;
      anim <- FuncAnimation (animate snapshots) (length snapshots) ax ;;
      Ok (Saved anim)
  end.

Definition static_frame (xlim zlim : R * R) (snap : snapshot) : axes :=
  let old_pos := vstack (disk_pos snap) (bulge_pos snap) in
  let new_pos :=
    if (0 <? length (newstars_pos snap))%nat
    then cols02 (newstars_pos snap)
    else [] in
  set_frame (subplots xlim zlim) (cols02 old_pos) new_pos snap.

Definition create_static_frames (snapshot_files : list h5file)
  : result (list axes) :=
  snapshots <- mapM load_snapshot snapshot_files ;;
  lims <- coordinate_limits snapshots ;;
  mapM (fun snap =>
          _ <- figure (fst lims) (snd lims) ;;
          Ok (static_frame (fst lims) (snd lims) snap))
       snapshots.

End EdgeOn.

(** ** Tilted view: [tilted_view/visualize_tilted.py] *)

Module Tilted.

(** [np.radians]. *)
Definition radians (deg : R) : R := deg * (PI / 180).

Definition Rx (ax : R) : mat3 :=
  ((1, 0, 0),
   (0, cos ax, - sin ax),
   (0, sin ax, cos ax)).

Definition Rz (az : R) : mat3 :=
  ((cos az, - sin az, 0),
   (sin az, cos az, 0),
   (0, 0, 1)).

(** [M.T]. *)
Definition transpose (M : mat3) : mat3 :=
  let '(r0, r1, r2) := M in
  ((c0 r0, c0 r1, c0 r2),
   (c1 r0, c1 r1, c1 r2),
   (c2 r0, c2 r1, c2 r2)).

(** One row of [a @ M]: the row vector [p] times the matrix [M]. *)
Definition row_times (p : vec3) (M : mat3) : vec3 :=
  let '(r0, r1, r2) := M in
  (c0 p * c0 r0 + c1 p * c0 r1 + c2 p * c0 r2,
   c0 p * c1 r0 + c1 p * c1 r1 + c2 p * c1 r2,
   c0 p * c2 r0 + c1 p * c2 r1 + c2 p * c2 r2).

(** [a @ M] for an [N x 3] array and a [3 x 3] matrix. *)
Definition matmul (a : list vec3) (M : mat3) : list vec3 :=
  map (fun p => row_times p M) a.

Definition rotate_3d (pos : list vec3) (angle_x angle_z : R) : list vec3 :=
  let ax := radians angle_x in
  let az := radians angle_z in
  matmul (matmul pos (transpose (Rx ax))) (transpose (Rz az)).

(** Lines 97-108: per snapshot, the stacked classes are rotated and the
    first two columns of the result are pooled. *)
Definition extend_rotated (angle_x angle_z : R) (acc : list R * list R)
  (snap : snapshot) : list R * list R :=
  let all_pos := vstack (disk_pos snap) (bulge_pos snap) in
  let all_pos :=
    if (0 <? length (newstars_pos snap))%nat
    then vstack all_pos (newstars_pos snap)
    else all_pos in
  let rotated := rotate_3d all_pos angle_x angle_z in
  (fst acc ++ column c0 rotated, snd acc ++ column c1 rotated).

Definition rotated_pools (angle_x angle_z : R) (snapshots : list snapshot)
  : list R * list R :=
  fold_left (extend_rotated angle_x angle_z) snapshots ([], []).

(** Lines 110-117 (and 227-232): both limits are the padded percentile
    limits of the rotated coordinates. *)
Definition coordinate_limits (snapshots : list snapshot)
  (angle_x angle_z : R) : result ((R * R) * (R * R)) :=
  let all_x := fst (rotated_pools angle_x angle_z snapshots) in
  let all_y := snd (rotated_pools angle_x angle_z snapshots) in
  xlim <- percentile_limits all_x ;;
  ylim <- percentile_limits all_y ;;
  Ok (pad xlim, pad ylim).

Definition animate (angle_x angle_z : R) (snapshots : list snapshot)
  (frame : nat) (ax : axes) : result axes :=
  snap <- index snapshots frame ;;
  let old_pos := vstack (disk_pos snap) (bulge_pos snap) in
  let old_rotated := rotate_3d old_pos angle_x angle_z in
  let new_pos :=
    if (0 <? length (newstars_pos snap))%nat
    then cols01 (rotate_3d (newstars_pos snap) angle_x angle_z)
    else [] in
  Ok (set_frame ax (cols01 old_rotated) new_pos snap).

Definition create_animation (snapshot_files : list h5file)
  (angle_x angle_z : R) : result outcome :=
  match snapshot_files with
  | [] => Ok NoSnapshotsFound
  | _ :: _ =>
      snapshots <- mapM load_snapshot snapshot_files ;;
      lims <- coordinate_limits snapshots angle_x angle_z ;;
      let ax := subplots (fst lims) (snd lims) in
      anim <- FuncAnimation (animate angle_x angle_z snapshots)
                (length snapshots) ax ;;
      Ok (Saved anim)
  end.

Definition static_frame (angle_x angle_z : R) (xlim ylim : R * R)
  (snap : snapshot) : axes :=
  let old_pos := vstack (disk_pos snap) (bulge_pos snap) in
  let old_rotated := rotate_3d old_pos angle_x angle_z in
  let new_pos :=
    if (0 <? length (newstars_pos snap))%nat
    then cols01 (rotate_3d (newstars_pos snap) angle_x angle_z)
    else [] in
  set_frame (subplots xlim ylim) (cols01 old_rotated) new_pos snap.

Definition create_static_frames (snapshot_files : list h5file)
  (angle_x angle_z : R) : result (list axes) :=
  snapshots <- mapM load_snapshot snapshot_files ;;
  lims <- coordinate_limits snapshots angle_x angle_z ;;
  Ok (map (static_frame angle_x angle_z (fst lims) (snd lims)) snapshots).

End Tilted.

(** * Vocabulary of the properties *)

(** The interpolation step of [percentile] on the ordered data. *)
Definition interpolate (s : list R) (s0 : R) (q : nat) : R :=
  let n := length s in
  let k := ((n - 1) * q)%nat in
  let previous := (k / 100)%nat in
  let next := Nat.min (previous + 1) (n - 1) in
  let gamma := INR (k mod 100) / 100 in
  lerp (nth previous s s0) (nth next s s0) gamma.

(** The entries one snapshot adds to a pool: column [k] of the new stars,
    of the disk and of the bulge, in the order of the loop body. *)
Definition class_column (k : vec3 -> R) (snap : snapshot) : list R :=
  column k (newstars_pos snap) ++ column k (disk_pos snap)
  ++ column k (bulge_pos snap).

Definition same_limits (ax ax' : axes) : Prop :=
  ax_xlim ax' = ax_xlim ax /\ ax_ylim ax' = ax_ylim ax.

(** An [animate] that succeeds on the frame numbers below [n] and leaves
    the axis limits alone. *)
Definition steady (animate : nat -> axes -> result axes) (n : nat) : Prop :=
  forall k ax, (k < n)%nat ->
    exists ax', animate k ax = Ok ax' /\ same_limits ax ax'.

(** [lim] is the interval from the 1st to the 99th percentile of [pool],
    widened by a tenth of its width at both ends; in particular it
    contains that interval. *)
Definition padded_percentile_window (pool : list R) (lim : R * R) : Prop :=
  exists lo hi,
    percentile pool 1 = Ok lo /\ percentile pool 99 = Ok hi /\
    lim = (lo - 0.1 * (hi - lo), hi + 0.1 * (hi - lo)) /\
    fst lim <= lo /\ lo <= hi /\ hi <= snd lim.

(** The thin-axis interval of the edge-on script: a third of the width of
    [xlim] on either side of zero. *)
Definition third_of (xlim : R * R) : R * R :=
  (- ((snd xlim - fst xlim) / 3), (snd xlim - fst xlim) / 3).

(** Every frame of [frames] was drawn with the limits [lims]. *)
Definition drawn_with (lims : (R * R) * (R * R)) (frames : list axes) : Prop :=
  Forall (fun f => ax_xlim f = fst lims /\ ax_ylim f = snd lims) frames.

(** The right-handed rotations about the X and the Z axis, on one point. *)
Definition rotate_about_x (theta : R) (p : vec3) : vec3 :=
  (c0 p,
   cos theta * c1 p - sin theta * c2 p,
   sin theta * c1 p + cos theta * c2 p).

Definition rotate_about_z (theta : R) (p : vec3) : vec3 :=
  (cos theta * c0 p - sin theta * c1 p,
   sin theta * c0 p + cos theta * c1 p,
   c2 p).

(** The matrix-vector product [M p] on a column vector and the matrix
    product [M N]. *)
Definition dot (u v : vec3) : R := c0 u * c0 v + c1 u * c1 v + c2 u * c2 v.

Definition mat_vec (M : mat3) (p : vec3) : vec3 :=
  let '(r0, r1, r2) := M in (dot r0 p, dot r1 p, dot r2 p).

Definition mat_mul (M N : mat3) : mat3 :=
  let '(r0, r1, r2) := M in
  let t := Tilted.transpose N in
  (mat_vec t r0, mat_vec t r1, mat_vec t r2).

(** Euclidean distance in space. *)
Definition dist3 (p q : vec3) : R :=
  sqrt ((c0 p - c0 q) ^ 2 + (c1 p - c1 q) ^ 2 + (c2 p - c2 q) ^ 2).

(** The rows one snapshot contributes: disk, bulge, then new stars. *)
Definition stacked (snap : snapshot) : list vec3 :=
  disk_pos snap ++ bulge_pos snap ++ newstars_pos snap.

(** Column [k] of the newly formed stars of all snapshots, and of the
    pre-existing stars (disk and bulge) of all snapshots. *)
Definition newstar_pool (k : vec3 -> R) (snapshots : list snapshot) : list R :=
  flat_map (fun snap => column k (newstars_pos snap)) snapshots.

Definition old_pool (k : vec3 -> R) (snapshots : list snapshot) : list R :=
  flat_map (fun snap => column k (disk_pos snap) ++ column k (bulge_pos snap))
    snapshots.

(** The padded limits of two given pools, as every script computes them. *)
Definition limits_of_pools (all_x all_y : list R) : result ((R * R) * (R * R)) :=
  xlim <- percentile_limits all_x ;;
  ylim <- percentile_limits all_y ;;
  Ok (pad xlim, pad ylim).

(** A snapshot without a particle in any class. *)
Definition no_particles (snap : snapshot) : Prop :=
  newstars_pos snap = [] /\ disk_pos snap = [] /\ bulge_pos snap = [].

(** The time attribute of the header, when the file has both. *)
Definition header_time (f : h5file) : option R :=
  match Header f with
  | Some hdr => Time hdr
  | None => None
  end.

Definition is_some {A : Type} (o : option A) : bool :=
  match o with Some _ => true | None => false end.

(** Every group that the file has holds the datasets that [load_snapshot]
    reads from it. *)
Definition datasets_present (f : h5file) : bool :=
  match PartType4 f with
  | Some g => is_some (Coordinates g) && is_some (Masses g)
              && is_some (StellarFormationTime g)
  | None => true
  end
  && match PartType2 f with
     | Some g => is_some (Coordinates g)
     | None => true
     end
  && match PartType3 f with
     | Some g => is_some (Coordinates g)
     | None => true
     end.

(** The three new-star arrays of a record have one length. *)
Definition parallel (d : snapshot) : Prop :=
  length (newstars_pos d) = length (newstars_mass d) /\
  length (newstars_mass d) = length (newstars_time d).

(** The three datasets of a group, where present, have one length. *)
Definition datasets_parallel (g : Group) : bool :=
  match Coordinates g, Masses g, StellarFormationTime g with
  | Some pos, Some mass, Some sft =>
      (length pos =? length mass)%nat && (length mass =? length sft)%nat
  | _, _, _ => true
  end.

(** The three scripts as one family of render runs. *)
Inductive view : Type :=
| FaceOn
| EdgeOnView
| TiltedView (angle_x angle_z : R).

Definition render (v : view) (files : list h5file) : result outcome :=
  match v with
  | FaceOn => Allstars.create_animation files
  | EdgeOnView => EdgeOn.create_animation files
  | TiltedView angle_x angle_z => Tilted.create_animation files angle_x angle_z
  end.

(** The pooled projected coordinates of a view, per plot axis. *)
Definition projected_pools (v : view) (snapshots : list snapshot)
  : list R * list R :=
  match v with
  | FaceOn => pools c1 snapshots
  | EdgeOnView => pools c2 snapshots
  | TiltedView angle_x angle_z => Tilted.rotated_pools angle_x angle_z snapshots
  end.

(** The limits and the frame of one snapshot, by view. *)
Definition view_limits (v : view) (snapshots : list snapshot)
  : result ((R * R) * (R * R)) :=
  match v with
  | FaceOn => Allstars.coordinate_limits snapshots
  | EdgeOnView => EdgeOn.coordinate_limits snapshots
  | TiltedView angle_x angle_z =>
      Tilted.coordinate_limits snapshots angle_x angle_z
  end.

Definition frame_of (v : view) (xlim ylim : R * R) (snap : snapshot) : axes :=
  match v with
  | FaceOn => Allstars.static_frame xlim ylim snap
  | EdgeOnView => EdgeOn.static_frame xlim ylim snap
  | TiltedView angle_x angle_z =>
      Tilted.static_frame angle_x angle_z xlim ylim snap
  end.

(** The static frames of a view. *)
Definition render_static (v : view) (files : list h5file) : result (list axes) :=
  match v with
  | FaceOn => Allstars.create_static_frames files
  | EdgeOnView => EdgeOn.create_static_frames files
  | TiltedView angle_x angle_z =>
      Tilted.create_static_frames files angle_x angle_z
  end.

(** The script bodies of [visualize_edge_on.py] (lines 268-294) and of
    [visualize_tilted.py] (lines 278-308), once the [../output] directory
    is known to exist: as in the face-on script, the static frames outside
    any handler, then the animation inside [try ... except Exception].  The
    tilted script passes [angle_x = 30] and [angle_z = 20] to both. *)
Definition edge_on_main (snapshot_files : list h5file)
  : result (list axes * result outcome) :=
  frames <- EdgeOn.create_static_frames snapshot_files ;;
  Ok (frames, EdgeOn.create_animation snapshot_files).

Definition tilted_main (snapshot_files : list h5file)
  : result (list axes * result outcome) :=
  let angle_x := 30 in
  let angle_z := 20 in
  frames <- Tilted.create_static_frames snapshot_files angle_x angle_z ;;
  Ok (frames, Tilted.create_animation snapshot_files angle_x angle_z).

(** The horizontal and the vertical coordinates of the points of a frame. *)
Definition plotted_x (f : axes) : list R := map fst (old_stars f ++ new_stars f).
Definition plotted_y (f : axes) : list R := map snd (old_stars f ++ new_stars f).

(** At least one snapshot holds a particle of some class. *)
Definition populated (snapshots : list snapshot) : Prop :=
  Exists (fun snap => stacked snap <> []) snapshots.





(** ** File names

    [str(i)] for a non-negative integer: its decimal digits. *)
Definition str_of_nat (i : nat) : string :=
  NilEmpty.string_of_uint (Nat.to_uint i).

Fixpoint zeros (n : nat) : string :=
  match n with
  | O => EmptyString
  | S k => String "0" (zeros k)
  end.

(** [f'{i:03d}']: the digits, with zeros in front up to three characters. *)
Definition format_03d (i : nat) : string :=
  let digits := str_of_nat i in
  String.append (zeros (3 - String.length digits)) digits.

Fixpoint ends_with_slash (s : string) : bool :=
  match s with
  | EmptyString => false
  | String ch EmptyString => Ascii.eqb ch "/"
  | String _ rest => ends_with_slash rest
  end.

(** [os.path.join(a, b)] on a POSIX system. *)
Definition path_join (a b : string) : string :=
  if String.prefix "/" b then b
  else if (String.eqb a "" || ends_with_slash a)%bool then String.append a b
  else String.append a (String.append "/" b).

(** Static frames, line 222 (260 edge-on, 270 tilted): the file of frame
    [i] is [os.path.join(frames_dir, f'frame_{i:03d}.png')]. *)
Definition frame_file (frames_dir : string) (i : nat) : string :=
  path_join frames_dir
    (String.append "frame_" (String.append (format_03d i) ".png")).

(** The files that the loop over [enumerate(zip(snapshot_files, snapshots))]
    saves: the figure of snapshot [i] under the name of frame [i]. *)
Definition saved_frames (frames_dir : string) (frames : list axes)
  : list (string * axes) :=
  combine (map (frame_file frames_dir) (seq 0 (length frames))) frames.

(** The number read from a string of decimal digits. *)
Definition read_digits (s : string) : option nat :=
  option_map Nat.of_uint (NilEmpty.uint_of_string s).

(** [s.replace(old, new)] for a non-empty [old]: the occurrences of [old]
    are found from left to right and do not overlap; [skip] counts the
    characters of a found occurrence that are still to be passed over. *)
Fixpoint replace_from (old new : string) (skip : nat) (s : string) : string :=
  match s with
  | EmptyString => EmptyString
  | String ch rest =>
      match skip with
      | S k => replace_from old new k rest
      | O =>
          if String.prefix old s
          then String.append new
                 (replace_from old new (String.length old - 1) rest)
          else String ch (replace_from old new 0 rest)
      end
  end.

Definition str_replace (old new s : string) : string := replace_from old new 0 s.

(** [old in s]. *)
Fixpoint contains (old s : string) : bool :=
  (String.prefix old s
   || match s with
      | EmptyString => false
      | String _ rest => contains old rest
      end)%bool.

(** Lines 146-155 of the face-on script (166-175 edge-on, 185-194 tilted):
    the animation is saved with the [ffmpeg] writer; if that raises, it is
    saved with the [pillow] writer under
    [gif_file = save_file.replace('.mp4', '.gif')].  Whether a writer works
    is not decided by the script and is a parameter here.  The result is the
    file written, or [None] when the second writer raises as well and the
    exception leaves [create_animation]. *)
Definition gif_file (save_file : string) : string :=
  str_replace ".mp4" ".gif" save_file.

Definition save_animation (save_file : string) (ffmpeg_works pillow_works : bool)
  : option string :=
  if ffmpeg_works then Some save_file
  else if pillow_works then Some (gif_file save_file)
  else None.

(** A snapshot with one more disk star. *)
Definition add_disk_star (p : vec3) (snap : snapshot) : snapshot :=
  {| newstars_pos := newstars_pos snap;
     newstars_mass := newstars_mass snap;
     newstars_time := newstars_time snap;
     disk_pos := p :: disk_pos snap;
     bulge_pos := bulge_pos snap;
     time := time snap |}.

(** Every particle of a snapshot, whatever its class. *)
Definition all_particles (snap : snapshot) : list vec3 :=
  newstars_pos snap ++ disk_pos snap ++ bulge_pos snap.

(** The point at which a view shows a particle, in the words of the
    projector's contract: the [(x, y)] columns face-on, the [(x, z)] columns
    edge-on; in the tilted view the first two coordinates after the
    right-handed rotation about X by [angle_x] degrees followed by the
    right-handed rotation about Z by [angle_z] degrees. *)
Definition project (v : view) (p : vec3) : vec2 :=
  match v with
  | FaceOn => (c0 p, c1 p)
  | EdgeOnView => (c0 p, c2 p)
  | TiltedView angle_x angle_z =>
      let r := rotate_about_z (angle_z * PI / 180)
                 (rotate_about_x (angle_x * PI / 180) p) in
      (c0 r, c1 r)
  end.

(** All projected points of a run: every particle of every class of every
    snapshot of the sequence, projected. *)
Definition all_projected_points (v : view) (snapshots : list snapshot)
  : list vec2 :=
  flat_map (fun snap => map (project v) (all_particles snap)) snapshots.

(** Two frames show the same data within the same limits. *)
Definition same_data (f g : axes) : Prop :=
  ax_xlim f = ax_xlim g /\ ax_ylim f = ax_ylim g /\
  old_stars f = old_stars g /\ new_stars f = new_stars g /\
  time_text f = time_text g /\ count_text f = count_text g.

(** * Example inputs *)

(** A snapshot with particles of two classes. *)
Definition mixed_snapshot : snapshot :=
  {| newstars_pos := [(0, 0, 1)]; newstars_mass := [1]; newstars_time := [0];
     disk_pos := [(1, 0, 0); (0, 1, 0)]; bulge_pos := [];
     time := 0 |}.

(** Before star formation: two disk stars, nothing else. *)
Definition early_snapshot : snapshot :=
  {| newstars_pos := []; newstars_mass := []; newstars_time := [];
     disk_pos := [(1, 0, 0); (-1, 0, 0)]; bulge_pos := [];
     time := 0 |}.

(** Later: one new star, two disk stars, one bulge star. *)
Definition late_snapshot : snapshot :=
  {| newstars_pos := [(0, 3, 0)]; newstars_mass := [1]; newstars_time := [0.4];
     disk_pos := [(2, 1, 0); (-2, -1, 0)]; bulge_pos := [(0, 0, 1)];
     time := 0.5 |}.

(** The file of [early_snapshot]: only the [PartType2] group. *)
Definition disk_only_file : h5file :=
  {| Header := Some {| Time := Some 0 |};
     PartType2 := Some {| Coordinates := Some [(1, 0, 0); (-1, 0, 0)];
                          Masses := None;
                          StellarFormationTime := None |};
     PartType3 := None;
     PartType4 := None |}.

(** A file with a time and no particle group. *)
Definition empty_file : h5file :=
  {| Header := Some {| Time := Some 0 |};
     PartType2 := None; PartType3 := None; PartType4 := None |}.

Definition empty_snapshot : snapshot :=
  {| newstars_pos := []; newstars_mass := []; newstars_time := [];
     disk_pos := []; bulge_pos := []; time := 0 |}.

(** A header without the [Time] attribute. *)
Definition untimed_file : h5file :=
  {| Header := Some {| Time := None |};
     PartType2 := Some {| Coordinates := Some [(1, 0, 0); (-1, 0, 0)];
                          Masses := None;
                          StellarFormationTime := None |};
     PartType3 := None;
     PartType4 := None |}.

(** A [PartType4] group that lacks the [Masses] dataset. *)
Definition stars_without_masses : h5file :=
  {| Header := Some {| Time := Some (1 / 2) |};
     PartType2 := None;
     PartType3 := None;
     PartType4 := Some {| Coordinates := Some [(0, 0, 0)];
                          Masses := None;
                          StellarFormationTime := Some [1 / 4] |} |}.

(** A [PartType4] group with one position row and no mass. *)
Definition ragged_file : h5file :=
  {| Header := Some {| Time := Some 0 |};
     PartType2 := None;
     PartType3 := None;
     PartType4 := Some {| Coordinates := Some [(0, 0, 0)];
                          Masses := Some [];
                          StellarFormationTime := Some [] |} |}.

(** Two disk stars, 125 apart along X, both 60 above the plane. *)
Definition thick_file : h5file :=
  {| Header := Some {| Time := Some 0 |};
     PartType2 := Some {| Coordinates := Some [(0, 0, 60); (125, 0, 60)];
                          Masses := None;
                          StellarFormationTime := None |};
     PartType3 := None;
     PartType4 := None |}.

Definition thick_snapshot : snapshot :=
  {| newstars_pos := []; newstars_mass := []; newstars_time := [];
     disk_pos := [(0, 0, 60); (125, 0, 60)]; bulge_pos := [];
     time := 0 |}.

Definition thick_frame : axes :=
  {| ax_xlim := (-11, 136); ax_ylim := (-49, 49);
     old_stars := [(0, 60); (125, 60)]; new_stars := [];
     time_text := Some 0; count_text := Some 0%nat |}.

(** Two disk stars on the diagonal of the X-Z plane, seen after a quarter
    turn about X, which puts Z on the vertical axis of the plot. *)
Definition diagonal_file : h5file :=
  {| Header := Some {| Time := Some 0 |};
     PartType2 := Some {| Coordinates := Some [(0, 0, 0); (125, 0, -125)];
                          Masses := None;
                          StellarFormationTime := None |};
     PartType3 := None;
     PartType4 := None |}.

Definition diagonal_snapshot : snapshot :=
  {| newstars_pos := []; newstars_mass := []; newstars_time := [];
     disk_pos := [(0, 0, 0); (125, 0, -125)]; bulge_pos := [];
     time := 0 |}.

(** The end-to-end scenario: three snapshots of the same two disk stars. *)
Definition scenario_file (t : R) : h5file :=
  {| Header := Some {| Time := Some t |};
     PartType2 := Some {| Coordinates := Some [(1, 0, 0); (-1, 0, 0)];
                          Masses := None;
                          StellarFormationTime := None |};
     PartType3 := None;
     PartType4 := None |}.

Definition scenario_snapshot (t : R) : snapshot :=
  {| newstars_pos := []; newstars_mass := []; newstars_time := [];
     disk_pos := [(1, 0, 0); (-1, 0, 0)]; bulge_pos := [];
     time := t |}.

Definition scenario_frame (t : R) : axes :=
  {| ax_xlim := (-12 / 10, 12 / 10); ax_ylim := (0, 0);
     old_stars := [(1, 0); (-1, 0)]; new_stars := [];
     time_text := Some t; count_text := Some 0%nat |}.

Definition scenario_files : list h5file :=
  [scenario_file 0; scenario_file (1 / 2); scenario_file 1].

(** A disk of 101 stars at the origin. *)
Definition crowd_snapshot : snapshot :=
  {| newstars_pos := []; newstars_mass := []; newstars_time := [];
     disk_pos := repeat (0, 0, 0) 101; bulge_pos := [];
     time := 0 |}.

(** Two disk stars above one another: the same X, different Z. *)
Definition column_file : h5file :=
  {| Header := Some {| Time := Some 0 |};
     PartType2 := Some {| Coordinates := Some [(5, 0, -1); (5, 0, 1)];
                          Masses := None;
                          StellarFormationTime := None |};
     PartType3 := None;
     PartType4 := None |}.

Definition column_snapshot : snapshot :=
  {| newstars_pos := []; newstars_mass := []; newstars_time := [];
     disk_pos := [(5, 0, -1); (5, 0, 1)]; bulge_pos := [];
     time := 0 |}.

(** * Properties *)

(** ** The result monad *)

Lemma bind_Ok {A B : Type} (r : result A) (k : A -> result B) (b : B) :
  bind r k = Ok b -> exists a, r = Ok a /\ k a = Ok b.
Proof.
  destruct r as [a | e]; simpl; intros H.
  - exists a. split; [reflexivity | exact H].
  - discriminate H.
Qed.

Ltac bind_inv H :=
  let a := fresh "v" in
  let Ha := fresh "E" in
  apply bind_Ok in H; destruct H as [a [Ha H]].

Lemma mapM_length {A B : Type} (f : A -> result B) (l : list A) (bs : list B) :
  mapM f l = Ok bs -> length bs = length l.
Proof.
  revert bs. induction l as [| a t IH]; simpl; intros bs H.
  - inversion H. reflexivity.
  - bind_inv H. bind_inv H. inversion H. simpl. f_equal. apply IH. exact E0.
Qed.

Lemma mapM_Raise {A B : Type} (f : A -> result B) (l : list A) :
  (exists a e, In a l /\ f a = Raise e) -> exists e, mapM f l = Raise e.
Proof.
  induction l as [| a t IH]; intros [x [e [Hin Hx]]].
  - destruct Hin.
  - simpl. destruct (f a) as [b | e'] eqn:Ea; simpl.
    + destruct Hin as [-> | Hin]; [congruence |].
      destruct IH as [e1 He1]; [exists x, e; auto |].
      rewrite He1. simpl. eauto.
    + eauto.
Qed.

(** ** Sorting *)

Lemma insert_perm (x : R) (l : list R) : Permutation (insert x l) (x :: l).
Proof.
  induction l as [| y t IH]; simpl.
  - apply Permutation_refl.
  - destruct (Rle_dec x y).
    + apply Permutation_refl.
    + eapply perm_trans; [apply perm_skip, IH | apply perm_swap].
Qed.

Lemma sort_perm (l : list R) : Permutation (sort l) l.
Proof.
  induction l as [| x t IH]; simpl.
  - constructor.
  - eapply perm_trans; [apply insert_perm | apply perm_skip, IH].
Qed.

Lemma insert_sorted (x : R) (l : list R) :
  StronglySorted Rle l -> StronglySorted Rle (insert x l).
Proof.
  induction 1 as [| y t Ht IH Hy]; simpl.
  - repeat constructor.
  - destruct (Rle_dec x y) as [Hxy | Hxy].
    + constructor; [constructor; assumption |].
      constructor; [exact Hxy |].
      eapply Forall_impl; [| exact Hy]. intros z Hz. lra.
    + constructor; [exact IH |].
      eapply Permutation_Forall; [apply Permutation_sym, insert_perm |].
      constructor; [lra | exact Hy].
Qed.

Lemma sort_sorted (l : list R) : StronglySorted Rle (sort l).
Proof.
  induction l as [| x t IH]; simpl.
  - constructor.
  - apply insert_sorted, IH.
Qed.

Lemma sorted_head_le (a : R) (l : list R) (x : R) :
  StronglySorted Rle (a :: l) -> In x (a :: l) -> a <= x.
Proof.
  intros H Hin. inversion H as [| ? ? _ Hall]; subst.
  destruct Hin as [-> | Hin]; [lra |].
  rewrite Forall_forall in Hall. auto.
Qed.

Lemma sorted_perm_eq (l1 l2 : list R) :
  StronglySorted Rle l1 -> StronglySorted Rle l2 -> Permutation l1 l2 ->
  l1 = l2.
Proof.
  revert l2. induction l1 as [| a t IH]; intros l2 H1 H2 HP.
  - apply Permutation_nil in HP. auto.
  - destruct l2 as [| b u].
    + apply Permutation_sym, Permutation_nil in HP. discriminate.
    + assert (a = b) as <-.
      { apply Rle_antisym.
        - apply (sorted_head_le a t b H1).
          eapply Permutation_in; [apply Permutation_sym, HP | left; auto].
        - apply (sorted_head_le b u a H2).
          eapply Permutation_in; [apply HP | left; auto]. }
      f_equal. apply IH.
      * inversion H1; assumption.
      * inversion H2; assumption.
      * eapply Permutation_cons_inv, HP.
Qed.

Lemma sort_perm_eq (a b : list R) : Permutation a b -> sort a = sort b.
Proof.
  intros HP. apply sorted_perm_eq; try apply sort_sorted.
  eapply perm_trans; [apply sort_perm |].
  eapply perm_trans; [exact HP | apply Permutation_sym, sort_perm].
Qed.

Lemma sort_length (l : list R) : length (sort l) = length l.
Proof. apply Permutation_length, sort_perm. Qed.

Lemma sort_nil_inv (l : list R) : sort l = [] -> l = [].
Proof.
  intros H. apply length_zero_iff_nil. rewrite <- sort_length, H. reflexivity.
Qed.

Lemma sorted_nth_le (s : list R) (d : R) (i j : nat) :
  StronglySorted Rle s -> (i <= j < length s)%nat -> nth i s d <= nth j s d.
Proof.
  intros Hs. revert i j. induction Hs as [| a t Ht IH Ha]; intros i j [Hij Hj].
  - simpl in Hj. lia.
  - destruct i as [| i], j as [| j]; simpl in *; try lia.
    + lra.
    + rewrite Forall_forall in Ha. apply Ha, nth_In. lia.
    + apply IH. lia.
Qed.

(** ** Percentiles *)

Lemma percentile_perm (a b : list R) (q : nat) :
  Permutation a b -> percentile a q = percentile b q.
Proof.
  intros HP. unfold percentile. rewrite (sort_perm_eq a b HP). reflexivity.
Qed.

Lemma percentile_nil (q : nat) : percentile [] q = Raise PercentileOfEmpty.
Proof. reflexivity. Qed.

Lemma percentile_defined (a : list R) (q : nat) :
  a <> [] -> exists v, percentile a q = Ok v.
Proof.
  intros Ha. unfold percentile.
  destruct (sort a) as [| s0 s] eqn:Es.
  - apply sort_nil_inv in Es. contradiction.
  - eexists. reflexivity.
Qed.

Lemma percentile_Ok_nonempty (a : list R) (q : nat) (v : R) :
  percentile a q = Ok v -> a <> [].
Proof. intros H ->. discriminate H. Qed.

Lemma lerp_between (a b t : R) :
  a <= b -> 0 <= t <= 1 -> a <= lerp a b t <= b.
Proof. unfold lerp. intros Hab Ht. nra. Qed.

Lemma lerp_mono (a b t u : R) :
  a <= b -> t <= u -> lerp a b t <= lerp a b u.
Proof. unfold lerp. intros Hab Htu. nra. Qed.

Lemma gamma_range (k : nat) : 0 <= INR (k mod 100) / 100 <= 1.
Proof.
  assert (H : (k mod 100 < 100)%nat) by (apply Nat.mod_upper_bound; lia).
  assert (H0 : 0 <= INR (k mod 100)) by apply pos_INR.
  apply lt_INR in H. replace (INR 100) with 100 in H by (simpl; lra). lra.
Qed.

Lemma percentile_unfold (a : list R) (q : nat) :
  percentile a q =
  match sort a with
  | [] => Raise PercentileOfEmpty
  | s0 :: t => Ok (interpolate (s0 :: t) s0 q)
  end.
Proof. reflexivity. Qed.

Lemma interpolate_mono (s : list R) (s0 : R) (q1 q2 : nat) :
  StronglySorted Rle s -> (1 <= length s)%nat -> (q1 <= q2 <= 100)%nat ->
  interpolate s s0 q1 <= interpolate s s0 q2.
Proof.
  intros Hs Hn Hq. unfold interpolate.
  set (n := length s) in *.
  set (k1 := ((n - 1) * q1)%nat). set (k2 := ((n - 1) * q2)%nat).
  assert (Hk : (k1 <= k2)%nat) by (unfold k1, k2; nia).
  assert (Hk2 : (k2 / 100 <= n - 1)%nat).
  { apply Nat.Div0.div_le_upper_bound. unfold k2. nia. }
  assert (Hp : (k1 / 100 <= k2 / 100)%nat) by (apply Nat.Div0.div_le_mono; lia).
  assert (Hb1 : nth (k1 / 100) s s0 <= nth (Nat.min (k1 / 100 + 1) (n - 1)) s s0).
  { apply sorted_nth_le; [exact Hs | fold n; lia]. }
  assert (Hb2 : nth (k2 / 100) s s0 <= nth (Nat.min (k2 / 100 + 1) (n - 1)) s s0).
  { apply sorted_nth_le; [exact Hs | fold n; lia]. }
  destruct (Nat.eq_dec (k1 / 100) (k2 / 100)) as [He | Hne].
  - rewrite He. apply lerp_mono; [exact Hb2 |].
    assert (Hm : (k1 mod 100 <= k2 mod 100)%nat).
    { pose proof (Nat.div_mod_eq k1 100). pose proof (Nat.div_mod_eq k2 100).
      lia. }
    apply le_INR in Hm. lra.
  - pose proof (lerp_between _ _ _ Hb1 (gamma_range k1)) as [_ Hu].
    pose proof (lerp_between _ _ _ Hb2 (gamma_range k2)) as [Hl _].
    eapply Rle_trans; [exact Hu |].
    eapply Rle_trans; [| exact Hl].
    apply sorted_nth_le; [exact Hs | fold n; lia].
Qed.

(** The percentile is monotone in [q] on [0..100]. *)
Lemma percentile_mono (a : list R) (q1 q2 : nat) (v1 v2 : R) :
  (q1 <= q2 <= 100)%nat ->
  percentile a q1 = Ok v1 -> percentile a q2 = Ok v2 -> v1 <= v2.
Proof.
  intros Hq. rewrite !percentile_unfold.
  pose proof (sort_sorted a) as Hs.
  destruct (sort a) as [| s0 t] eqn:Es; [discriminate |].
  intros H1 H2.
  assert (E1 : v1 = interpolate (s0 :: t) s0 q1) by congruence.
  assert (E2 : v2 = interpolate (s0 :: t) s0 q2) by congruence.
  rewrite E1, E2. apply interpolate_mono; [exact Hs | | exact Hq].
  cbn [length]. lia.
Qed.

Lemma percentile_limits_perm (a b : list R) :
  Permutation a b -> percentile_limits a = percentile_limits b.
Proof.
  intros HP. unfold percentile_limits.
  rewrite (percentile_perm a b 1 HP), (percentile_perm a b 99 HP). reflexivity.
Qed.

Lemma percentile_limits_nil : percentile_limits [] = Raise PercentileOfEmpty.
Proof. reflexivity. Qed.

Lemma percentile_limits_defined (a : list R) :
  a <> [] -> exists lim, percentile_limits a = Ok lim.
Proof.
  intros Ha. unfold percentile_limits.
  destruct (percentile_defined a 1 Ha) as [lo ->].
  destruct (percentile_defined a 99 Ha) as [hi ->].
  simpl. eauto.
Qed.

Lemma percentile_limits_Ok (a : list R) (lim : R * R) :
  percentile_limits a = Ok lim ->
  percentile a 1 = Ok (fst lim) /\ percentile a 99 = Ok (snd lim) /\
  fst lim <= snd lim /\ a <> [].
Proof.
  unfold percentile_limits. intros H.
  bind_inv H. bind_inv H. inversion H; subst lim; simpl.
  repeat split; try assumption.
  - eapply percentile_mono; [| exact E | exact E0]. lia.
  - eapply percentile_Ok_nonempty, E.
Qed.

Lemma percentile_limits_Raise (a : list R) (e : exn) :
  percentile_limits a = Raise e -> a = [] /\ e = PercentileOfEmpty.
Proof.
  destruct a as [| x t]; intros H.
  - rewrite percentile_limits_nil in H. inversion H. auto.
  - destruct (percentile_limits_defined (x :: t)) as [lim Hl]; [discriminate |].
    congruence.
Qed.

(** The padded interval contains the interval it pads. *)
Lemma pad_contains (lim : R * R) :
  fst lim <= snd lim ->
  fst (pad lim) <= fst lim /\ snd lim <= snd (pad lim).
Proof. unfold pad. simpl. intros H. lra. Qed.

(** ** The pooled coordinates *)

Lemma extend_pools_eq (k : vec3 -> R) (acc : list R * list R) (snap : snapshot) :
  extend_pools k acc snap =
  (fst acc ++ class_column c0 snap, snd acc ++ class_column k snap).
Proof.
  unfold extend_pools, class_column.
  destruct (newstars_pos snap) as [| p t]; simpl;
    rewrite <- ?app_assoc; reflexivity.
Qed.

Lemma fold_extend_pools (k : vec3 -> R) (snapshots : list snapshot)
  (acc : list R * list R) :
  fold_left (extend_pools k) snapshots acc =
  (fst acc ++ flat_map (class_column c0) snapshots,
   snd acc ++ flat_map (class_column k) snapshots).
Proof.
  revert acc. induction snapshots as [| snap t IH]; intros acc; simpl.
  - rewrite !app_nil_r. destruct acc; reflexivity.
  - rewrite IH, extend_pools_eq. simpl. rewrite <- !app_assoc. reflexivity.
Qed.

Lemma pools_flat_map (k : vec3 -> R) (snapshots : list snapshot) :
  pools k snapshots =
  (flat_map (class_column c0) snapshots, flat_map (class_column k) snapshots).
Proof. unfold pools. rewrite fold_extend_pools. reflexivity. Qed.

Lemma Permutation_flat_map_list {A B : Type} (f : A -> list B) (l l' : list A) :
  Permutation l l' -> Permutation (flat_map f l) (flat_map f l').
Proof.
  induction 1 as [| x l l' _ IH | x y l | l l' l'' _ IH1 _ IH2]; simpl.
  - constructor.
  - apply Permutation_app_head, IH.
  - rewrite !app_assoc. apply Permutation_app_tail, Permutation_app_comm.
  - eapply perm_trans; eassumption.
Qed.

Lemma flat_map_length_eq {A B C : Type} (f : A -> list B) (g : A -> list C)
  (l : list A) :
  (forall a, length (f a) = length (g a)) ->
  length (flat_map f l) = length (flat_map g l).
Proof.
  intros H. induction l as [| a t IH]; simpl.
  - reflexivity.
  - rewrite !length_app, H, IH. reflexivity.
Qed.

Lemma class_column_length (k k' : vec3 -> R) (snap : snapshot) :
  length (class_column k snap) = length (class_column k' snap).
Proof.
  unfold class_column, column. rewrite !length_app, !length_map. reflexivity.
Qed.

(** The two pools are empty together. *)
Lemma pools_nil_iff (k : vec3 -> R) (snapshots : list snapshot) :
  fst (pools k snapshots) = [] <-> snd (pools k snapshots) = [].
Proof.
  rewrite pools_flat_map. simpl.
  rewrite <- !length_zero_iff_nil.
  rewrite (flat_map_length_eq (class_column c0) (class_column k));
    [tauto | intros; apply class_column_length].
Qed.

(** ** Frames *)

Lemma draw_frames_steady (animate : nat -> axes -> result axes) (n : nat)
  (frames : list nat) (ax : axes) :
  steady animate n -> Forall (fun k => (k < n)%nat) frames ->
  exists fs, draw_frames animate frames ax = Ok fs /\
             length fs = length frames /\
             Forall (same_limits ax) fs.
Proof.
  intros Hst. revert ax.
  induction frames as [| k rest IH]; intros ax Hall; simpl.
  - exists []. repeat split; constructor.
  - inversion Hall as [| ? ? Hk Hrest]; subst.
    destruct (Hst k ax Hk) as [ax' [Ea [Hx Hy]]].
    destruct (IH ax' Hrest) as [fs [Ef [Hlen Hfs]]].
    rewrite Ea. simpl. rewrite Ef. simpl. exists (ax' :: fs).
    repeat split; [simpl; congruence |].
    constructor; [split; assumption |].
    eapply Forall_impl; [| exact Hfs].
    intros f [Hfx Hfy]. split; congruence.
Qed.

Lemma FuncAnimation_steady (animate : nat -> axes -> result axes) (n : nat)
  (ax : axes) :
  steady animate n ->
  exists fs, FuncAnimation animate n ax = Ok fs /\
             length fs = n /\
             Forall (same_limits ax) fs.
Proof.
  intros Hst. unfold FuncAnimation.
  destruct (draw_frames_steady animate n (seq 0 n) (init ax) Hst)
    as [fs [Ef [Hlen Hfs]]].
  - apply Forall_forall. intros k Hk. apply in_seq in Hk. lia.
  - exists fs. rewrite length_seq in Hlen. repeat split; assumption.
Qed.

Lemma index_lt {A : Type} (l : list A) (i : nat) :
  (i < length l)%nat -> exists a, index l i = Ok a /\ nth_error l i = Some a.
Proof.
  intros Hi. unfold index.
  destruct (nth_error l i) as [a |] eqn:E.
  - eauto.
  - apply nth_error_None in E. lia.
Qed.

Lemma Allstars_animate_steady (snapshots : list snapshot) :
  steady (Allstars.animate snapshots) (length snapshots).
Proof.
  intros k ax Hk. unfold Allstars.animate.
  destruct (index_lt snapshots k Hk) as [snap [-> _]]. simpl.
  eexists. split; [reflexivity | split; reflexivity].
Qed.

Lemma EdgeOn_animate_steady (snapshots : list snapshot) :
  steady (EdgeOn.animate snapshots) (length snapshots).
Proof.
  intros k ax Hk. unfold EdgeOn.animate.
  destruct (index_lt snapshots k Hk) as [snap [-> _]]. simpl.
  eexists. split; [reflexivity | split; reflexivity].
Qed.

Lemma Tilted_animate_steady (angle_x angle_z : R) (snapshots : list snapshot) :
  steady (Tilted.animate angle_x angle_z snapshots) (length snapshots).
Proof.
  intros k ax Hk. unfold Tilted.animate.
  destruct (index_lt snapshots k Hk) as [snap [-> _]]. simpl.
  eexists. split; [reflexivity | split; reflexivity].
Qed.

(** ** View windows *)

Lemma padded_percentile_window_intro (pool : list R) (lim : R * R) :
  percentile_limits pool = Ok lim -> padded_percentile_window pool (pad lim).
Proof.
  intros H. apply percentile_limits_Ok in H.
  destruct H as [H1 [H99 [Hle _]]].
  exists (fst lim), (snd lim). unfold pad. simpl.
  repeat split; try assumption; lra.
Qed.

Lemma Allstars_limits_inv (snapshots : list snapshot) (xlim ylim : R * R) :
  Allstars.coordinate_limits snapshots = Ok (xlim, ylim) ->
  padded_percentile_window (fst (pools c1 snapshots)) xlim /\
  padded_percentile_window (snd (pools c1 snapshots)) ylim.
Proof.
  unfold Allstars.coordinate_limits. intros H.
  bind_inv H. bind_inv H. inversion H; subst.
  split; apply padded_percentile_window_intro; assumption.
Qed.

Lemma EdgeOn_limits_inv (snapshots : list snapshot) (xlim zlim : R * R) :
  EdgeOn.coordinate_limits snapshots = Ok (xlim, zlim) ->
  padded_percentile_window (fst (pools c2 snapshots)) xlim /\
  zlim = third_of xlim.
Proof.
  unfold EdgeOn.coordinate_limits. intros H.
  bind_inv H. bind_inv H. inversion H; subst.
  split; [apply padded_percentile_window_intro; assumption | reflexivity].
Qed.

Lemma Tilted_limits_inv (snapshots : list snapshot) (angle_x angle_z : R)
  (xlim ylim : R * R) :
  Tilted.coordinate_limits snapshots angle_x angle_z = Ok (xlim, ylim) ->
  padded_percentile_window
    (fst (Tilted.rotated_pools angle_x angle_z snapshots)) xlim /\
  padded_percentile_window
    (snd (Tilted.rotated_pools angle_x angle_z snapshots)) ylim.
Proof.
  unfold Tilted.coordinate_limits. intros H.
  bind_inv H. bind_inv H. inversion H; subst.
  split; apply padded_percentile_window_intro; assumption.
Qed.

(** ** Render runs *)

Lemma Allstars_animation_inv (files : list h5file) (frames : list axes) :
  Allstars.create_animation files = Ok (Saved frames) ->
  exists snapshots lims,
    mapM load_snapshot files = Ok snapshots /\
    Allstars.coordinate_limits snapshots = Ok lims /\
    length frames = length files /\ files <> [] /\
    drawn_with lims frames.
Proof.
  unfold Allstars.create_animation. destruct files as [| f0 rest];
    [discriminate |].
  set (files := f0 :: rest). intros H.
  bind_inv H. bind_inv H. bind_inv H. inversion H; subst.
  destruct (FuncAnimation_steady (Allstars.animate v) (length v)
              (subplots (fst v0) (snd v0)) (Allstars_animate_steady v))
    as [fs [Ef [Hlen Hfs]]].
  rewrite Ef in E1. inversion E1; subst.
  exists v, v0. repeat split; try assumption.
  - rewrite Hlen. eapply mapM_length, E.
  - discriminate.
Qed.

Lemma EdgeOn_animation_inv (files : list h5file) (frames : list axes) :
  EdgeOn.create_animation files = Ok (Saved frames) ->
  exists snapshots lims,
    mapM load_snapshot files = Ok snapshots /\
    EdgeOn.coordinate_limits snapshots = Ok lims /\
    length frames = length files /\ files <> [] /\
    drawn_with lims frames.
Proof.
  unfold EdgeOn.create_animation. destruct files as [| f0 rest];
    [discriminate |].
  set (files := f0 :: rest). intros H.
  bind_inv H. bind_inv H. bind_inv H. bind_inv H. inversion H; subst.
  unfold EdgeOn.figure in E1.
  destruct (Req_dec_T _ 0) in E1; [discriminate |]. inversion E1; subst.
  destruct (FuncAnimation_steady (EdgeOn.animate v) (length v)
              (subplots (fst v0) (snd v0)) (EdgeOn_animate_steady v))
    as [fs [Ef [Hlen Hfs]]].
  rewrite Ef in E2. inversion E2; subst.
  exists v, v0. repeat split; try assumption.
  - rewrite Hlen. eapply mapM_length, E.
  - discriminate.
Qed.

Lemma Tilted_animation_inv (files : list h5file) (angle_x angle_z : R)
  (frames : list axes) :
  Tilted.create_animation files angle_x angle_z = Ok (Saved frames) ->
  exists snapshots lims,
    mapM load_snapshot files = Ok snapshots /\
    Tilted.coordinate_limits snapshots angle_x angle_z = Ok lims /\
    length frames = length files /\ files <> [] /\
    drawn_with lims frames.
Proof.
  unfold Tilted.create_animation. destruct files as [| f0 rest];
    [discriminate |].
  set (files := f0 :: rest). intros H.
  bind_inv H. bind_inv H. bind_inv H. inversion H; subst.
  destruct (FuncAnimation_steady (Tilted.animate angle_x angle_z v) (length v)
              (subplots (fst v0) (snd v0))
              (Tilted_animate_steady angle_x angle_z v))
    as [fs [Ef [Hlen Hfs]]].
  rewrite Ef in E1. inversion E1; subst.
  exists v, v0. repeat split; try assumption.
  - rewrite Hlen. eapply mapM_length, E.
  - discriminate.
Qed.

(** A run over files that load and hold at least one particle saves one
    frame per file. *)
Lemma Allstars_animation_total (files : list h5file)
  (snapshots : list snapshot) :
  files <> [] ->
  mapM load_snapshot files = Ok snapshots ->
  fst (pools c1 snapshots) <> [] ->
  exists frames lims,
    Allstars.create_animation files = Ok (Saved frames) /\
    Allstars.coordinate_limits snapshots = Ok lims /\
    length frames = length files /\ drawn_with lims frames.
Proof.
  intros Hne Hload Hpool.
  assert (Hpool' : snd (pools c1 snapshots) <> []).
  { intros H. apply Hpool, pools_nil_iff, H. }
  destruct (percentile_limits_defined _ Hpool) as [xl Hx].
  destruct (percentile_limits_defined _ Hpool') as [yl Hy].
  assert (Hl : Allstars.coordinate_limits snapshots = Ok (pad xl, pad yl)).
  { unfold Allstars.coordinate_limits. rewrite Hx, Hy. reflexivity. }
  destruct (FuncAnimation_steady (Allstars.animate snapshots)
              (length snapshots) (subplots (pad xl) (pad yl))
              (Allstars_animate_steady snapshots)) as [fs [Ef [Hlen Hfs]]].
  exists fs, (pad xl, pad yl).
  unfold Allstars.create_animation.
  destruct files as [| f0 rest]; [contradiction |].
  rewrite Hload. simpl bind. rewrite Hl. simpl bind. simpl fst. simpl snd.
  rewrite Ef. simpl.
  repeat split; try assumption.
  rewrite Hlen. apply (mapM_length _ _ _ Hload).
Qed.

(** ** Percentiles of two values *)

Lemma sort_pair (a b : R) : a <= b -> sort [a; b] = [a; b] /\ sort [b; a] = [a; b].
Proof.
  intros Hab. simpl. split.
  - destruct (Rle_dec a b); [reflexivity | contradiction].
  - destruct (Rle_dec b a) as [Hba | Hba]; [| reflexivity].
    assert (a = b) by lra. subst. reflexivity.
Qed.

Lemma percentile_limits_pair (a b : R) :
  a <= b ->
  percentile_limits [a; b] = Ok (a + (b - a) * (1 / 100), a + (b - a) * (99 / 100)).
Proof.
  intros Hab. unfold percentile_limits. rewrite !percentile_unfold.
  destruct (sort_pair a b Hab) as [-> _]. unfold interpolate, lerp.
  cbn [length Nat.sub Nat.mul Nat.add bind].
  change (1 / 100)%nat with 0%nat. change (99 / 100)%nat with 0%nat.
  change (1 mod 100)%nat with 1%nat. change (99 mod 100)%nat with 99%nat.
  cbn [Nat.add Nat.min nth].
  rewrite !INR_IZR_INZ. reflexivity.
Qed.

Lemma percentile_limits_pair_rev (a b : R) :
  a <= b ->
  percentile_limits [b; a] = Ok (a + (b - a) * (1 / 100), a + (b - a) * (99 / 100)).
Proof.
  intros Hab. rewrite <- (percentile_limits_pair a b Hab).
  apply percentile_limits_perm, perm_swap.
Qed.

(** ** Rotation *)

Lemma vec3_eq (a b c a' b' c' : R) :
  a = a' -> b = b' -> c = c' -> (a, b, c) = (a', b', c').
Proof. intros -> -> ->. reflexivity. Qed.

Lemma Rx_rotates (theta : R) (p : vec3) :
  Tilted.row_times p (Tilted.transpose (Tilted.Rx theta)) =
  rotate_about_x theta p /\
  mat_vec (Tilted.Rx theta) p = rotate_about_x theta p.
Proof.
  destruct p as [[x y] z].
  split; unfold rotate_about_x, mat_vec, dot; simpl;
    unfold c0, c1, c2; simpl; apply vec3_eq; ring.
Qed.

Lemma Rz_rotates (theta : R) (p : vec3) :
  Tilted.row_times p (Tilted.transpose (Tilted.Rz theta)) =
  rotate_about_z theta p /\
  mat_vec (Tilted.Rz theta) p = rotate_about_z theta p.
Proof.
  destruct p as [[x y] z].
  split; unfold rotate_about_z, mat_vec, dot; simpl;
    unfold c0, c1, c2; simpl; apply vec3_eq; ring.
Qed.

Lemma mat_vec_mul (M N : mat3) (p : vec3) :
  mat_vec (mat_mul M N) p = mat_vec M (mat_vec N p).
Proof.
  destruct M as [[[[a b] c] [[d e] f]] [[g h] i]].
  destruct N as [[[[a' b'] c'] [[d' e'] f']] [[g' h'] i']].
  destruct p as [[x y] z].
  unfold mat_vec, mat_mul, Tilted.transpose; simpl.
  unfold dot, c0, c1, c2; simpl. apply vec3_eq; ring.
Qed.

Lemma rotate_3d_rows (pos : list vec3) (angle_x angle_z : R) :
  Tilted.rotate_3d pos angle_x angle_z =
  map (fun p => rotate_about_z (Tilted.radians angle_z)
                  (rotate_about_x (Tilted.radians angle_x) p)) pos.
Proof.
  unfold Tilted.rotate_3d, Tilted.matmul. rewrite map_map.
  apply map_ext. intros p.
  rewrite (proj1 (Rx_rotates _ p)), (proj1 (Rz_rotates _ _)). reflexivity.
Qed.

Lemma rotate_3d_length (pos : list vec3) (angle_x angle_z : R) :
  length (Tilted.rotate_3d pos angle_x angle_z) = length pos.
Proof. rewrite rotate_3d_rows. apply length_map. Qed.

Lemma radians_0 : Tilted.radians 0 = 0.
Proof. unfold Tilted.radians. ring. Qed.

Lemma radians_90 : Tilted.radians 90 = PI / 2.
Proof. unfold Tilted.radians. field. Qed.

Lemma rotate_3d_zero (pos : list vec3) : Tilted.rotate_3d pos 0 0 = pos.
Proof.
  rewrite rotate_3d_rows, radians_0.
  rewrite <- (map_id pos) at 2. apply map_ext. intros [[x y] z].
  unfold rotate_about_z, rotate_about_x, c0, c1, c2; simpl.
  rewrite cos_0, sin_0. apply vec3_eq; ring.
Qed.

(** A quarter turn about X shows the X-Z plane: [(x, y, z)] goes to
    [(x, -z, y)]. *)
Lemma rotate_3d_quarter (pos : list vec3) :
  Tilted.rotate_3d pos 90 0 = map (fun p => (c0 p, - c2 p, c1 p)) pos.
Proof.
  rewrite rotate_3d_rows, radians_0, radians_90.
  apply map_ext. intros [[x y] z].
  unfold rotate_about_z, rotate_about_x, c0, c1, c2; simpl.
  rewrite cos_0, sin_0, cos_PI2, sin_PI2. apply vec3_eq; ring.
Qed.

Lemma rotate_about_x_dist (theta : R) (p q : vec3) :
  dist3 (rotate_about_x theta p) (rotate_about_x theta q) = dist3 p q.
Proof.
  destruct p as [[x y] z], q as [[x' y'] z'].
  unfold dist3, rotate_about_x, c0, c1, c2; simpl. f_equal.
  pose proof (sin2_cos2 theta) as H. unfold Rsqr in H.
  replace ((x - x') * ((x - x') * 1) +
           (cos theta * y - sin theta * z - (cos theta * y' - sin theta * z')) *
           ((cos theta * y - sin theta * z - (cos theta * y' - sin theta * z')) * 1) +
           (sin theta * y + cos theta * z - (sin theta * y' + cos theta * z')) *
           ((sin theta * y + cos theta * z - (sin theta * y' + cos theta * z')) * 1))
    with ((x - x') * (x - x') +
          (sin theta * sin theta + cos theta * cos theta) *
          ((y - y') * (y - y') + (z - z') * (z - z'))) by ring.
  rewrite H. ring.
Qed.

Lemma rotate_about_z_dist (theta : R) (p q : vec3) :
  dist3 (rotate_about_z theta p) (rotate_about_z theta q) = dist3 p q.
Proof.
  destruct p as [[x y] z], q as [[x' y'] z'].
  unfold dist3, rotate_about_z, c0, c1, c2; simpl. f_equal.
  pose proof (sin2_cos2 theta) as H. unfold Rsqr in H.
  replace ((cos theta * x - sin theta * y - (cos theta * x' - sin theta * y')) *
           ((cos theta * x - sin theta * y - (cos theta * x' - sin theta * y')) * 1) +
           (sin theta * x + cos theta * y - (sin theta * x' + cos theta * y')) *
           ((sin theta * x + cos theta * y - (sin theta * x' + cos theta * y')) * 1) +
           (z - z') * ((z - z') * 1))
    with ((sin theta * sin theta + cos theta * cos theta) *
          ((x - x') * (x - x') + (y - y') * (y - y')) +
          (z - z') * (z - z')) by ring.
  rewrite H. ring.
Qed.

Lemma rotated_nth (pos : list vec3) (angle_x angle_z : R) (i : nat) (d : vec3) :
  (i < length pos)%nat ->
  nth i (Tilted.rotate_3d pos angle_x angle_z) d =
  rotate_about_z (Tilted.radians angle_z)
    (rotate_about_x (Tilted.radians angle_x) (nth i pos d)).
Proof.
  intros Hi. rewrite rotate_3d_rows.
  set (f := fun p => rotate_about_z _ (rotate_about_x _ p)).
  rewrite (nth_indep _ d (f d)) by (rewrite length_map; exact Hi).
  apply map_nth.
Qed.

Lemma Tilted_animate_offsets (angle_x angle_z : R) (snapshots : list snapshot)
  (frame : nat) (ax : axes) (snap : snapshot) :
  nth_error snapshots frame = Some snap ->
  Tilted.animate angle_x angle_z snapshots frame ax =
  Ok (set_frame ax
        (cols01 (Tilted.rotate_3d (disk_pos snap ++ bulge_pos snap)
                   angle_x angle_z))
        (cols01 (Tilted.rotate_3d (newstars_pos snap) angle_x angle_z))
        snap).
Proof.
  intros Hn. unfold Tilted.animate, index. rewrite Hn. simpl.
  destruct (newstars_pos snap); reflexivity.
Qed.

(** ** Claims about the rotation *)

Lemma radians_degrees (deg : R) : Tilted.radians deg = deg * PI / 180.
Proof. unfold Tilted.radians. field. Qed.

Lemma rotate_3d_quarter_z (pos : list vec3) :
  Tilted.rotate_3d pos 0 90 = map (fun p => (- c1 p, c0 p, c2 p)) pos.
Proof.
  rewrite rotate_3d_rows, radians_0, radians_90.
  apply map_ext. intros [[x y] z].
  unfold rotate_about_z, rotate_about_x, c0, c1, c2; simpl.
  rewrite cos_0, sin_0, cos_PI2, sin_PI2. apply vec3_eq; ring.
Qed.

(** C4.  [rotate_3d] turns every row about the X axis by [angle_x] degrees
    first and about the Z axis by [angle_z] degrees second, both
    right-handed: the result is the row-vector product [pos @ Rx.T @ Rz.T]
    with the matrices of the angles [angle_x * PI / 180] and
    [angle_z * PI / 180], which is [Rz (Rx p)], and [(Rz Rx) p], on every
    row [p] taken as a column vector.  A quarter turn, 90 degrees, about X
    takes the Y axis to the Z axis and one about Z takes the X axis to the
    Y axis.  The points that [animate] plots are the first two columns of
    the rotated rows. *)
Theorem C4_rotation_order :
  forall (pos : list vec3) (angle_x angle_z : R)
         (snapshots : list snapshot) (frame : nat) (ax : axes)
         (snap : snapshot),
    nth_error snapshots frame = Some snap ->
    Tilted.rotate_3d pos angle_x angle_z =
      Tilted.matmul
        (Tilted.matmul pos
           (Tilted.transpose (Tilted.Rx (angle_x * PI / 180))))
        (Tilted.transpose (Tilted.Rz (angle_z * PI / 180))) /\
    Tilted.rotate_3d pos angle_x angle_z =
      map (fun p => rotate_about_z (angle_z * PI / 180)
                      (rotate_about_x (angle_x * PI / 180) p)) pos /\
    Tilted.rotate_3d pos angle_x angle_z =
      map (fun p => mat_vec (Tilted.Rz (angle_z * PI / 180))
                      (mat_vec (Tilted.Rx (angle_x * PI / 180)) p)) pos /\
    Tilted.rotate_3d pos angle_x angle_z =
      map (mat_vec (mat_mul (Tilted.Rz (angle_z * PI / 180))
                      (Tilted.Rx (angle_x * PI / 180)))) pos /\
    Tilted.rotate_3d pos 90 0 = map (fun p => (c0 p, - c2 p, c1 p)) pos /\
    Tilted.rotate_3d pos 0 90 = map (fun p => (- c1 p, c0 p, c2 p)) pos /\
    exists ax',
      Tilted.animate angle_x angle_z snapshots frame ax = Ok ax' /\
      old_stars ax' =
        map (fun p =>
               (c0 (rotate_about_z (angle_z * PI / 180)
                      (rotate_about_x (angle_x * PI / 180) p)),
                c1 (rotate_about_z (angle_z * PI / 180)
                      (rotate_about_x (angle_x * PI / 180) p))))
          (vstack (disk_pos snap) (bulge_pos snap)) /\
      new_stars ax' =
        map (fun p =>
               (c0 (rotate_about_z (angle_z * PI / 180)
                      (rotate_about_x (angle_x * PI / 180) p)),
                c1 (rotate_about_z (angle_z * PI / 180)
                      (rotate_about_x (angle_x * PI / 180) p))))
          (newstars_pos snap).
Proof.
  intros pos angle_x angle_z snapshots frame ax snap Hn.
  assert (Hrows : forall a : list vec3,
             Tilted.rotate_3d a angle_x angle_z =
             map (fun p => rotate_about_z (angle_z * PI / 180)
                             (rotate_about_x (angle_x * PI / 180) p)) a).
  { intros a. rewrite rotate_3d_rows, !radians_degrees. reflexivity. }
  split.
  { unfold Tilted.rotate_3d. rewrite !radians_degrees. reflexivity. }
  split; [apply Hrows |].
  split.
  { rewrite Hrows. apply map_ext. intros p.
    rewrite (proj2 (Rx_rotates _ p)), (proj2 (Rz_rotates _ _)). reflexivity. }
  split.
  { rewrite Hrows. apply map_ext. intros p.
    rewrite mat_vec_mul.
    rewrite (proj2 (Rx_rotates _ p)), (proj2 (Rz_rotates _ _)). reflexivity. }
  split; [apply rotate_3d_quarter |].
  split; [apply rotate_3d_quarter_z |].
  eexists. split; [apply Tilted_animate_offsets; exact Hn |].
  unfold set_frame, cols01, vstack. cbn [old_stars new_stars].
  rewrite !Hrows, !map_map. split; reflexivity.
Qed.

Lemma C4_rotation_order_witness :
  Tilted.rotate_3d [(1, 0, 0); (0, 1, 0); (0, 0, 1)] 30 20 =
    map (fun p => rotate_about_z (20 * PI / 180)
                    (rotate_about_x (30 * PI / 180) p))
      [(1, 0, 0); (0, 1, 0); (0, 0, 1)] /\
  Tilted.rotate_3d [(1, 0, 0); (0, 1, 0); (0, 0, 1)] 90 0 =
    map (fun p => (c0 p, - c2 p, c1 p)) [(1, 0, 0); (0, 1, 0); (0, 0, 1)] /\
  Tilted.rotate_3d [(1, 0, 0); (0, 1, 0); (0, 0, 1)] 0 90 =
    map (fun p => (- c1 p, c0 p, c2 p)) [(1, 0, 0); (0, 1, 0); (0, 0, 1)] /\
  exists ax',
    Tilted.animate 30 20 [mixed_snapshot] 0 (subplots (0, 1) (0, 1)) = Ok ax' /\
    old_stars ax' =
      map (fun p =>
             (c0 (rotate_about_z (20 * PI / 180)
                    (rotate_about_x (30 * PI / 180) p)),
              c1 (rotate_about_z (20 * PI / 180)
                    (rotate_about_x (30 * PI / 180) p))))
        (vstack (disk_pos mixed_snapshot) (bulge_pos mixed_snapshot)) /\
    new_stars ax' =
      map (fun p =>
             (c0 (rotate_about_z (20 * PI / 180)
                    (rotate_about_x (30 * PI / 180) p)),
              c1 (rotate_about_z (20 * PI / 180)
                    (rotate_about_x (30 * PI / 180) p))))
        (newstars_pos mixed_snapshot).
Proof.
  destruct (C4_rotation_order [(1, 0, 0); (0, 1, 0); (0, 0, 1)] 30 20
              [mixed_snapshot] 0%nat (subplots (0, 1) (0, 1)) mixed_snapshot
              eq_refl)
    as [_ [H1 [_ [_ [H2 [H3 H4]]]]]].
  split; [exact H1 | split; [exact H2 | split; [exact H3 | exact H4]]].
Defined.

(** C6.  With both angles zero the rotation changes nothing: the projected
    points are the [(x, y)] columns of the input. *)
Theorem C6_zero_angles_identity :
  forall pos : list vec3,
    Tilted.rotate_3d pos 0 0 = pos /\
    cols01 (Tilted.rotate_3d pos 0 0) = map (fun p => (c0 p, c1 p)) pos.
Proof.
  intros pos. rewrite rotate_3d_zero. split; reflexivity.
Qed.

(** C7.  The rotation keeps the Euclidean distance between any two rows of
    the array. *)
Theorem C7_rotation_preserves_distances :
  forall (pos : list vec3) (angle_x angle_z : R) (i j : nat) (d : vec3),
    (i < length pos)%nat -> (j < length pos)%nat ->
    dist3 (nth i (Tilted.rotate_3d pos angle_x angle_z) d)
          (nth j (Tilted.rotate_3d pos angle_x angle_z) d) =
    dist3 (nth i pos d) (nth j pos d).
Proof.
  intros pos angle_x angle_z i j d Hi Hj.
  rewrite !rotated_nth by assumption.
  rewrite rotate_about_z_dist. apply rotate_about_x_dist.
Qed.

Lemma C7_rotation_preserves_distances_witness :
  dist3 (nth 0 (Tilted.rotate_3d [(1, 0, 0); (0, 2, 5)] 30 20) (0, 0, 0))
        (nth 1 (Tilted.rotate_3d [(1, 0, 0); (0, 2, 5)] 30 20) (0, 0, 0)) =
  dist3 (1, 0, 0) (0, 2, 5).
Proof.
  apply (C7_rotation_preserves_distances [(1, 0, 0); (0, 2, 5)] 30 20 0 1
           (0, 0, 0)); simpl; lia.
Defined.

(** ** Pools of the tilted view *)

Lemma extend_rotated_eq (angle_x angle_z : R) (acc : list R * list R)
  (snap : snapshot) :
  Tilted.extend_rotated angle_x angle_z acc snap =
  (fst acc ++ column c0 (Tilted.rotate_3d (stacked snap) angle_x angle_z),
   snd acc ++ column c1 (Tilted.rotate_3d (stacked snap) angle_x angle_z)).
Proof.
  unfold Tilted.extend_rotated, stacked, vstack.
  destruct (newstars_pos snap) as [| p t].
  - change (0 <? length (@nil vec3))%nat with false. cbv iota.
    rewrite !app_nil_r. reflexivity.
  - change (0 <? length (p :: t))%nat with true. cbv iota.
    rewrite <- !app_assoc. reflexivity.
Qed.

Lemma rotated_pools_flat_map (angle_x angle_z : R) (snapshots : list snapshot) :
  Tilted.rotated_pools angle_x angle_z snapshots =
  (flat_map (fun snap =>
               column c0 (Tilted.rotate_3d (stacked snap) angle_x angle_z))
     snapshots,
   flat_map (fun snap =>
               column c1 (Tilted.rotate_3d (stacked snap) angle_x angle_z))
     snapshots).
Proof.
  unfold Tilted.rotated_pools.
  assert (H : forall acc,
             fold_left (Tilted.extend_rotated angle_x angle_z) snapshots acc =
             (fst acc ++
              flat_map (fun snap =>
                column c0 (Tilted.rotate_3d (stacked snap) angle_x angle_z))
                snapshots,
              snd acc ++
              flat_map (fun snap =>
                column c1 (Tilted.rotate_3d (stacked snap) angle_x angle_z))
                snapshots)).
  { induction snapshots as [| snap t IH]; intros acc; simpl.
    - rewrite !app_nil_r. destruct acc; reflexivity.
    - rewrite IH, extend_rotated_eq. simpl. rewrite <- !app_assoc.
      reflexivity. }
  rewrite H. reflexivity.
Qed.

(** ** Order of the snapshots *)

Lemma mapM_perm {A B : Type} (f : A -> result B) (l l' : list A) :
  Permutation l l' ->
  forall bs, mapM f l = Ok bs ->
  exists bs', mapM f l' = Ok bs' /\ Permutation bs bs'.
Proof.
  induction 1 as [| x l l' _ IH | x y l | l l' l'' _ IH1 _ IH2];
    intros bs H; simpl in *.
  - exists bs. split; [exact H | apply Permutation_refl].
  - bind_inv H. bind_inv H. inversion H; subst.
    destruct (IH _ E0) as [bs' [Eb HP]].
    rewrite E, Eb. simpl. eexists. split; [reflexivity |].
    apply perm_skip, HP.
  - destruct (f y) as [b |] eqn:Ey; simpl in *; [| discriminate].
    destruct (f x) as [a |] eqn:Ex; simpl in *; [| discriminate].
    destruct (mapM f l) as [cs |] eqn:El; simpl in *; [| discriminate].
    inversion H; subst.
    eexists. split; [reflexivity | apply perm_swap].
  - destruct (IH1 _ H) as [bs1 [E1 P1]].
    destruct (IH2 _ E1) as [bs2 [E2 P2]].
    exists bs2. split; [exact E2 | eapply perm_trans; eassumption].
Qed.

Lemma Allstars_limits_perm (snapshots snapshots' : list snapshot) :
  Permutation snapshots snapshots' ->
  Allstars.coordinate_limits snapshots = Allstars.coordinate_limits snapshots'.
Proof.
  intros HP. unfold Allstars.coordinate_limits. rewrite !pools_flat_map. simpl.
  rewrite (percentile_limits_perm _ _
             (Permutation_flat_map_list (class_column c0) _ _ HP)).
  rewrite (percentile_limits_perm _ _
             (Permutation_flat_map_list (class_column c1) _ _ HP)).
  reflexivity.
Qed.

Lemma EdgeOn_limits_perm (snapshots snapshots' : list snapshot) :
  Permutation snapshots snapshots' ->
  EdgeOn.coordinate_limits snapshots = EdgeOn.coordinate_limits snapshots'.
Proof.
  intros HP. unfold EdgeOn.coordinate_limits. rewrite !pools_flat_map. simpl.
  rewrite (percentile_limits_perm _ _
             (Permutation_flat_map_list (class_column c0) _ _ HP)).
  rewrite (percentile_limits_perm _ _
             (Permutation_flat_map_list (class_column c2) _ _ HP)).
  reflexivity.
Qed.

Lemma Tilted_limits_perm (angle_x angle_z : R)
  (snapshots snapshots' : list snapshot) :
  Permutation snapshots snapshots' ->
  Tilted.coordinate_limits snapshots angle_x angle_z =
  Tilted.coordinate_limits snapshots' angle_x angle_z.
Proof.
  intros HP. unfold Tilted.coordinate_limits.
  rewrite !rotated_pools_flat_map. simpl.
  rewrite (percentile_limits_perm _ _
             (Permutation_flat_map_list
                (fun snap => column c0
                   (Tilted.rotate_3d (stacked snap) angle_x angle_z)) _ _ HP)).
  rewrite (percentile_limits_perm _ _
             (Permutation_flat_map_list
                (fun snap => column c1
                   (Tilted.rotate_3d (stacked snap) angle_x angle_z)) _ _ HP)).
  reflexivity.
Qed.

(** C5.  The window does not depend on the order of the snapshots: a
    permutation of the sequence leaves both percentiles of either pool, and
    so the padded limits, as they are.  The same holds for the files when
    they all load. *)
Theorem C5_window_permutation_invariant :
  forall snapshots snapshots' : list snapshot,
    Permutation snapshots snapshots' ->
    (forall q, percentile (fst (pools c1 snapshots)) q =
               percentile (fst (pools c1 snapshots')) q) /\
    (forall q, percentile (snd (pools c1 snapshots)) q =
               percentile (snd (pools c1 snapshots')) q) /\
    Allstars.coordinate_limits snapshots =
      Allstars.coordinate_limits snapshots' /\
    EdgeOn.coordinate_limits snapshots = EdgeOn.coordinate_limits snapshots' /\
    (forall angle_x angle_z,
        Tilted.coordinate_limits snapshots angle_x angle_z =
        Tilted.coordinate_limits snapshots' angle_x angle_z) /\
    (forall files files',
        Permutation files files' ->
        mapM load_snapshot files = Ok snapshots ->
        exists loaded,
          mapM load_snapshot files' = Ok loaded /\
          Allstars.coordinate_limits loaded =
            Allstars.coordinate_limits snapshots).
Proof.
  intros snapshots snapshots' HP.
  split; [| split; [| split; [| split; [| split]]]].
  - intros q. rewrite !pools_flat_map. simpl.
    apply percentile_perm, Permutation_flat_map_list, HP.
  - intros q. rewrite !pools_flat_map. simpl.
    apply percentile_perm, Permutation_flat_map_list, HP.
  - apply Allstars_limits_perm, HP.
  - apply EdgeOn_limits_perm, HP.
  - intros. apply Tilted_limits_perm, HP.
  - intros files files' HF Hload.
    destruct (mapM_perm load_snapshot files files' HF _ Hload)
      as [loaded [El HL]].
    exists loaded. split; [exact El |].
    apply Allstars_limits_perm, Permutation_sym, HL.
Qed.

Lemma C5_window_permutation_invariant_witness :
  Allstars.coordinate_limits [early_snapshot; late_snapshot] =
  Allstars.coordinate_limits [late_snapshot; early_snapshot].
Proof.
  apply (C5_window_permutation_invariant [early_snapshot; late_snapshot]
           [late_snapshot; early_snapshot]).
  apply perm_swap.
Defined.

(** ** Pools by particle class *)

Lemma class_pool_split (k : vec3 -> R) (snapshots : list snapshot) :
  Permutation (flat_map (class_column k) snapshots)
              (newstar_pool k snapshots ++ old_pool k snapshots).
Proof.
  unfold newstar_pool, old_pool.
  induction snapshots as [| a t IH]; simpl.
  - constructor.
  - unfold class_column at 1.
    remember (column k (disk_pos a) ++ column k (bulge_pos a)) as old.
    remember (column k (newstars_pos a)) as new.
    rewrite <- !app_assoc. apply Permutation_app_head.
    eapply perm_trans; [apply Permutation_app_head, IH |].
    apply Permutation_app_swap_app.
Qed.

Lemma newstar_pool_skip (k : vec3 -> R) (before after : list snapshot)
  (d : snapshot) :
  newstars_pos d = [] ->
  newstar_pool k (before ++ d :: after) = newstar_pool k (before ++ after).
Proof.
  intros Hd. unfold newstar_pool. rewrite !flat_map_app. simpl.
  rewrite Hd. reflexivity.
Qed.

Lemma Allstars_limits_by_class (snapshots : list snapshot) :
  Allstars.coordinate_limits snapshots =
  limits_of_pools (newstar_pool c0 snapshots ++ old_pool c0 snapshots)
                  (newstar_pool c1 snapshots ++ old_pool c1 snapshots).
Proof.
  unfold Allstars.coordinate_limits, limits_of_pools.
  rewrite pools_flat_map. simpl.
  rewrite (percentile_limits_perm _ _ (class_pool_split c0 snapshots)).
  rewrite (percentile_limits_perm _ _ (class_pool_split c1 snapshots)).
  reflexivity.
Qed.

Lemma load_snapshot_Ok (f : h5file) (d : snapshot) :
  load_snapshot f = Ok d ->
  (exists hdr, Header f = Some hdr /\ Time hdr = Some (time d)) /\
  match PartType4 f with
  | Some g => Coordinates g = Some (newstars_pos d) /\
              Masses g = Some (newstars_mass d) /\
              StellarFormationTime g = Some (newstars_time d)
  | None => newstars_pos d = [] /\ newstars_mass d = [] /\
            newstars_time d = []
  end /\
  match PartType2 f with
  | Some g => Coordinates g = Some (disk_pos d)
  | None => disk_pos d = []
  end /\
  match PartType3 f with
  | Some g => Coordinates g = Some (bulge_pos d)
  | None => bulge_pos d = []
  end.
Proof.
  unfold load_snapshot, getitem. intros H.
  destruct (Header f) as [hdr |]; simpl in H; [| discriminate].
  destruct (Time hdr) as [t |] eqn:Et; simpl in H; [| discriminate].
  destruct (PartType4 f) as [g4 |]; simpl in H.
  - destruct (Coordinates g4) as [pos |]; simpl in H; [| discriminate].
    destruct (Masses g4) as [mass |]; simpl in H; [| discriminate].
    destruct (StellarFormationTime g4) as [sft |]; simpl in H;
      [| discriminate].
    destruct (PartType2 f) as [g2 |]; simpl in H;
      [destruct (Coordinates g2); simpl in H; [| discriminate] |];
      (destruct (PartType3 f) as [g3 |]; simpl in H;
       [destruct (Coordinates g3); simpl in H; [| discriminate] |]);
      inversion H; subst; simpl; eauto 10.
  - destruct (PartType2 f) as [g2 |]; simpl in H;
      [destruct (Coordinates g2); simpl in H; [| discriminate] |];
      (destruct (PartType3 f) as [g3 |]; simpl in H;
       [destruct (Coordinates g3); simpl in H; [| discriminate] |]);
      inversion H; subst; simpl; eauto 10.
Qed.

Lemma Allstars_animate_offsets (snapshots : list snapshot) (frame : nat)
  (ax : axes) (snap : snapshot) :
  nth_error snapshots frame = Some snap ->
  Allstars.animate snapshots frame ax =
  Ok (set_frame ax (cols01 (disk_pos snap) ++ cols01 (bulge_pos snap))
        (cols01 (newstars_pos snap)) snap).
Proof.
  intros Hn. unfold Allstars.animate, index. rewrite Hn. simpl.
  destruct (newstars_pos snap); reflexivity.
Qed.

(** ** Claims about empty classes and empty pools *)

(** C8.  A class that is absent from the file is an empty [0 x 3] array in
    the record; an empty class projects to an empty [0 x 2] array, in every
    view and in the frame drawn for the snapshot; and a snapshot with no
    new stars adds nothing to the pool: the limits are those of the pools
    in which the new-star pool leaves that snapshot out. *)
Theorem C8_absent_class_is_empty :
  forall (f : h5file) (d : snapshot),
    load_snapshot f = Ok d ->
    (PartType4 f = None ->
       newstars_pos d = [] /\ newstars_mass d = [] /\ newstars_time d = []) /\
    (PartType2 f = None -> disk_pos d = []) /\
    (PartType3 f = None -> bulge_pos d = []) /\
    (newstars_pos d = [] ->
       cols01 (newstars_pos d) = [] /\
       cols02 (newstars_pos d) = [] /\
       (forall angle_x angle_z,
           cols01 (Tilted.rotate_3d (newstars_pos d) angle_x angle_z) = []) /\
       (forall snapshots frame ax,
           nth_error snapshots frame = Some d ->
           exists ax', Allstars.animate snapshots frame ax = Ok ax' /\
                       new_stars ax' = []) /\
       (forall before after,
           Allstars.coordinate_limits (before ++ d :: after) =
           limits_of_pools
             (newstar_pool c0 (before ++ after) ++
              old_pool c0 (before ++ d :: after))
             (newstar_pool c1 (before ++ after) ++
              old_pool c1 (before ++ d :: after)))).
Proof.
  intros f d Hload.
  destruct (load_snapshot_Ok f d Hload) as [_ [H4 [H2 H3]]].
  split; [intros E; rewrite E in H4; exact H4 |].
  split; [intros E; rewrite E in H2; exact H2 |].
  split; [intros E; rewrite E in H3; exact H3 |].
  intros Hd. rewrite Hd.
  split; [reflexivity |]. split; [reflexivity |]. split; [reflexivity |].
  split.
  - intros snapshots frame ax Hn.
    rewrite (Allstars_animate_offsets _ _ _ _ Hn), Hd.
    eexists. split; reflexivity.
  - intros before after. rewrite Allstars_limits_by_class.
    rewrite !(newstar_pool_skip _ before after d Hd). reflexivity.
Qed.

Lemma C8_absent_class_is_empty_witness :
  newstars_pos early_snapshot = [] /\ newstars_mass early_snapshot = [] /\
  newstars_time early_snapshot = [].
Proof.
  destruct (C8_absent_class_is_empty disk_only_file early_snapshot) as [H _].
  - reflexivity.
  - apply H. reflexivity.
Defined.

Lemma pools_no_particles (k : vec3 -> R) (snapshots : list snapshot) :
  Forall no_particles snapshots -> pools k snapshots = ([], []).
Proof.
  intros H. rewrite pools_flat_map.
  induction H as [| snap t [Hn [Hd Hb]] _ IH]; cbn [flat_map].
  - reflexivity.
  - injection IH as Ex Ey. rewrite Ex, Ey.
    unfold class_column. rewrite Hn, Hd, Hb. reflexivity.
Qed.

Lemma Allstars_limits_empty (snapshots : list snapshot) :
  Forall no_particles snapshots ->
  Allstars.coordinate_limits snapshots = Raise PercentileOfEmpty.
Proof.
  intros H. unfold Allstars.coordinate_limits.
  rewrite (pools_no_particles c1 snapshots H). reflexivity.
Qed.

(** C2, as the scripts have it.  When every loaded snapshot is without
    particles (in particular when no file was found) both pools are empty.
    With no file, [create_animation] reports it and returns normally,
    without an error; with files, the percentile of the empty pool fails and
    the call ends there.  In either case, and in [create_static_frames] as
    well, no frame is rendered. *)
Theorem C2_empty_pool_renders_nothing :
  forall (files : list h5file) (snapshots : list snapshot),
    mapM load_snapshot files = Ok snapshots ->
    Forall no_particles snapshots ->
    pools c1 snapshots = ([], []) /\
    (files = [] -> Allstars.create_animation files = Ok NoSnapshotsFound) /\
    (files <> [] ->
       Allstars.create_animation files = Raise PercentileOfEmpty) /\
    frames_of (Allstars.create_animation files) = [] /\
    static_frames_of (Allstars.create_static_frames files) = [].
Proof.
  intros files snapshots Hload Hnone.
  pose proof (Allstars_limits_empty snapshots Hnone) as Hl.
  assert (Hrun : files <> [] ->
            Allstars.create_animation files = Raise PercentileOfEmpty).
  { intros Hne. unfold Allstars.create_animation.
    destruct files as [| f0 rest]; [contradiction |].
    rewrite Hload. simpl. rewrite Hl. reflexivity. }
  split; [apply pools_no_particles, Hnone |].
  split; [intros ->; reflexivity |].
  split; [exact Hrun |].
  split.
  - destruct files as [| f0 rest]; [reflexivity |].
    rewrite Hrun by discriminate. reflexivity.
  - unfold Allstars.create_static_frames. rewrite Hload. simpl.
    rewrite Hl. reflexivity.
Qed.

Lemma C2_empty_pool_renders_nothing_witness :
  Allstars.create_animation [empty_file; empty_file] = Raise PercentileOfEmpty /\
  frames_of (Allstars.create_animation [empty_file; empty_file]) = [] /\
  static_frames_of (Allstars.create_static_frames [empty_file; empty_file]) = [].
Proof.
  destruct (C2_empty_pool_renders_nothing [empty_file; empty_file]
              [empty_snapshot; empty_snapshot]) as [_ [_ [H1 [H2 H3]]]].
  - reflexivity.
  - repeat constructor.
  - split; [apply H1; discriminate | split; assumption].
Defined.

(** C2, as the claim has it, fails when no snapshot file is found, where the
    pool is empty: [create_animation] returns normally and no error is
    signalled. *)
Lemma C2_no_files_no_error :
  mapM load_snapshot [] = Ok [] /\
  pools c1 [] = ([], []) /\
  Allstars.create_animation [] = Ok NoSnapshotsFound /\
  ~ (exists e, Allstars.create_animation [] = Raise e).
Proof.
  repeat split. intros [e He]. discriminate He.
Qed.

(** ** Claims about the reader *)

Lemma load_snapshot_no_time (f : h5file) :
  header_time f = None ->
  load_snapshot f = Raise (KeyError "Header") \/
  load_snapshot f = Raise (KeyError "Time").
Proof.
  unfold header_time, load_snapshot, getitem.
  destruct (Header f) as [hdr |]; simpl.
  - intros Ht. rewrite Ht. right. reflexivity.
  - intros _. left. reflexivity.
Qed.

Lemma load_snapshot_complete (f : h5file) (t : R) :
  header_time f = Some t -> datasets_present f = true ->
  exists d, load_snapshot f = Ok d /\ time d = t.
Proof.
  unfold header_time, datasets_present, load_snapshot, getitem, is_some.
  destruct (Header f) as [hdr |]; [| discriminate].
  intros Ht H. simpl. rewrite Ht. simpl.
  destruct (PartType4 f) as [g4 |];
    [destruct (Coordinates g4), (Masses g4), (StellarFormationTime g4);
      try discriminate H |];
    (destruct (PartType2 f) as [g2 |];
       [destruct (Coordinates g2); try discriminate H |]);
    (destruct (PartType3 f) as [g3 |];
       [destruct (Coordinates g3); try discriminate H |]);
    simpl; eexists; split; reflexivity.
Qed.

Lemma mapM_load_fails (f : h5file) (files : list h5file) :
  header_time f = None -> In f files ->
  exists e, mapM load_snapshot files = Raise e.
Proof.
  intros Ht Hin. apply mapM_Raise.
  destruct (load_snapshot_no_time f Ht) as [E | E]; eauto.
Qed.

(** C9, as the reader has it.  A file without the time attribute makes
    [load_snapshot] raise [KeyError], and every run over a file list that
    contains it ends with an exception before a frame is rendered.  A file
    with the time attribute yields a record carrying that time provided the
    groups it has hold the datasets that are read; and every record
    returned carries the time of its file. *)
Theorem C9_time_attribute_required :
  forall f : h5file,
    (header_time f = None ->
       (exists key, load_snapshot f = Raise (KeyError key)) /\
       (forall files, In f files ->
          (exists e, Allstars.create_static_frames files = Raise e) /\
          (exists e, Allstars.create_animation files = Raise e) /\
          (exists e, Allstars.main files = Raise e) /\
          frames_of (Allstars.create_animation files) = [])) /\
    (forall t, header_time f = Some t -> datasets_present f = true ->
       exists d, load_snapshot f = Ok d /\ time d = t) /\
    (forall d, load_snapshot f = Ok d -> header_time f = Some (time d)).
Proof.
  intros f. split; [| split].
  - intros Ht. split.
    + destruct (load_snapshot_no_time f Ht) as [E | E]; eauto.
    + intros files Hin.
      destruct (mapM_load_fails f files Ht Hin) as [e He].
      assert (Hs : Allstars.create_static_frames files = Raise e).
      { unfold Allstars.create_static_frames. rewrite He. reflexivity. }
      assert (Ha : Allstars.create_animation files = Raise e).
      { unfold Allstars.create_animation.
        destruct files as [| f0 rest]; [destruct Hin |].
        rewrite He. reflexivity. }
      repeat split; eauto.
      * exists e. unfold Allstars.main. rewrite Hs. reflexivity.
      * rewrite Ha. reflexivity.
  - apply load_snapshot_complete.
  - intros d Hd. destruct (load_snapshot_Ok f d Hd) as [[hdr [Eh Et]] _].
    unfold header_time. rewrite Eh. exact Et.
Qed.

Lemma C9_time_attribute_required_witness :
  (exists e, Allstars.main [disk_only_file; untimed_file] = Raise e) /\
  (exists d, load_snapshot disk_only_file = Ok d /\ time d = 0).
Proof.
  split.
  - destruct (C9_time_attribute_required untimed_file) as [H _].
    destruct (H eq_refl) as [_ Hrun].
    apply (Hrun [disk_only_file; untimed_file]).
    simpl. right. left. reflexivity.
  - destruct (C9_time_attribute_required disk_only_file) as [_ [H _]].
    apply H; reflexivity.
Defined.

(** C9, as the claim has it, fails on a file that has the time attribute
    and a [PartType4] group without the [Masses] dataset: no record is
    produced. *)
Lemma C9_time_alone_not_enough :
  header_time stars_without_masses = Some (1 / 2) /\
  load_snapshot stars_without_masses = Raise (KeyError "PartType4/Masses") /\
  ~ (exists d, load_snapshot stars_without_masses = Ok d).
Proof.
  repeat split. intros [d Hd]. discriminate Hd.
Qed.

(** C10, as the reader has it.  Without a [PartType4] group the three
    arrays are empty, hence parallel.  With the group they are its three
    datasets, unchanged, and so are parallel exactly when the datasets in
    the file are. *)
Theorem C10_newstar_arrays_parallel :
  forall (f : h5file) (d : snapshot),
    load_snapshot f = Ok d ->
    (PartType4 f = None ->
       length (newstars_pos d) = 0%nat /\ length (newstars_mass d) = 0%nat /\
       length (newstars_time d) = 0%nat /\ parallel d) /\
    (forall g, PartType4 f = Some g ->
       Coordinates g = Some (newstars_pos d) /\
       Masses g = Some (newstars_mass d) /\
       StellarFormationTime g = Some (newstars_time d) /\
       (parallel d <-> datasets_parallel g = true)).
Proof.
  intros f d Hload.
  destruct (load_snapshot_Ok f d Hload) as [_ [H4 _]].
  split.
  - intros E. rewrite E in H4. destruct H4 as [Hp [Hm Ht]].
    unfold parallel. rewrite Hp, Hm, Ht. simpl. auto.
  - intros g E. rewrite E in H4. destruct H4 as [Hp [Hm Ht]].
    repeat split; try assumption.
    + intros [H1 H2]. unfold datasets_parallel. rewrite Hp, Hm, Ht.
      apply andb_true_intro. split; apply Nat.eqb_eq; assumption.
    + unfold datasets_parallel in H. rewrite Hp, Hm, Ht in H.
      apply andb_prop in H. apply Nat.eqb_eq, (proj1 H).
    + unfold datasets_parallel in H. rewrite Hp, Hm, Ht in H.
      apply andb_prop in H. apply Nat.eqb_eq, (proj2 H).
Qed.

Lemma C10_newstar_arrays_parallel_witness : parallel early_snapshot.
Proof.
  destruct (C10_newstar_arrays_parallel disk_only_file early_snapshot) as [H _].
  - reflexivity.
  - apply H. reflexivity.
Defined.

(** C10, as the claim has it, fails on a file whose [PartType4] datasets
    differ in length: the record returned has one position row and no
    mass. *)
Lemma C10_ragged_file_not_parallel :
  exists d, load_snapshot ragged_file = Ok d /\
            length (newstars_pos d) = 1%nat /\
            length (newstars_mass d) = 0%nat /\
            ~ parallel d.
Proof.
  eexists. split; [reflexivity |]. simpl.
  repeat split. intros [H _]. discriminate H.
Qed.

(** ** Claims about the view window *)

Lemma EdgeOn_limits_same_x (snapshots others : list snapshot) (lims : (R * R) * (R * R)) :
  EdgeOn.coordinate_limits snapshots = Ok lims ->
  fst (pools c2 others) = fst (pools c2 snapshots) ->
  EdgeOn.coordinate_limits others = Ok lims.
Proof.
  unfold EdgeOn.coordinate_limits. intros H Hx.
  bind_inv H. bind_inv H. rewrite Hx, E. simpl.
  assert (Hz : snd (pools c2 others) <> []).
  { intros Hz. apply pools_nil_iff in Hz. rewrite Hx in Hz.
    rewrite Hz in E. discriminate E. }
  destruct (percentile_limits_defined _ Hz) as [zl ->]. simpl. exact H.
Qed.

Lemma EdgeOn_static_inv (files : list h5file) (frames : list axes) :
  EdgeOn.create_static_frames files = Ok frames ->
  exists snapshots lims,
    mapM load_snapshot files = Ok snapshots /\
    EdgeOn.coordinate_limits snapshots = Ok lims /\
    drawn_with lims frames.
Proof.
  unfold EdgeOn.create_static_frames. intros H.
  bind_inv H. bind_inv H. exists v, v0.
  split; [exact E | split; [exact E0 |]].
  clear E E0. revert frames H.
  induction v as [| snap t IH]; simpl; intros frames H.
  - inversion H. constructor.
  - bind_inv H. bind_inv H. inversion H; subst.
    bind_inv E. inversion E; subst.
    constructor; [split; reflexivity | apply IH, E0].
Qed.

(** C1, as the scripts have it.  In the edge-on view the vertical (Z) limits
    are [[-W/3, W/3]], where [W] is the width of the padded X limits: in
    every frame of the animation and of the static frames, and whatever the
    Z coordinates are (snapshots with the same pooled X coordinates get the
    same limits).  The tilted view has no such step: its vertical limits are
    the padded percentile limits of the rotated Y coordinates. *)
Theorem C1_thin_axis_override_edge_on :
  forall (files : list h5file) (frames : list axes),
    EdgeOn.create_animation files = Ok (Saved frames) ->
    exists snapshots xlim,
      mapM load_snapshot files = Ok snapshots /\
      padded_percentile_window (fst (pools c2 snapshots)) xlim /\
      EdgeOn.coordinate_limits snapshots =
        Ok (xlim, (- ((snd xlim - fst xlim) / 3), (snd xlim - fst xlim) / 3)) /\
      Forall (fun f =>
                ax_xlim f = xlim /\
                ax_ylim f =
                  (- ((snd xlim - fst xlim) / 3), (snd xlim - fst xlim) / 3))
             frames /\
      (forall others,
          fst (pools c2 others) = fst (pools c2 snapshots) ->
          EdgeOn.coordinate_limits others =
            Ok (xlim, (- ((snd xlim - fst xlim) / 3),
                       (snd xlim - fst xlim) / 3))) /\
      (forall static,
          EdgeOn.create_static_frames files = Ok static ->
          Forall (fun f =>
                    ax_xlim f = xlim /\
                    ax_ylim f =
                      (- ((snd xlim - fst xlim) / 3),
                       (snd xlim - fst xlim) / 3))
                 static) /\
      (forall angle_x angle_z lims,
          Tilted.coordinate_limits snapshots angle_x angle_z = Ok lims ->
          padded_percentile_window
            (snd (Tilted.rotated_pools angle_x angle_z snapshots)) (snd lims)).
Proof.
  intros files frames Hrun.
  destruct (EdgeOn_animation_inv files frames Hrun)
    as [snapshots [[xlim zlim] [Hload [Hl [_ [_ Hdrawn]]]]]].
  destruct (EdgeOn_limits_inv snapshots xlim zlim Hl) as [Hx Hz].
  unfold third_of in Hz. subst zlim.
  exists snapshots, xlim.
  split; [exact Hload |]. split; [exact Hx |]. split; [exact Hl |].
  split; [exact Hdrawn |]. split; [| split].
  - intros others Ho. apply (EdgeOn_limits_same_x snapshots others _ Hl Ho).
  - intros static Hs.
    destruct (EdgeOn_static_inv files static Hs)
      as [snapshots' [lims [Hload' [Hl' Hd']]]].
    assert (snapshots' = snapshots) by congruence. subst snapshots'.
    assert (lims = (xlim, (- ((snd xlim - fst xlim) / 3),
                           (snd xlim - fst xlim) / 3))) by congruence.
    subst lims. exact Hd'.
  - intros angle_x angle_z [tx ty] Ht.
    apply (Tilted_limits_inv snapshots angle_x angle_z tx ty Ht).
Qed.

(** ** Worked runs *)

Lemma limits_eq (a b c d a' b' c' d' : R) :
  a = a' -> b = b' -> c = c' -> d = d' ->
  @Ok ((R * R) * (R * R)) ((a, b), (c, d)) = Ok ((a', b'), (c', d')).
Proof. intros -> -> -> ->. reflexivity. Qed.

Lemma thick_load : mapM load_snapshot [thick_file] = Ok [thick_snapshot].
Proof. reflexivity. Qed.

Lemma thick_pools : pools c2 [thick_snapshot] = ([0; 125], [60; 60]).
Proof. reflexivity. Qed.

Lemma thick_z_percentiles : percentile_limits [60; 60] = Ok (60, 60).
Proof.
  rewrite (percentile_limits_pair 60 60) by lra.
  f_equal. f_equal; lra.
Qed.

Lemma thick_limits :
  EdgeOn.coordinate_limits [thick_snapshot] = Ok ((-11, 136), (-49, 49)).
Proof.
  unfold EdgeOn.coordinate_limits. rewrite thick_pools.
  cbn [fst snd]. rewrite (percentile_limits_pair 0 125) by lra.
  rewrite thick_z_percentiles. cbn [bind]. unfold pad. cbn [fst snd].
  apply limits_eq; lra.
Qed.

Lemma thick_figure :
  EdgeOn.figure (-11, 136) (-49, 49) = Ok (subplots (-11, 136) (-49, 49)).
Proof.
  unfold EdgeOn.figure. cbn [fst snd].
  destruct (Req_dec_T (49 - -49) 0) as [H | H]; [lra | reflexivity].
Qed.

Lemma thick_run : EdgeOn.create_animation [thick_file] = Ok (Saved [thick_frame]).
Proof.
  unfold EdgeOn.create_animation. rewrite thick_load. cbn [bind].
  rewrite thick_limits. cbn [bind fst snd]. rewrite thick_figure.
  reflexivity.
Qed.

Lemma C1_thin_axis_override_edge_on_witness :
  exists snapshots xlim,
    mapM load_snapshot [thick_file] = Ok snapshots /\
    padded_percentile_window (fst (pools c2 snapshots)) xlim /\
    EdgeOn.coordinate_limits snapshots =
      Ok (xlim, (- ((snd xlim - fst xlim) / 3), (snd xlim - fst xlim) / 3)) /\
    Forall (fun f =>
              ax_xlim f = xlim /\
              ax_ylim f =
                (- ((snd xlim - fst xlim) / 3), (snd xlim - fst xlim) / 3))
           [thick_frame].
Proof.
  destruct (C1_thin_axis_override_edge_on [thick_file] [thick_frame] thick_run)
    as [snapshots [xlim [H1 [H2 [H3 [H4 _]]]]]].
  exists snapshots, xlim. repeat split; assumption.
Defined.

Lemma diagonal_load :
  mapM load_snapshot [diagonal_file] = Ok [diagonal_snapshot].
Proof. reflexivity. Qed.

Lemma diagonal_pools :
  Tilted.rotated_pools 90 0 [diagonal_snapshot] = ([0; 125], [- 0; - -125]).
Proof.
  rewrite rotated_pools_flat_map. unfold stacked. cbn [flat_map].
  rewrite rotate_3d_quarter. reflexivity.
Qed.

Lemma diagonal_limits :
  Tilted.coordinate_limits [diagonal_snapshot] 90 0 =
  Ok ((-11, 136), (-11, 136)).
Proof.
  unfold Tilted.coordinate_limits. rewrite diagonal_pools. cbn [fst snd].
  rewrite (percentile_limits_pair 0 125) by lra.
  rewrite (percentile_limits_pair (- 0) (- -125)) by lra.
  cbn [bind]. unfold pad. cbn [fst snd]. apply limits_eq; lra.
Qed.

Lemma diagonal_run :
  exists frame,
    Tilted.create_animation [diagonal_file] 90 0 = Ok (Saved [frame]) /\
    ax_xlim frame = (-11, 136) /\ ax_ylim frame = (-11, 136).
Proof.
  unfold Tilted.create_animation. rewrite diagonal_load. cbn [bind].
  rewrite diagonal_limits. cbn [bind fst snd].
  eexists. split; [reflexivity | split; reflexivity].
Qed.

(** C1, as the claim has it, fails in the tilted view: the run above has the
    horizontal limits [[-11, 136]], of width 147, and its vertical limits
    are [[-11, 136]] as well, not [[-49, 49]]. *)
Lemma C1_tilted_view_not_overridden :
  exists frame,
    Tilted.create_animation [diagonal_file] 90 0 = Ok (Saved [frame]) /\
    Tilted.coordinate_limits [diagonal_snapshot] 90 0 =
      Ok (ax_xlim frame, ax_ylim frame) /\
    (snd (ax_xlim frame) - fst (ax_xlim frame)) / 3 = 49 /\
    ax_ylim frame = (-11, 136) /\
    ax_ylim frame <>
      (- ((snd (ax_xlim frame) - fst (ax_xlim frame)) / 3),
       (snd (ax_xlim frame) - fst (ax_xlim frame)) / 3).
Proof.
  destruct diagonal_run as [frame [Hrun [Hx Hy]]].
  exists frame. rewrite Hx, Hy. cbn [fst snd].
  split; [exact Hrun |]. split; [exact diagonal_limits |].
  split; [lra |]. split; [reflexivity |].
  intros H. injection H as H1 H2. lra.
Qed.

Lemma padded_percentile_window_perm (pool pool' : list R) (lim : R * R) :
  Permutation pool pool' ->
  padded_percentile_window pool lim -> padded_percentile_window pool' lim.
Proof.
  intros HP [lo [hi [H1 [H99 H]]]]. exists lo, hi.
  rewrite <- (percentile_perm pool pool' 1 HP).
  rewrite <- (percentile_perm pool pool' 99 HP). auto.
Qed.

Lemma map_flat_map_list {A B C : Type} (g : B -> C) (f : A -> list B)
  (l : list A) :
  map g (flat_map f l) = flat_map (fun a => map g (f a)) l.
Proof.
  induction l as [| a t IH]; simpl; [reflexivity |].
  rewrite map_app, IH. reflexivity.
Qed.

Lemma flat_map_perm_pointwise {A B : Type} (f g : A -> list B) (l : list A) :
  (forall a, Permutation (f a) (g a)) ->
  Permutation (flat_map f l) (flat_map g l).
Proof.
  intros H. induction l as [| a t IH]; simpl.
  - constructor.
  - apply Permutation_app; [apply H | exact IH].
Qed.

Lemma stacked_all_particles (snap : snapshot) :
  Permutation (stacked snap) (all_particles snap).
Proof.
  unfold stacked, all_particles. rewrite app_assoc.
  apply Permutation_app_comm.
Qed.

(** The pools that the scripts build hold, up to order, the coordinates of
    all projected points. *)
Lemma projected_pools_all_points (v : view) (snapshots : list snapshot) :
  Permutation (fst (projected_pools v snapshots))
              (map fst (all_projected_points v snapshots)) /\
  Permutation (snd (projected_pools v snapshots))
              (map snd (all_projected_points v snapshots)).
Proof.
  unfold all_projected_points. rewrite !map_flat_map_list.
  destruct v as [| | angle_x angle_z]; cbn [projected_pools].
  - rewrite pools_flat_map. cbn [fst snd].
    split; apply flat_map_perm_pointwise; intros snap;
      unfold class_column, column, all_particles; cbn [project];
      rewrite !map_map, <- !map_app; apply Permutation_refl.
  - rewrite pools_flat_map. cbn [fst snd].
    split; apply flat_map_perm_pointwise; intros snap;
      unfold class_column, column, all_particles; cbn [project];
      rewrite !map_map, <- !map_app; apply Permutation_refl.
  - rewrite rotated_pools_flat_map. cbn [fst snd].
    split; apply flat_map_perm_pointwise; intros snap;
      rewrite rotate_3d_rows, !radians_degrees; unfold column;
      cbn [project]; rewrite !map_map; cbn [fst snd];
      apply Permutation_map, stacked_all_particles.
Qed.

(** C3, as the scripts have it.  In every render run all frames are drawn
    with one and the same window.  Its horizontal limits are the interval
    from the 1st to the 99th percentile of the horizontal coordinates of
    all projected points, every particle of every class of every snapshot
    of the sequence, widened by a tenth of its width at both ends, and so
    contain that interval.  In the face-on and tilted views the vertical
    limits are obtained likewise from the vertical coordinates of all
    projected points; in the edge-on view they are [[-W/3, W/3]]
    instead. *)
Theorem C3_window_padded_and_fixed :
  forall (v : view) (files : list h5file) (frames : list axes),
    render v files = Ok (Saved frames) ->
    exists snapshots xlim ylim,
      mapM load_snapshot files = Ok snapshots /\
      length frames = length files /\
      Forall (fun f => ax_xlim f = xlim /\ ax_ylim f = ylim) frames /\
      padded_percentile_window
        (map fst (all_projected_points v snapshots)) xlim /\
      match v with
      | EdgeOnView => ylim = third_of xlim
      | _ => padded_percentile_window
               (map snd (all_projected_points v snapshots)) ylim
      end.
Proof.
  intros v files frames Hrun.
  assert (Hcode : exists snapshots xlim ylim,
             mapM load_snapshot files = Ok snapshots /\
             length frames = length files /\
             Forall (fun f => ax_xlim f = xlim /\ ax_ylim f = ylim) frames /\
             padded_percentile_window (fst (projected_pools v snapshots)) xlim /\
             match v with
             | EdgeOnView => ylim = third_of xlim
             | _ => padded_percentile_window
                      (snd (projected_pools v snapshots)) ylim
             end).
  { destruct v as [| | angle_x angle_z]; simpl in Hrun.
    - destruct (Allstars_animation_inv files frames Hrun)
        as [snapshots [[xlim ylim] [Hload [Hl [Hlen [_ Hd]]]]]].
      destruct (Allstars_limits_inv snapshots xlim ylim Hl) as [Hx Hy].
      exists snapshots, xlim, ylim. repeat split; assumption.
    - destruct (EdgeOn_animation_inv files frames Hrun)
        as [snapshots [[xlim zlim] [Hload [Hl [Hlen [_ Hd]]]]]].
      destruct (EdgeOn_limits_inv snapshots xlim zlim Hl) as [Hx Hz].
      exists snapshots, xlim, zlim. repeat split; assumption.
    - destruct (Tilted_animation_inv files angle_x angle_z frames Hrun)
        as [snapshots [[xlim ylim] [Hload [Hl [Hlen [_ Hd]]]]]].
      destruct (Tilted_limits_inv snapshots angle_x angle_z xlim ylim Hl)
        as [Hx Hy].
      exists snapshots, xlim, ylim. repeat split; assumption. }
  destruct Hcode as [snapshots [xlim [ylim [Hload [Hlen [Hd [Hx Hy]]]]]]].
  destruct (projected_pools_all_points v snapshots) as [Px Py].
  exists snapshots, xlim, ylim.
  split; [exact Hload |]. split; [exact Hlen |]. split; [exact Hd |].
  split; [apply (padded_percentile_window_perm _ _ _ Px Hx) |].
  destruct v as [| | angle_x angle_z];
    [apply (padded_percentile_window_perm _ _ _ Py Hy)
    | exact Hy
    | apply (padded_percentile_window_perm _ _ _ Py Hy)].
Qed.

Lemma scenario_load :
  mapM load_snapshot scenario_files =
  Ok [scenario_snapshot 0; scenario_snapshot (1 / 2); scenario_snapshot 1].
Proof. reflexivity. Qed.

Lemma scenario_limits :
  Allstars.coordinate_limits
    [scenario_snapshot 0; scenario_snapshot (1 / 2); scenario_snapshot 1] =
  Ok ((-12 / 10, 12 / 10), (0, 0)).
Proof.
  unfold Allstars.coordinate_limits.
  change (pools c1 [scenario_snapshot 0; scenario_snapshot (1 / 2);
                    scenario_snapshot 1])
    with ([1; -1; 1; -1; 1; -1], [0; 0; 0; 0; 0; 0]).
  cbn [fst snd].
  assert (Hx : sort [1; -1; 1; -1; 1; -1] = [-1; -1; -1; 1; 1; 1]).
  { simpl.
    repeat (match goal with
            | |- context [Rle_dec ?a ?b] =>
                destruct (Rle_dec a b); try lra
            end; simpl).
    reflexivity. }
  assert (Hy : sort [0; 0; 0; 0; 0; 0] = [0; 0; 0; 0; 0; 0]).
  { simpl.
    repeat (match goal with
            | |- context [Rle_dec ?a ?b] =>
                destruct (Rle_dec a b); try lra
            end; simpl).
    reflexivity. }
  unfold percentile_limits. rewrite !percentile_unfold, Hx, Hy.
  unfold interpolate, lerp. cbn [length Nat.sub Nat.mul Nat.add bind].
  change (5 / 100)%nat with 0%nat. change (495 / 100)%nat with 4%nat.
  change (5 mod 100)%nat with 5%nat. change (495 mod 100)%nat with 95%nat.
  cbn [Nat.add Nat.min nth]. rewrite !INR_IZR_INZ.
  unfold pad. cbn [fst snd]. simpl Z.of_nat.
  apply limits_eq; lra.
Qed.

Lemma scenario_run :
  render FaceOn scenario_files =
  Ok (Saved [scenario_frame 0; scenario_frame (1 / 2); scenario_frame 1]).
Proof.
  unfold render, Allstars.create_animation, scenario_files.
  fold scenario_files. rewrite scenario_load. cbn [bind].
  rewrite scenario_limits. reflexivity.
Qed.

Lemma C3_window_padded_and_fixed_witness :
  exists snapshots xlim ylim,
    mapM load_snapshot scenario_files = Ok snapshots /\
    length [scenario_frame 0; scenario_frame (1 / 2); scenario_frame 1] =
      length scenario_files /\
    Forall (fun f => ax_xlim f = xlim /\ ax_ylim f = ylim)
      [scenario_frame 0; scenario_frame (1 / 2); scenario_frame 1] /\
    padded_percentile_window
      (map fst (all_projected_points FaceOn snapshots)) xlim /\
    padded_percentile_window
      (map snd (all_projected_points FaceOn snapshots)) ylim.
Proof.
  exact (C3_window_padded_and_fixed FaceOn scenario_files
           [scenario_frame 0; scenario_frame (1 / 2); scenario_frame 1]
           scenario_run).
Defined.

(** C3, as the claim has it, fails on the vertical axis of the edge-on view:
    in the run over [thick_file] every projected point has the vertical
    coordinate 60, so the 1st and the 99th percentile are both 60, and the
    frame is drawn with the vertical limits [[-49, 49]]. *)
Lemma C3_edge_on_vertical_axis :
  render EdgeOnView [thick_file] = Ok (Saved [thick_frame]) /\
  mapM load_snapshot [thick_file] = Ok [thick_snapshot] /\
  percentile_limits (snd (projected_pools EdgeOnView [thick_snapshot])) =
    Ok (60, 60) /\
  ax_ylim thick_frame = (-49, 49) /\
  ~ (fst (ax_ylim thick_frame) <= 60 <= snd (ax_ylim thick_frame)) /\
  ~ padded_percentile_window
      (snd (projected_pools EdgeOnView [thick_snapshot])) (ax_ylim thick_frame).
Proof.
  split; [exact thick_run |]. split; [exact thick_load |].
  assert (Hz : percentile_limits
                 (snd (projected_pools EdgeOnView [thick_snapshot])) =
               Ok (60, 60)).
  { unfold projected_pools. rewrite thick_pools. exact thick_z_percentiles. }
  split; [exact Hz |]. split; [reflexivity |].
  split.
  - simpl. lra.
  - intros [lo [hi [H1 [H99 [_ [Hlo [_ Hhi]]]]]]].
    apply percentile_limits_Ok in Hz. destruct Hz as [E1 [E99 _]].
    cbn [fst snd] in E1, E99.
    rewrite E1 in H1. rewrite E99 in H99.
    injection H1 as <-. injection H99 as <-.
    simpl in Hlo, Hhi. lra.
Qed.

(** * Further properties of the scripts *)

(** ** The frames of an animation *)

Lemma draw_frames_explicit (animate : nat -> axes -> result axes)
  (G : R * R -> R * R -> snapshot -> axes) (snapshots : list snapshot) :
  (forall k ax snap, nth_error snapshots k = Some snap ->
     animate k ax = Ok (G (ax_xlim ax) (ax_ylim ax) snap)) ->
  (forall x y snap, ax_xlim (G x y snap) = x /\ ax_ylim (G x y snap) = y) ->
  forall (before rest : list snapshot) (ax : axes),
    snapshots = before ++ rest ->
    draw_frames animate (seq (length before) (length rest)) ax =
    Ok (map (G (ax_xlim ax) (ax_ylim ax)) rest).
Proof.
  intros Hstep Hlim before rest. revert before.
  induction rest as [| snap rest IH]; intros before ax Hs; simpl.
  - reflexivity.
  - rewrite (Hstep (length before) ax snap).
    + simpl.
      specialize (IH (before ++ [snap]) (G (ax_xlim ax) (ax_ylim ax) snap)).
      rewrite length_app in IH. simpl in IH.
      rewrite Nat.add_1_r in IH. rewrite IH.
      * destruct (Hlim (ax_xlim ax) (ax_ylim ax) snap) as [-> ->].
        reflexivity.
      * rewrite <- app_assoc. exact Hs.
    + rewrite Hs, nth_error_app2 by lia.
      rewrite Nat.sub_diag. reflexivity.
Qed.

Lemma FuncAnimation_explicit (animate : nat -> axes -> result axes)
  (G : R * R -> R * R -> snapshot -> axes) (snapshots : list snapshot)
  (xlim ylim : R * R) :
  (forall k ax snap, nth_error snapshots k = Some snap ->
     animate k ax = Ok (G (ax_xlim ax) (ax_ylim ax) snap)) ->
  (forall x y snap, ax_xlim (G x y snap) = x /\ ax_ylim (G x y snap) = y) ->
  FuncAnimation animate (length snapshots) (subplots xlim ylim) =
  Ok (map (G xlim ylim) snapshots).
Proof.
  intros Hstep Hlim. unfold FuncAnimation.
  apply (draw_frames_explicit animate G snapshots Hstep Hlim [] snapshots).
  reflexivity.
Qed.

Lemma Allstars_animate_static (snapshots : list snapshot) (k : nat) (ax : axes)
  (snap : snapshot) :
  nth_error snapshots k = Some snap ->
  Allstars.animate snapshots k ax =
  Ok (Allstars.static_frame (ax_xlim ax) (ax_ylim ax) snap).
Proof.
  intros Hn. unfold Allstars.animate, index. rewrite Hn. reflexivity.
Qed.

Lemma EdgeOn_animate_static (snapshots : list snapshot) (k : nat) (ax : axes)
  (snap : snapshot) :
  nth_error snapshots k = Some snap ->
  EdgeOn.animate snapshots k ax =
  Ok (EdgeOn.static_frame (ax_xlim ax) (ax_ylim ax) snap).
Proof.
  intros Hn. unfold EdgeOn.animate, index. rewrite Hn. reflexivity.
Qed.

Lemma Tilted_animate_static (angle_x angle_z : R) (snapshots : list snapshot)
  (k : nat) (ax : axes) (snap : snapshot) :
  nth_error snapshots k = Some snap ->
  Tilted.animate angle_x angle_z snapshots k ax =
  Ok (Tilted.static_frame angle_x angle_z (ax_xlim ax) (ax_ylim ax) snap).
Proof.
  intros Hn. unfold Tilted.animate, index. rewrite Hn. reflexivity.
Qed.

Lemma EdgeOn_static_mapM (xlim zlim : R * R) (snapshots : list snapshot) (ax : axes) :
  EdgeOn.figure xlim zlim = Ok ax ->
  mapM (fun snap => _ <- EdgeOn.figure xlim zlim ;;
                    Ok (EdgeOn.static_frame xlim zlim snap)) snapshots =
  Ok (map (EdgeOn.static_frame xlim zlim) snapshots).
Proof.
  intros Hf. induction snapshots as [| snap t IH]; cbn [mapM map].
  - reflexivity.
  - rewrite IH, Hf. reflexivity.
Qed.

Lemma EdgeOn_figure_Ok (xlim zlim : R * R) (ax : axes) :
  EdgeOn.figure xlim zlim = Ok ax -> ax = subplots xlim zlim.
Proof.
  unfold EdgeOn.figure. destruct (Req_dec_T _ 0); [discriminate |].
  intros H. injection H as <-. reflexivity.
Qed.

(** X1.  Face-on script: over a non-empty file list the animation and the
    static frames are the same computation.  [create_animation] saves
    exactly the frames that [create_static_frames] writes, and it raises
    exactly the exception that [create_static_frames] raises. *)
Theorem X1_face_on_animation_is_static_frames :
  forall files : list h5file,
    files <> [] ->
    Allstars.create_animation files =
    (frames <- Allstars.create_static_frames files ;; Ok (Saved frames)).
Proof.
  intros files Hne. destruct files as [| f0 rest]; [contradiction |].
  unfold Allstars.create_animation, Allstars.create_static_frames.
  destruct (mapM load_snapshot (f0 :: rest)) as [snapshots | e]; simpl;
    [| reflexivity].
  destruct (Allstars.coordinate_limits snapshots) as [[xlim ylim] | e]; simpl;
    [| reflexivity].
  rewrite (FuncAnimation_explicit (Allstars.animate snapshots)
             Allstars.static_frame snapshots xlim ylim).
  - reflexivity.
  - intros k ax snap. apply Allstars_animate_static.
  - intros x y snap. split; reflexivity.
Qed.

Lemma X1_face_on_animation_is_static_frames_witness :
  Allstars.create_animation scenario_files =
  (frames <- Allstars.create_static_frames scenario_files ;; Ok (Saved frames)).
Proof.
  apply (X1_face_on_animation_is_static_frames scenario_files).
  discriminate.
Defined.

(** X2.  Edge-on script: the same agreement, the refusal of a figure of
    zero height included. *)
Theorem X2_edge_on_animation_is_static_frames :
  forall files : list h5file,
    files <> [] ->
    EdgeOn.create_animation files =
    (frames <- EdgeOn.create_static_frames files ;; Ok (Saved frames)).
Proof.
  intros files Hne. destruct files as [| f0 rest]; [contradiction |].
  unfold EdgeOn.create_animation, EdgeOn.create_static_frames.
  destruct (mapM load_snapshot (f0 :: rest)) as [snapshots | e] eqn:Hload;
    simpl; [| reflexivity].
  destruct (EdgeOn.coordinate_limits snapshots) as [[xlim zlim] | e]; simpl;
    [| reflexivity].
  assert (Hcases : (exists ax, EdgeOn.figure xlim zlim = Ok ax) \/
                   (exists e, EdgeOn.figure xlim zlim = Raise e)).
  { destruct (EdgeOn.figure xlim zlim); eauto. }
  destruct Hcases as [[ax Hfig] | [e Hfig]].
  - rewrite (EdgeOn_static_mapM xlim zlim snapshots ax Hfig).
    rewrite Hfig. simpl.
    rewrite (EdgeOn_figure_Ok xlim zlim ax Hfig).
    rewrite (FuncAnimation_explicit (EdgeOn.animate snapshots)
               EdgeOn.static_frame snapshots xlim zlim).
    + reflexivity.
    + intros k ax' snap. apply EdgeOn_animate_static.
    + intros x y snap. split; reflexivity.
  - apply mapM_length in Hload.
    destruct snapshots as [| snap t]; [discriminate Hload |].
    cbn [mapM]. rewrite Hfig. reflexivity.
Qed.

Lemma X2_edge_on_animation_is_static_frames_witness :
  EdgeOn.create_animation [thick_file] =
  (frames <- EdgeOn.create_static_frames [thick_file] ;; Ok (Saved frames)).
Proof.
  apply (X2_edge_on_animation_is_static_frames [thick_file]).
  discriminate.
Defined.

(** X3.  Tilted script: the same agreement, for every pair of angles. *)
Theorem X3_tilted_animation_is_static_frames :
  forall (files : list h5file) (angle_x angle_z : R),
    files <> [] ->
    Tilted.create_animation files angle_x angle_z =
    (frames <- Tilted.create_static_frames files angle_x angle_z ;;
     Ok (Saved frames)).
Proof.
  intros files angle_x angle_z Hne.
  destruct files as [| f0 rest]; [contradiction |].
  unfold Tilted.create_animation, Tilted.create_static_frames.
  destruct (mapM load_snapshot (f0 :: rest)) as [snapshots | e]; simpl;
    [| reflexivity].
  destruct (Tilted.coordinate_limits snapshots angle_x angle_z)
    as [[xlim ylim] | e]; simpl; [| reflexivity].
  rewrite (FuncAnimation_explicit (Tilted.animate angle_x angle_z snapshots)
             (Tilted.static_frame angle_x angle_z) snapshots xlim ylim).
  - reflexivity.
  - intros k ax snap. apply Tilted_animate_static.
  - intros x y snap. split; reflexivity.
Qed.

Lemma X3_tilted_animation_is_static_frames_witness :
  Tilted.create_animation [diagonal_file] 90 0 =
  (frames <- Tilted.create_static_frames [diagonal_file] 90 0 ;;
   Ok (Saved frames)).
Proof.
  apply (X3_tilted_animation_is_static_frames [diagonal_file] 90 0).
  discriminate.
Defined.

Lemma render_is_static (v : view) (files : list h5file) :
  files <> [] ->
  render v files = (frames <- render_static v files ;; Ok (Saved frames)).
Proof.
  intros Hne. destruct files as [| f0 rest]; [contradiction |].
  destruct v as [| | angle_x angle_z]; cbn [render render_static].
  - unfold Allstars.create_animation, Allstars.create_static_frames.
    destruct (mapM load_snapshot (f0 :: rest)) as [snapshots | e]; simpl;
      [| reflexivity].
    destruct (Allstars.coordinate_limits snapshots) as [[xlim ylim] | e];
      simpl; [| reflexivity].
    rewrite (FuncAnimation_explicit (Allstars.animate snapshots)
               Allstars.static_frame snapshots xlim ylim);
      [reflexivity | intros; apply Allstars_animate_static; assumption
      | intros; split; reflexivity].
  - unfold EdgeOn.create_animation, EdgeOn.create_static_frames.
    destruct (mapM load_snapshot (f0 :: rest)) as [snapshots | e] eqn:Hload;
      simpl; [| reflexivity].
    destruct (EdgeOn.coordinate_limits snapshots) as [[xlim zlim] | e];
      simpl; [| reflexivity].
    assert (Hcases : (exists ax, EdgeOn.figure xlim zlim = Ok ax) \/
                     (exists e, EdgeOn.figure xlim zlim = Raise e)).
    { destruct (EdgeOn.figure xlim zlim); eauto. }
    destruct Hcases as [[ax Hfig] | [e Hfig]].
    + rewrite (EdgeOn_static_mapM xlim zlim snapshots ax Hfig).
      rewrite Hfig. simpl.
      rewrite (EdgeOn_figure_Ok xlim zlim ax Hfig).
      rewrite (FuncAnimation_explicit (EdgeOn.animate snapshots)
                 EdgeOn.static_frame snapshots xlim zlim);
        [reflexivity | intros; apply EdgeOn_animate_static; assumption
        | intros; split; reflexivity].
    + apply mapM_length in Hload.
      destruct snapshots as [| snap t]; [discriminate Hload |].
      cbn [mapM]. rewrite Hfig. reflexivity.
  - unfold Tilted.create_animation, Tilted.create_static_frames.
    destruct (mapM load_snapshot (f0 :: rest)) as [snapshots | e]; simpl;
      [| reflexivity].
    destruct (Tilted.coordinate_limits snapshots angle_x angle_z)
      as [[xlim ylim] | e]; simpl; [| reflexivity].
    rewrite (FuncAnimation_explicit (Tilted.animate angle_x angle_z snapshots)
               (Tilted.static_frame angle_x angle_z) snapshots xlim ylim);
      [reflexivity | intros; apply Tilted_animate_static; assumption
      | intros; split; reflexivity].
Qed.

Lemma render_static_frames (v : view) (files : list h5file) (frames : list axes) :
  render_static v files = Ok frames ->
  exists snapshots xlim ylim,
    mapM load_snapshot files = Ok snapshots /\
    view_limits v snapshots = Ok (xlim, ylim) /\
    frames = map (frame_of v xlim ylim) snapshots.
Proof.
  destruct v as [| | angle_x angle_z];
    cbn [render_static view_limits frame_of]; intros H.
  - unfold Allstars.create_static_frames in H.
    bind_inv H. bind_inv H. destruct v0 as [xlim ylim].
    injection H as <-. exists v, xlim, ylim. auto.
  - unfold EdgeOn.create_static_frames in H.
    bind_inv H. bind_inv H. destruct v0 as [xlim zlim].
    exists v, xlim, zlim. split; [exact E | split; [exact E0 |]].
    clear E E0. cbn [fst snd] in H. revert frames H.
    induction v as [| snap t IH]; cbn [mapM map]; intros frames H.
    + injection H as <-. reflexivity.
    + bind_inv H. bind_inv H. injection H as <-.
      bind_inv E. injection E as <-. f_equal. apply IH, E0.
  - unfold Tilted.create_static_frames in H.
    bind_inv H. bind_inv H. destruct v0 as [xlim ylim].
    injection H as <-. exists v, xlim, ylim. auto.
Qed.

Lemma render_frames (v : view) (files : list h5file) (frames : list axes) :
  render v files = Ok (Saved frames) ->
  exists snapshots xlim ylim,
    mapM load_snapshot files = Ok snapshots /\
    view_limits v snapshots = Ok (xlim, ylim) /\
    frames = map (frame_of v xlim ylim) snapshots.
Proof.
  intros H. destruct files as [| f0 rest].
  - destruct v; discriminate H.
  - rewrite render_is_static in H by discriminate.
    bind_inv H. injection H as <-.
    apply render_static_frames, E.
Qed.

Lemma rotate_3d_app (a b : list vec3) (angle_x angle_z : R) :
  Tilted.rotate_3d (a ++ b) angle_x angle_z =
  Tilted.rotate_3d a angle_x angle_z ++ Tilted.rotate_3d b angle_x angle_z.
Proof. rewrite !rotate_3d_rows. apply map_app. Qed.

Lemma frame_of_content (v : view) (xlim ylim : R * R) (snap : snapshot) :
  ax_xlim (frame_of v xlim ylim snap) = xlim /\
  ax_ylim (frame_of v xlim ylim snap) = ylim /\
  time_text (frame_of v xlim ylim snap) = Some (time snap) /\
  count_text (frame_of v xlim ylim snap) = Some (length (newstars_pos snap)) /\
  length (new_stars (frame_of v xlim ylim snap)) = length (newstars_pos snap) /\
  length (old_stars (frame_of v xlim ylim snap)) =
    (length (disk_pos snap) + length (bulge_pos snap))%nat.
Proof.
  destruct v as [| | angle_x angle_z]; cbn [frame_of];
    unfold Allstars.static_frame, EdgeOn.static_frame, Tilted.static_frame,
      set_frame, vstack, cols01, cols02;
    cbn [ax_xlim ax_ylim time_text count_text new_stars old_stars subplots];
    (repeat split; try reflexivity);
    try (destruct (newstars_pos snap); cbn [length Nat.ltb Nat.leb];
         rewrite ?length_map, ?rotate_3d_length; reflexivity);
    rewrite ?length_app, ?length_map, ?rotate_3d_length, ?length_app;
    reflexivity.
Qed.

(** X4.  In every saved animation the frames follow the files one to one
    and in order: frame [k] shows the time of snapshot [k], its counter is
    the number of new stars of that snapshot, which is the number of
    new-star points plotted, and every disk and bulge particle is plotted
    as one old-star point. *)
Theorem X4_frames_follow_snapshots :
  forall (v : view) (files : list h5file) (frames : list axes),
    render v files = Ok (Saved frames) ->
    exists snapshots,
      mapM load_snapshot files = Ok snapshots /\
      map time_text frames = map (fun snap => Some (time snap)) snapshots /\
      Forall2 (fun f snap =>
                 count_text f = Some (length (newstars_pos snap)) /\
                 length (new_stars f) = length (newstars_pos snap) /\
                 length (old_stars f) =
                   (length (disk_pos snap) + length (bulge_pos snap))%nat)
              frames snapshots.
Proof.
  intros v files frames Hrun.
  destruct (render_frames v files frames Hrun)
    as [snapshots [xlim [ylim [Hload [_ ->]]]]].
  exists snapshots. split; [exact Hload |]. split.
  - rewrite map_map. apply map_ext. intros snap.
    apply (frame_of_content v xlim ylim snap).
  - clear Hrun Hload.
    induction snapshots as [| snap t IH]; cbn [map]; constructor.
    + destruct (frame_of_content v xlim ylim snap)
        as [_ [_ [_ [Hc [Hn Ho]]]]].
      split; [exact Hc | split; [exact Hn | exact Ho]].
    + apply IH.
Qed.

Lemma X4_frames_follow_snapshots_witness :
  exists snapshots,
    mapM load_snapshot scenario_files = Ok snapshots /\
    map time_text [scenario_frame 0; scenario_frame (1 / 2); scenario_frame 1] =
      map (fun snap => Some (time snap)) snapshots /\
    Forall2 (fun f snap =>
               count_text f = Some (length (newstars_pos snap)) /\
               length (new_stars f) = length (newstars_pos snap) /\
               length (old_stars f) =
                 (length (disk_pos snap) + length (bulge_pos snap))%nat)
            [scenario_frame 0; scenario_frame (1 / 2); scenario_frame 1]
            snapshots.
Proof.
  exact (X4_frames_follow_snapshots FaceOn scenario_files
           [scenario_frame 0; scenario_frame (1 / 2); scenario_frame 1]
           scenario_run).
Defined.

Lemma Permutation_flat_map_pointwise {A B : Type} (f g : A -> list B)
  (l : list A) :
  (forall a, Permutation (f a) (g a)) ->
  Permutation (flat_map f l) (flat_map g l).
Proof.
  intros H. induction l as [| a t IH]; simpl.
  - constructor.
  - apply Permutation_app; [apply H | exact IH].
Qed.

Lemma flat_map_of_map {A B C : Type} (f : A -> B) (g : B -> list C)
  (l : list A) :
  flat_map g (map f l) = flat_map (fun a => g (f a)) l.
Proof.
  induction l as [| a t IH]; simpl; [reflexivity | rewrite IH; reflexivity].
Qed.

(** What one snapshot adds to the two pools of a view. *)
Lemma projected_pools_flat_map (v : view) (snapshots : list snapshot) :
  projected_pools v snapshots =
  match v with
  | FaceOn =>
      (flat_map (class_column c0) snapshots, flat_map (class_column c1) snapshots)
  | EdgeOnView =>
      (flat_map (class_column c0) snapshots, flat_map (class_column c2) snapshots)
  | TiltedView angle_x angle_z =>
      (flat_map (fun snap =>
                   column c0 (Tilted.rotate_3d (stacked snap) angle_x angle_z))
         snapshots,
       flat_map (fun snap =>
                   column c1 (Tilted.rotate_3d (stacked snap) angle_x angle_z))
         snapshots)
  end.
Proof.
  destruct v; cbn [projected_pools];
    [apply pools_flat_map | apply pools_flat_map | apply rotated_pools_flat_map].
Qed.

Lemma old_new_perm {A : Type} (d b n : list A) :
  Permutation ((d ++ b) ++ n) (n ++ d ++ b).
Proof. apply Permutation_app_comm. Qed.

Lemma frame_of_plotted (v : view) (xlim ylim : R * R) (snap : snapshot) :
  match v with
  | FaceOn =>
      Permutation (plotted_x (frame_of v xlim ylim snap)) (class_column c0 snap) /\
      Permutation (plotted_y (frame_of v xlim ylim snap)) (class_column c1 snap)
  | EdgeOnView =>
      Permutation (plotted_x (frame_of v xlim ylim snap)) (class_column c0 snap) /\
      Permutation (plotted_y (frame_of v xlim ylim snap)) (class_column c2 snap)
  | TiltedView angle_x angle_z =>
      Permutation (plotted_x (frame_of v xlim ylim snap))
        (column c0 (Tilted.rotate_3d (stacked snap) angle_x angle_z)) /\
      Permutation (plotted_y (frame_of v xlim ylim snap))
        (column c1 (Tilted.rotate_3d (stacked snap) angle_x angle_z))
  end.
Proof.
  assert (Hif : forall (B : Type) (g : list vec3 -> list B),
             g [] = [] ->
             (if (0 <? length (newstars_pos snap))%nat
              then g (newstars_pos snap) else []) = g (newstars_pos snap)).
  { intros B g Hg. destruct (newstars_pos snap); [symmetry; exact Hg |].
    reflexivity. }
  destruct v as [| | angle_x angle_z]; cbn [frame_of];
    unfold plotted_x, plotted_y, Allstars.static_frame, EdgeOn.static_frame,
      Tilted.static_frame, set_frame, vstack;
    cbn [old_stars new_stars].
  - rewrite (Hif _ cols01 eq_refl). unfold cols01, class_column, column.
    rewrite !map_app, !map_map. cbn [fst snd].
    split; apply old_new_perm.
  - rewrite (Hif _ cols02 eq_refl). unfold cols02, class_column, column.
    rewrite !map_app, !map_map. cbn [fst snd].
    split; apply old_new_perm.
  - rewrite (Hif _ (fun a => cols01 (Tilted.rotate_3d a angle_x angle_z))
               eq_refl).
    unfold stacked. rewrite !rotate_3d_app. unfold cols01, column.
    rewrite !map_app, !map_map, <- !app_assoc. cbn [fst snd].
    split; apply Permutation_refl.
Qed.

(** X5.  The window is computed from exactly the points that are drawn: in
    every saved animation, the horizontal coordinates of all points of all
    frames are, up to order, the pool from which the horizontal limits are
    taken, and likewise for the vertical coordinates.  No particle is drawn
    without having entered the percentiles and none entered them without
    being drawn. *)
Theorem X5_drawn_points_are_pooled_points :
  forall (v : view) (files : list h5file) (frames : list axes),
    render v files = Ok (Saved frames) ->
    exists snapshots,
      mapM load_snapshot files = Ok snapshots /\
      Permutation (flat_map plotted_x frames)
                  (fst (projected_pools v snapshots)) /\
      Permutation (flat_map plotted_y frames)
                  (snd (projected_pools v snapshots)).
Proof.
  intros v files frames Hrun.
  destruct (render_frames v files frames Hrun)
    as [snapshots [xlim [ylim [Hload [_ ->]]]]].
  exists snapshots. split; [exact Hload |].
  rewrite projected_pools_flat_map, !flat_map_of_map.
  destruct v as [| | angle_x angle_z]; cbn [fst snd];
    split; apply Permutation_flat_map_pointwise; intros snap.
  - apply (frame_of_plotted FaceOn xlim ylim snap).
  - apply (frame_of_plotted FaceOn xlim ylim snap).
  - apply (frame_of_plotted EdgeOnView xlim ylim snap).
  - apply (frame_of_plotted EdgeOnView xlim ylim snap).
  - apply (frame_of_plotted (TiltedView angle_x angle_z) xlim ylim snap).
  - apply (frame_of_plotted (TiltedView angle_x angle_z) xlim ylim snap).
Qed.

Lemma X5_drawn_points_are_pooled_points_witness :
  exists snapshots,
    mapM load_snapshot [thick_file] = Ok snapshots /\
    Permutation (flat_map plotted_x [thick_frame])
                (fst (projected_pools EdgeOnView snapshots)) /\
    Permutation (flat_map plotted_y [thick_frame])
                (snd (projected_pools EdgeOnView snapshots)).
Proof.
  exact (X5_drawn_points_are_pooled_points EdgeOnView [thick_file]
           [thick_frame] thick_run).
Defined.

(** ** When a run succeeds and how it fails *)

Lemma flat_map_nonempty_iff {A B : Type} (f : A -> list B) (l : list A) :
  flat_map f l <> [] <-> Exists (fun a => f a <> []) l.
Proof.
  induction l as [| a t IH]; simpl.
  - split; [intros H; contradiction H; reflexivity | intros H; inversion H].
  - split.
    + intros H. destruct (f a) as [| b u] eqn:E.
      * right. apply IH. exact H.
      * left. rewrite E. discriminate.
    + intros H Hnil. apply app_eq_nil in Hnil. destruct Hnil as [Ha Ht].
      inversion H as [? ? Hx | ? ? Hx]; subst.
      * contradiction.
      * apply IH in Hx. contradiction.
Qed.

Lemma nonempty_length {A B : Type} (l : list A) (l' : list B) :
  length l = length l' -> (l <> [] <-> l' <> []).
Proof. destruct l, l'; simpl; intros H; try discriminate; split; congruence. Qed.

Lemma class_column_nonempty (k : vec3 -> R) (snap : snapshot) :
  class_column k snap <> [] <-> stacked snap <> [].
Proof.
  apply nonempty_length. unfold class_column, stacked, column.
  rewrite !length_app, !length_map. lia.
Qed.

Lemma rotated_column_nonempty (k : vec3 -> R) (angle_x angle_z : R)
  (snap : snapshot) :
  column k (Tilted.rotate_3d (stacked snap) angle_x angle_z) <> [] <->
  stacked snap <> [].
Proof.
  apply nonempty_length. unfold column.
  rewrite length_map, rotate_3d_length. reflexivity.
Qed.

Lemma Exists_iff {A : Type} (P Q : A -> Prop) (l : list A) :
  (forall a, P a <-> Q a) -> (Exists P l <-> Exists Q l).
Proof.
  intros H. split; intros E; eapply Exists_impl; try exact E;
    intros a; apply H.
Qed.

Lemma projected_pools_populated (v : view) (snapshots : list snapshot) :
  (fst (projected_pools v snapshots) <> [] <-> populated snapshots) /\
  (snd (projected_pools v snapshots) <> [] <-> populated snapshots).
Proof.
  rewrite projected_pools_flat_map. unfold populated.
  destruct v as [| | angle_x angle_z]; cbn [fst snd];
    split; rewrite flat_map_nonempty_iff; apply Exists_iff; intros snap;
    try apply class_column_nonempty; apply rotated_column_nonempty.
Qed.

Lemma view_limits_defined (v : view) (snapshots : list snapshot) :
  populated snapshots -> exists lims, view_limits v snapshots = Ok lims.
Proof.
  intros Hp.
  destruct (projected_pools_populated v snapshots) as [Hx Hy].
  apply Hx in Hp as Hpx. apply Hy in Hp as Hpy.
  destruct (percentile_limits_defined _ Hpx) as [xl Ex].
  destruct (percentile_limits_defined _ Hpy) as [yl Ey].
  destruct v as [| | angle_x angle_z]; cbn [view_limits projected_pools] in *.
  - unfold Allstars.coordinate_limits. rewrite Ex, Ey. simpl. eauto.
  - unfold EdgeOn.coordinate_limits. rewrite Ex, Ey. simpl. eauto.
  - unfold Tilted.coordinate_limits. rewrite Ex, Ey. simpl. eauto.
Qed.

Lemma view_limits_populated (v : view) (snapshots : list snapshot)
  (lims : (R * R) * (R * R)) :
  view_limits v snapshots = Ok lims -> populated snapshots.
Proof.
  intros H. apply (proj1 (projected_pools_populated v snapshots)).
  destruct v as [| | angle_x angle_z]; cbn [view_limits projected_pools] in *.
  - unfold Allstars.coordinate_limits in H. bind_inv H.
    apply percentile_limits_Ok in E. apply E.
  - unfold EdgeOn.coordinate_limits in H. bind_inv H.
    apply percentile_limits_Ok in E. apply E.
  - unfold Tilted.coordinate_limits in H. bind_inv H.
    apply percentile_limits_Ok in E. apply E.
Qed.

Lemma render_static_unfold (v : view) (files : list h5file)
  (snapshots : list snapshot) (xlim ylim : R * R) :
  v <> EdgeOnView ->
  mapM load_snapshot files = Ok snapshots ->
  view_limits v snapshots = Ok (xlim, ylim) ->
  render_static v files = Ok (map (frame_of v xlim ylim) snapshots).
Proof.
  intros Hv Hload Hl.
  destruct v as [| | angle_x angle_z]; [| contradiction |];
    cbn [render_static view_limits frame_of] in *.
  - unfold Allstars.create_static_frames. rewrite Hload. simpl.
    rewrite Hl. reflexivity.
  - unfold Tilted.create_static_frames. rewrite Hload. simpl.
    rewrite Hl. reflexivity.
Qed.

(** X6.  In every view an animation is built only from files that all load
    and of which at least one snapshot holds a particle; it has one frame
    per file.  Without a file, with a file that does not load or without
    any particle there is no animation. *)
Theorem X6_animation_needs_particles :
  forall (v : view) (files : list h5file) (frames : list axes),
    render v files = Ok (Saved frames) ->
    files <> [] /\
    (exists snapshots,
        mapM load_snapshot files = Ok snapshots /\ populated snapshots /\
        ~ Forall no_particles snapshots) /\
    length frames = length files.
Proof.
  intros v files frames Hrun.
  destruct (render_frames v files frames Hrun)
    as [snapshots [xlim [ylim [Hload [Hl ->]]]]].
  pose proof (view_limits_populated v snapshots _ Hl) as Hp.
  split; [| split].
  - intros ->. destruct v; discriminate Hrun.
  - exists snapshots. split; [exact Hload |]. split; [exact Hp |].
    intros Hnone. unfold populated in Hp.
    apply Exists_exists in Hp. destruct Hp as [snap [Hin Hs]].
    rewrite Forall_forall in Hnone.
    destruct (Hnone snap Hin) as [Hn [Hd Hb]].
    apply Hs. unfold stacked. rewrite Hn, Hd, Hb. reflexivity.
  - rewrite length_map. apply (mapM_length _ _ _ Hload).
Qed.

Lemma X6_animation_needs_particles_witness :
  scenario_files <> [] /\
  (exists snapshots,
      mapM load_snapshot scenario_files = Ok snapshots /\
      populated snapshots /\ ~ Forall no_particles snapshots) /\
  length [scenario_frame 0; scenario_frame (1 / 2); scenario_frame 1] =
    length scenario_files.
Proof.
  exact (X6_animation_needs_particles FaceOn scenario_files
           [scenario_frame 0; scenario_frame (1 / 2); scenario_frame 1]
           scenario_run).
Defined.

Lemma mapM_first_failure {A B : Type} (f : A -> result B)
  (good : list A) (bad : A) (rest : list A) (bs : list B) (e : exn) :
  mapM f good = Ok bs -> f bad = Raise e ->
  mapM f (good ++ bad :: rest) = Raise e.
Proof.
  revert bs. induction good as [| a t IH]; intros bs Hg Hb; simpl.
  - rewrite Hb. reflexivity.
  - simpl in Hg. bind_inv Hg. bind_inv Hg.
    rewrite E, (IH _ E0 Hb). reflexivity.
Qed.

Lemma render_static_load_error (v : view) (files : list h5file) (e : exn) :
  mapM load_snapshot files = Raise e -> render_static v files = Raise e.
Proof.
  intros H. destruct v; cbn [render_static];
    unfold Allstars.create_static_frames, EdgeOn.create_static_frames,
      Tilted.create_static_frames; rewrite H; reflexivity.
Qed.

(** X7.  In every view, a run stops at the first file, in the order of the
    list, that fails to load, and raises the exception of that file: the
    files after it are not read and the outcome does not depend on them.
    No frame is rendered. *)
Theorem X7_first_unreadable_file_decides :
  forall (v : view) (good : list h5file) (bad : h5file) (rest : list h5file)
         (loaded : list snapshot) (e : exn),
    mapM load_snapshot good = Ok loaded ->
    load_snapshot bad = Raise e ->
    render v (good ++ bad :: rest) = Raise e /\
    render_static v (good ++ bad :: rest) = Raise e /\
    frames_of (render v (good ++ bad :: rest)) = [].
Proof.
  intros v good bad rest loaded e Hg Hb.
  pose proof (mapM_first_failure load_snapshot good bad rest loaded e Hg Hb)
    as Hload.
  pose proof (render_static_load_error v _ e Hload) as Hs.
  assert (Hr : render v (good ++ bad :: rest) = Raise e).
  { rewrite render_is_static by (destruct good; discriminate).
    rewrite Hs. reflexivity. }
  split; [exact Hr | split; [exact Hs |]]. rewrite Hr. reflexivity.
Qed.

Lemma X7_first_unreadable_file_decides_witness :
  render EdgeOnView ([thick_file] ++ stars_without_masses :: [untimed_file]) =
    Raise (KeyError "PartType4/Masses") /\
  render_static EdgeOnView
    ([thick_file] ++ stars_without_masses :: [untimed_file]) =
    Raise (KeyError "PartType4/Masses") /\
  frames_of (render EdgeOnView
               ([thick_file] ++ stars_without_masses :: [untimed_file])) = [].
Proof.
  apply (X7_first_unreadable_file_decides EdgeOnView [thick_file]
           stars_without_masses [untimed_file] [thick_snapshot]).
  - reflexivity.
  - reflexivity.
Defined.

(** X8.  The three script bodies, over a non-empty file list: the script
    ends with an exception exactly when the static frames do, and when the
    static frames are written the animation is saved with the same frames.
    The handler around [create_animation] is therefore never entered
    because of the snapshots; only the encoder can send the script
    there. *)
Theorem X8_script_follows_static_frames :
  forall files : list h5file,
    files <> [] ->
    Allstars.main files =
      (frames <- Allstars.create_static_frames files ;;
       Ok (frames, Ok (Saved frames))) /\
    edge_on_main files =
      (frames <- EdgeOn.create_static_frames files ;;
       Ok (frames, Ok (Saved frames))) /\
    tilted_main files =
      (frames <- Tilted.create_static_frames files 30 20 ;;
       Ok (frames, Ok (Saved frames))).
Proof.
  intros files Hne.
  pose proof (render_is_static FaceOn files Hne) as Hf.
  pose proof (render_is_static EdgeOnView files Hne) as He.
  pose proof (render_is_static (TiltedView 30 20) files Hne) as Ht.
  cbn [render render_static] in Hf, He, Ht.
  unfold Allstars.main, edge_on_main, tilted_main.
  rewrite Hf, He, Ht.
  repeat split.
  - destruct (Allstars.create_static_frames files); reflexivity.
  - destruct (EdgeOn.create_static_frames files); reflexivity.
  - destruct (Tilted.create_static_frames files 30 20); reflexivity.
Qed.

Lemma X8_script_follows_static_frames_witness :
  Allstars.main scenario_files =
  (frames <- Allstars.create_static_frames scenario_files ;;
   Ok (frames, Ok (Saved frames))).
Proof.
  apply (X8_script_follows_static_frames scenario_files). discriminate.
Defined.

(** ** Where the limits lie *)

Lemma interpolate_bounds (s : list R) (s0 : R) (q : nat) (lo hi : R) :
  StronglySorted Rle s -> (1 <= length s)%nat -> (q <= 100)%nat ->
  Forall (fun x => lo <= x <= hi) s ->
  lo <= interpolate s s0 q <= hi.
Proof.
  intros Hs Hn Hq Hall. unfold interpolate.
  set (n := length s) in *. set (k := ((n - 1) * q)%nat).
  assert (Hk : (k / 100 <= n - 1)%nat).
  { apply Nat.Div0.div_le_upper_bound. unfold k. nia. }
  assert (Hb : nth (k / 100) s s0 <= nth (Nat.min (k / 100 + 1) (n - 1)) s s0).
  { apply sorted_nth_le; [exact Hs | fold n; lia]. }
  pose proof (lerp_between _ _ _ Hb (gamma_range k)) as [Hl Hu].
  rewrite Forall_forall in Hall.
  assert (H1 : lo <= nth (k / 100) s s0 <= hi).
  { apply Hall, nth_In. fold n. lia. }
  assert (H2 : lo <= nth (Nat.min (k / 100 + 1) (n - 1)) s s0 <= hi).
  { apply Hall, nth_In. fold n. lia. }
  lra.
Qed.

Lemma percentile_bounds (a : list R) (q : nat) (lo hi v : R) :
  (q <= 100)%nat -> Forall (fun x => lo <= x <= hi) a ->
  percentile a q = Ok v -> lo <= v <= hi.
Proof.
  intros Hq Hall. rewrite percentile_unfold.
  pose proof (sort_sorted a) as Hs. pose proof (sort_perm a) as Hp.
  destruct (sort a) as [| s0 t] eqn:Es; [discriminate |].
  intros H. injection H as <-.
  apply interpolate_bounds; try assumption.
  - cbn [length]. lia.
  - eapply Permutation_Forall; [apply Permutation_sym, Hp | exact Hall].
Qed.





(** ** The edge-on figure *)

Lemma EdgeOn_figure_cases (xlim : R * R) :
  (fst xlim = snd xlim ->
   EdgeOn.figure xlim (third_of xlim) = Raise FigureSizeError) /\
  (fst xlim <> snd xlim ->
   EdgeOn.figure xlim (third_of xlim) = Ok (subplots xlim (third_of xlim))).
Proof.
  unfold EdgeOn.figure, third_of. cbn [fst snd].
  destruct (Req_dec_T _ 0) as [H | H]; split; intros Hx;
    try reflexivity; exfalso; lra.
Qed.

Lemma pad_degenerate (lim : R * R) :
  fst (pad lim) = snd (pad lim) <-> fst lim = snd lim.
Proof. unfold pad. cbn [fst snd]. split; intros H; lra. Qed.

(** X10.  Edge-on script, over a non-empty list of files that load: when
    the 1st and the 99th percentile of the pooled X coordinates coincide,
    as they do whenever all particles share one X coordinate, the limits
    have width zero, the figure size is not a finite number and both the
    animation and the static frames end with the figure-size exception.  So
    an edge-on run that renders frames has X percentiles that differ. *)
Theorem X10_edge_on_needs_horizontal_extent :
  forall (files : list h5file) (snapshots : list snapshot) (lo hi : R),
    files <> [] ->
    mapM load_snapshot files = Ok snapshots ->
    percentile (fst (pools c2 snapshots)) 1 = Ok lo ->
    percentile (fst (pools c2 snapshots)) 99 = Ok hi ->
    (lo = hi ->
       EdgeOn.create_animation files = Raise FigureSizeError /\
       EdgeOn.create_static_frames files = Raise FigureSizeError) /\
    (forall c, Forall (fun x => x = c) (fst (pools c2 snapshots)) -> lo = hi) /\
    (forall frames,
        EdgeOn.create_animation files = Ok (Saved frames) \/
        EdgeOn.create_static_frames files = Ok frames ->
        lo <> hi).
Proof.
  intros files snapshots lo hi Hne Hload H1 H99.
  assert (Hx : percentile_limits (fst (pools c2 snapshots)) = Ok (lo, hi)).
  { unfold percentile_limits. rewrite H1, H99. reflexivity. }
  assert (Hz : exists zl, percentile_limits (snd (pools c2 snapshots)) = Ok zl).
  { apply percentile_limits_defined. intros Hnil.
    apply pools_nil_iff in Hnil. rewrite Hnil in H1. discriminate H1. }
  destruct Hz as [zl Hz].
  assert (Hl : EdgeOn.coordinate_limits snapshots =
               Ok (pad (lo, hi), third_of (pad (lo, hi)))).
  { unfold EdgeOn.coordinate_limits. rewrite Hx, Hz. reflexivity. }
  pose proof (render_is_static EdgeOnView files Hne) as Hrs.
  cbn [render render_static] in Hrs.
  assert (Hsnap : snapshots <> []).
  { intros ->. apply mapM_length in Hload. destruct files; [auto | discriminate]. }
  destruct (EdgeOn_figure_cases (pad (lo, hi))) as [Hbad _].
  assert (Hfail : lo = hi ->
            EdgeOn.create_animation files = Raise FigureSizeError /\
            EdgeOn.create_static_frames files = Raise FigureSizeError).
  { intros Hd.
    assert (Hfig : EdgeOn.figure (pad (lo, hi)) (third_of (pad (lo, hi))) =
                   Raise FigureSizeError).
    { apply Hbad. rewrite pad_degenerate. exact Hd. }
    assert (Hs : EdgeOn.create_static_frames files = Raise FigureSizeError).
    { unfold EdgeOn.create_static_frames. rewrite Hload. cbn [bind].
      rewrite Hl. cbn [bind fst snd].
      destruct snapshots as [| snap t]; [contradiction |].
      cbn [mapM]. rewrite Hfig. reflexivity. }
    rewrite Hrs, Hs. split; reflexivity. }
  split; [exact Hfail | split].
  - intros c Hall.
    assert (Hall' : Forall (fun x => c <= x <= c) (fst (pools c2 snapshots))).
    { eapply Forall_impl; [| exact Hall]. intros x ->. lra. }
    pose proof (percentile_bounds _ 1 c c lo ltac:(lia) Hall' H1).
    pose proof (percentile_bounds _ 99 c c hi ltac:(lia) Hall' H99).
    lra.
  - intros frames Hok Hd. destruct (Hfail Hd) as [Ha Hs].
    destruct Hok as [Hok | Hok]; congruence.
Qed.

Lemma column_percentiles :
  percentile (fst (pools c2 [column_snapshot])) 1 = Ok (5 + (5 - 5) * (1 / 100)) /\
  percentile (fst (pools c2 [column_snapshot])) 99 =
    Ok (5 + (5 - 5) * (99 / 100)).
Proof.
  change (fst (pools c2 [column_snapshot])) with [5; 5].
  assert (H : percentile_limits [5; 5] =
              Ok (5 + (5 - 5) * (1 / 100), 5 + (5 - 5) * (99 / 100)))
    by (apply percentile_limits_pair; lra).
  apply percentile_limits_Ok in H. destruct H as [H1 [H99 _]].
  split; assumption.
Qed.

Lemma X10_edge_on_needs_horizontal_extent_witness :
  EdgeOn.create_animation [column_file] = Raise FigureSizeError /\
  EdgeOn.create_static_frames [column_file] = Raise FigureSizeError.
Proof.
  destruct (X10_edge_on_needs_horizontal_extent [column_file] [column_snapshot]
              (5 + (5 - 5) * (1 / 100)) (5 + (5 - 5) * (99 / 100)))
    as [H _].
  - discriminate.
  - reflexivity.
  - exact (proj1 column_percentiles).
  - exact (proj2 column_percentiles).
  - apply H. lra.
Defined.



(** ** Change of units and of origin *)











(** ** Algebra of the rotation *)

Lemma radians_plus (a b : R) :
  Tilted.radians (a + b) = Tilted.radians a + Tilted.radians b.
Proof. unfold Tilted.radians. ring. Qed.

Lemma radians_opp (a : R) : Tilted.radians (- a) = - Tilted.radians a.
Proof. unfold Tilted.radians. ring. Qed.

Lemma radians_360 : Tilted.radians 360 = 2 * PI.
Proof. unfold Tilted.radians. field. Qed.

Lemma rotate_about_x_0 (p : vec3) : rotate_about_x 0 p = p.
Proof.
  destruct p as [[x y] z]. unfold rotate_about_x, c0, c1, c2; simpl.
  rewrite cos_0, sin_0. apply vec3_eq; ring.
Qed.

Lemma rotate_about_z_0 (p : vec3) : rotate_about_z 0 p = p.
Proof.
  destruct p as [[x y] z]. unfold rotate_about_z, c0, c1, c2; simpl.
  rewrite cos_0, sin_0. apply vec3_eq; ring.
Qed.

Lemma rotate_about_x_add (a b : R) (p : vec3) :
  rotate_about_x b (rotate_about_x a p) = rotate_about_x (a + b) p.
Proof.
  destruct p as [[x y] z]. unfold rotate_about_x, c0, c1, c2; simpl.
  rewrite cos_plus, sin_plus. apply vec3_eq; ring.
Qed.

Lemma rotate_about_z_add (a b : R) (p : vec3) :
  rotate_about_z b (rotate_about_z a p) = rotate_about_z (a + b) p.
Proof.
  destruct p as [[x y] z]. unfold rotate_about_z, c0, c1, c2; simpl.
  rewrite cos_plus, sin_plus. apply vec3_eq; ring.
Qed.

Lemma rotate_3d_x_only (pos : list vec3) (a : R) :
  Tilted.rotate_3d pos a 0 = map (rotate_about_x (Tilted.radians a)) pos.
Proof.
  rewrite rotate_3d_rows, radians_0. apply map_ext. intros p.
  apply rotate_about_z_0.
Qed.

Lemma rotate_3d_z_only (pos : list vec3) (a : R) :
  Tilted.rotate_3d pos 0 a = map (rotate_about_z (Tilted.radians a)) pos.
Proof.
  rewrite rotate_3d_rows, radians_0. apply map_ext. intros p.
  rewrite rotate_about_x_0. reflexivity.
Qed.

(** X13.  A rotation is undone by the two opposite rotations in the
    opposite order: first about Z by [- angle_z], then about X by
    [- angle_x].  No position is lost or merged by the tilt. *)
Theorem X13_rotation_round_trip :
  forall (pos : list vec3) (angle_x angle_z : R),
    Tilted.rotate_3d
      (Tilted.rotate_3d (Tilted.rotate_3d pos angle_x angle_z) 0 (- angle_z))
      (- angle_x) 0 = pos.
Proof.
  intros pos angle_x angle_z.
  rewrite rotate_3d_x_only, rotate_3d_z_only, rotate_3d_rows, !map_map.
  rewrite <- (map_id pos) at 2. apply map_ext. intros p.
  rewrite !radians_opp.
  rewrite rotate_about_z_add, Rplus_opp_r, rotate_about_z_0.
  rewrite rotate_about_x_add, Rplus_opp_r, rotate_about_x_0. reflexivity.
Qed.

(** X14.  How calls of [rotate_3d] compose: a call with two angles is the
    X rotation followed by the Z rotation; successive rotations about the
    same axis add their angles. *)
Theorem X14_rotations_compose :
  forall (pos : list vec3) (a b : R),
    Tilted.rotate_3d pos a b =
      Tilted.rotate_3d (Tilted.rotate_3d pos a 0) 0 b /\
    Tilted.rotate_3d (Tilted.rotate_3d pos a 0) b 0 =
      Tilted.rotate_3d pos (a + b) 0 /\
    Tilted.rotate_3d (Tilted.rotate_3d pos 0 a) 0 b =
      Tilted.rotate_3d pos 0 (a + b).
Proof.
  intros pos a b. split; [| split].
  - rewrite rotate_3d_z_only, rotate_3d_x_only, rotate_3d_rows, map_map.
    reflexivity.
  - rewrite !rotate_3d_x_only, map_map. apply map_ext. intros p.
    rewrite rotate_about_x_add, radians_plus. reflexivity.
  - rewrite !rotate_3d_z_only, map_map. apply map_ext. intros p.
    rewrite rotate_about_z_add, radians_plus. reflexivity.
Qed.

(** X15.  The angles count modulo 360 degrees: a full turn added to either
    angle changes no rotated position. *)
Theorem X15_rotation_period_360 :
  forall (pos : list vec3) (angle_x angle_z : R),
    Tilted.rotate_3d pos (angle_x + 360) angle_z =
      Tilted.rotate_3d pos angle_x angle_z /\
    Tilted.rotate_3d pos angle_x (angle_z + 360) =
      Tilted.rotate_3d pos angle_x angle_z.
Proof.
  intros pos angle_x angle_z.
  rewrite !rotate_3d_rows, !radians_plus, radians_360.
  split; apply map_ext; intros p;
    unfold rotate_about_z, rotate_about_x;
    rewrite ?cos_2PI, ?sin_2PI, ?cos_plus, ?sin_plus, ?cos_2PI, ?sin_2PI;
    destruct p as [[x y] z]; unfold c0, c1, c2; simpl;
    apply vec3_eq; ring.
Qed.

(** ** The tilted script at zero angles *)

Lemma cols01_app (a b : list vec3) : cols01 (a ++ b) = cols01 a ++ cols01 b.
Proof. unfold cols01. apply map_app. Qed.

Lemma stacked_column_perm (k : vec3 -> R) (snap : snapshot) :
  Permutation (column k (stacked snap)) (class_column k snap).
Proof.
  unfold stacked, class_column, column. rewrite !map_app.
  rewrite app_assoc. apply Permutation_app_comm.
Qed.

Lemma Tilted_limits_zero (snapshots : list snapshot) :
  Tilted.coordinate_limits snapshots 0 0 = Allstars.coordinate_limits snapshots.
Proof.
  unfold Tilted.coordinate_limits, Allstars.coordinate_limits.
  rewrite rotated_pools_flat_map, pools_flat_map. cbn [fst snd].
  assert (H0 : forall k,
             Permutation
               (flat_map (fun snap =>
                            column k (Tilted.rotate_3d (stacked snap) 0 0))
                  snapshots)
               (flat_map (class_column k) snapshots)).
  { intros k. apply Permutation_flat_map_pointwise. intros snap.
    rewrite rotate_3d_zero. apply stacked_column_perm. }
  rewrite (percentile_limits_perm _ _ (H0 c0)).
  rewrite (percentile_limits_perm _ _ (H0 c1)).
  reflexivity.
Qed.

Lemma Tilted_static_frame_zero (xlim ylim : R * R) (snap : snapshot) :
  Tilted.static_frame 0 0 xlim ylim snap = Allstars.static_frame xlim ylim snap.
Proof.
  unfold Tilted.static_frame, Allstars.static_frame, vstack.
  rewrite !rotate_3d_zero, cols01_app. reflexivity.
Qed.

Lemma Tilted_zero_record (files : list h5file) :
  Tilted.create_static_frames files 0 0 = Allstars.create_static_frames files /\
  Tilted.create_animation files 0 0 = Allstars.create_animation files.
Proof.
  assert (Hs : Tilted.create_static_frames files 0 0 =
               Allstars.create_static_frames files).
  { unfold Tilted.create_static_frames, Allstars.create_static_frames.
    destruct (mapM load_snapshot files) as [snapshots | e]; cbn [bind];
      [| reflexivity].
    rewrite Tilted_limits_zero.
    destruct (Allstars.coordinate_limits snapshots) as [[xlim ylim] | e];
      cbn [bind fst snd]; [| reflexivity].
    f_equal. apply map_ext. intros snap. apply Tilted_static_frame_zero. }
  split; [exact Hs |].
  destruct files as [| f0 rest]; [reflexivity |].
  pose proof (render_is_static (TiltedView 0 0) (f0 :: rest)) as Ht.
  pose proof (render_is_static FaceOn (f0 :: rest)) as Hf.
  cbn [render render_static] in Ht, Hf.
  rewrite Ht, Hf, Hs by discriminate. reflexivity.
Qed.

Lemma same_data_refl (frames : list axes) : Forall2 same_data frames frames.
Proof.
  induction frames as [| f t IH]; constructor; [| exact IH].
  unfold same_data. repeat split; reflexivity.
Qed.

(** X16.  With both angles zero the tilted script shows what the face-on
    script shows.  The limits are the same; one script raises exactly when
    the other does, and the same exception; and frame by frame the axis
    limits, the offsets of the old and of the new stars, the time and the
    counter agree, in the animation and in the static frames.  The figure
    size, the marker style and the view label are not among the things
    compared: in those the two scripts differ. *)
Theorem X16_tilted_at_zero_shows_face_on_data :
  forall files : list h5file,
    (forall snapshots,
        Tilted.coordinate_limits snapshots 0 0 =
        Allstars.coordinate_limits snapshots) /\
    (forall e, Tilted.create_animation files 0 0 = Raise e <->
               Allstars.create_animation files = Raise e) /\
    (forall e, Tilted.create_static_frames files 0 0 = Raise e <->
               Allstars.create_static_frames files = Raise e) /\
    (forall tilted,
        Tilted.create_animation files 0 0 = Ok (Saved tilted) ->
        exists face_on,
          Allstars.create_animation files = Ok (Saved face_on) /\
          Forall2 same_data tilted face_on) /\
    (forall tilted,
        Tilted.create_static_frames files 0 0 = Ok tilted ->
        exists face_on,
          Allstars.create_static_frames files = Ok face_on /\
          Forall2 same_data tilted face_on).
Proof.
  intros files. destruct (Tilted_zero_record files) as [Hs Ha].
  split; [apply Tilted_limits_zero |].
  split; [intros e; rewrite Ha; reflexivity |].
  split; [intros e; rewrite Hs; reflexivity |].
  split.
  - intros tilted H. exists tilted. rewrite <- Ha.
    split; [exact H | apply same_data_refl].
  - intros tilted H. exists tilted. rewrite <- Hs.
    split; [exact H | apply same_data_refl].
Qed.

Lemma X16_tilted_at_zero_shows_face_on_data_witness :
  exists face_on,
    Allstars.create_animation scenario_files = Ok (Saved face_on) /\
    Forall2 same_data
      [scenario_frame 0; scenario_frame (1 / 2); scenario_frame 1] face_on.
Proof.
  destruct (X16_tilted_at_zero_shows_face_on_data scenario_files)
    as [_ [_ [_ [H _]]]].
  apply H. rewrite (proj2 (Tilted_zero_record scenario_files)).
  exact scenario_run.
Defined.

(** ** When a file loads *)

Lemma datasets_present_Ok (f : h5file) (d : snapshot) :
  load_snapshot f = Ok d -> datasets_present f = true.
Proof.
  intros H. destruct (load_snapshot_Ok f d H) as [_ [H4 [H2 H3]]].
  unfold datasets_present, is_some.
  destruct (PartType4 f) as [g4 |];
    [destruct H4 as [-> [-> ->]] |];
    (destruct (PartType2 f) as [g2 |]; [rewrite H2 |]);
    (destruct (PartType3 f) as [g3 |]; [rewrite H3 |]);
    reflexivity.
Qed.

(** The members that [load_snapshot] asks the file for, in the order in
    which it asks. *)
Lemma load_snapshot_Raise (f : h5file) (e : exn) :
  load_snapshot f = Raise e ->
  exists key, e = KeyError key /\
    In key ["Header"; "Time"; "PartType4/Coordinates"; "PartType4/Masses";
            "PartType4/StellarFormationTime"; "PartType2/Coordinates";
            "PartType3/Coordinates"]%string.
Proof.
  unfold load_snapshot, getitem. intros H.
  destruct (Header f) as [hdr |]; cbn [bind] in H;
    [| injection H as <-; eexists; split; [reflexivity | simpl; tauto]].
  destruct (Time hdr) as [t |]; cbn [bind] in H;
    [| injection H as <-; eexists; split; [reflexivity | simpl; tauto]].
  destruct (PartType4 f) as [g4 |]; cbn [bind] in H.
  - destruct (Coordinates g4); cbn [bind] in H;
      [| injection H as <-; eexists; split; [reflexivity | simpl; tauto]].
    destruct (Masses g4); cbn [bind] in H;
      [| injection H as <-; eexists; split; [reflexivity | simpl; tauto]].
    destruct (StellarFormationTime g4); cbn [bind] in H;
      [| injection H as <-; eexists; split; [reflexivity | simpl; tauto]].
    destruct (PartType2 f) as [g2 |]; cbn [bind] in H;
      [destruct (Coordinates g2); cbn [bind] in H;
       [| injection H as <-; eexists; split; [reflexivity | simpl; tauto]] |];
      (destruct (PartType3 f) as [g3 |]; cbn [bind] in H;
       [destruct (Coordinates g3); cbn [bind] in H;
        [| injection H as <-; eexists; split; [reflexivity | simpl; tauto]] |]);
      discriminate H.
  - destruct (PartType2 f) as [g2 |]; cbn [bind] in H;
      [destruct (Coordinates g2); cbn [bind] in H;
       [| injection H as <-; eexists; split; [reflexivity | simpl; tauto]] |];
      (destruct (PartType3 f) as [g3 |]; cbn [bind] in H;
       [destruct (Coordinates g3); cbn [bind] in H;
        [| injection H as <-; eexists; split; [reflexivity | simpl; tauto]] |]);
      discriminate H.
Qed.

(** X17.  [load_snapshot] returns a record exactly for the files that have
    the time attribute and, in every particle group they have, the datasets
    that are read.  For every other file it raises [KeyError], and nothing
    else, for one of the seven members it asks for. *)
Theorem X17_load_succeeds_iff :
  forall f : h5file,
    ((exists d, load_snapshot f = Ok d) <->
     (exists t, header_time f = Some t) /\ datasets_present f = true) /\
    (forall e, load_snapshot f = Raise e ->
       exists key, e = KeyError key /\
         In key ["Header"; "Time"; "PartType4/Coordinates"; "PartType4/Masses";
                 "PartType4/StellarFormationTime"; "PartType2/Coordinates";
                 "PartType3/Coordinates"]%string).
Proof.
  intros f. split; [split |].
  - intros [d Hd]. split.
    + exists (time d).
      destruct (load_snapshot_Ok f d Hd) as [[hdr [Eh Et]] _].
      unfold header_time. rewrite Eh. exact Et.
    + apply (datasets_present_Ok f d Hd).
  - intros [[t Ht] Hp].
    destruct (load_snapshot_complete f t Ht Hp) as [d [Hd _]]. eauto.
  - apply load_snapshot_Raise.
Qed.

(** ** File names of the static frames *)

Lemma string_length_append (a b : string) :
  String.length (String.append a b) = (String.length a + String.length b)%nat.
Proof. induction a as [| ch a IH]; simpl; [reflexivity | rewrite IH; reflexivity]. Qed.

Lemma string_app_inv_head (a x y : string) :
  String.append a x = String.append a y -> x = y.
Proof.
  induction a as [| ch a IH]; simpl; intros H; [exact H |].
  injection H as H. apply IH, H.
Qed.

Lemma string_app_inv_tail (t x y : string) :
  String.append x t = String.append y t -> x = y.
Proof.
  revert y. induction x as [| ch x IH]; intros y H.
  - destruct y as [| ch' y]; [reflexivity |].
    apply (f_equal String.length) in H. simpl in H.
    rewrite string_length_append in H. lia.
  - destruct y as [| ch' y].
    + apply (f_equal String.length) in H. simpl in H.
      rewrite string_length_append in H. lia.
    + simpl in H. injection H as -> H. f_equal. apply IH, H.
Qed.

Lemma read_digits_zeros (k : nat) (s : string) :
  read_digits (String.append (zeros k) s) = read_digits s.
Proof.
  unfold read_digits. induction k as [| k IH]; simpl; [reflexivity |].
  rewrite <- IH.
  destruct (NilEmpty.uint_of_string (String.append (zeros k) s)); reflexivity.
Qed.

Lemma read_digits_str (i : nat) : read_digits (str_of_nat i) = Some i.
Proof.
  unfold read_digits, str_of_nat. rewrite NilEmpty.usu. simpl.
  f_equal. apply DecimalNat.Unsigned.of_to.
Qed.

Lemma read_digits_format (i : nat) : read_digits (format_03d i) = Some i.
Proof. unfold format_03d. rewrite read_digits_zeros. apply read_digits_str. Qed.

Lemma prefix_slash_frame (name : string) :
  String.prefix "/" (String.append "frame_" name) = false.
Proof. reflexivity. Qed.

Lemma frame_file_inj (frames_dir : string) (i j : nat) :
  frame_file frames_dir i = frame_file frames_dir j -> i = j.
Proof.
  unfold frame_file. intros H.
  assert (Hpre : forall n m,
             path_join frames_dir (String.append "frame_" n) =
             path_join frames_dir (String.append "frame_" m) -> n = m).
  { intros n m E. unfold path_join in E.
    rewrite !prefix_slash_frame in E.
    destruct (String.eqb frames_dir "" || ends_with_slash frames_dir)%bool.
    - apply string_app_inv_head in E. injection E as E. exact E.
    - apply string_app_inv_head in E. injection E as E. exact E. }
  apply Hpre in H. apply string_app_inv_tail in H.
  apply (f_equal read_digits) in H. rewrite !read_digits_format in H.
  injection H as H. exact H.
Qed.

Lemma map_fst_combine_eq {A B : Type} (l : list A) (l' : list B) :
  length l = length l' -> map fst (combine l l') = l.
Proof.
  revert l'. induction l as [| a t IH]; intros [| b u] H; simpl in *;
    try reflexivity; try discriminate.
  f_equal. apply IH. lia.
Qed.

Lemma map_snd_combine_eq {A B : Type} (l : list A) (l' : list B) :
  length l = length l' -> map snd (combine l l') = l'.
Proof.
  revert l'. induction l as [| a t IH]; intros [| b u] H; simpl in *;
    try reflexivity; try discriminate.
  f_equal. apply IH. lia.
Qed.

(** X18.  Static frames: the digits of a frame's file name read back as the
    frame's number, so two different frames never share a file.  A run over
    [n] snapshots writes [n] files with [n] different names, the figure of
    snapshot [i] under the name of frame [i], and no frame overwrites
    another. *)
Theorem X18_frame_files_distinct :
  forall (frames_dir : string) (frames : list axes),
    (forall i, read_digits (format_03d i) = Some i) /\
    (forall i j, frame_file frames_dir i = frame_file frames_dir j -> i = j) /\
    NoDup (map fst (saved_frames frames_dir frames)) /\
    map snd (saved_frames frames_dir frames) = frames /\
    length (saved_frames frames_dir frames) = length frames.
Proof.
  intros frames_dir frames.
  assert (Hlen : length (map (frame_file frames_dir) (seq 0 (length frames))) =
                 length frames).
  { rewrite length_map, length_seq. reflexivity. }
  split; [apply read_digits_format |].
  split; [apply frame_file_inj |].
  unfold saved_frames. split; [| split].
  - rewrite (map_fst_combine_eq _ _ Hlen).
    apply Finite.Injective_map_NoDup; [| apply seq_NoDup].
    intros i j. apply frame_file_inj.
  - apply (map_snd_combine_eq _ _ Hlen).
  - rewrite length_combine, Hlen. apply Nat.min_id.
Qed.

(** ** The file of the animation *)

Lemma prefix_app_iff (p s : string) :
  String.prefix p s = true <-> exists t, s = String.append p t.
Proof.
  revert s. induction p as [| a p IH]; intros s.
  - split; [intros _; exists s; reflexivity | intros _; destruct s; reflexivity].
  - destruct s as [| b s]; cbn [String.prefix String.append].
    + split; [discriminate | intros [t H]; discriminate H].
    + destruct (ascii_dec a b) as [-> | Hab].
      * split.
        -- intros H. apply IH in H. destruct H as [t ->]. exists t. reflexivity.
        -- intros [t H]. injection H as H. apply IH. exists t. exact H.
      * split; [discriminate | intros [t H]]. injection H as H _.
        congruence.
Qed.

Lemma contains_iff (old s : string) :
  contains old s = true <->
  exists a b, s = String.append a (String.append old b).
Proof.
  induction s as [| ch s IH]; cbn [contains].
  - rewrite Bool.orb_false_r. split.
    + intros H. apply prefix_app_iff in H. destruct H as [t H].
      exists EmptyString, t. exact H.
    + intros [a [b H]]. destruct a as [| c a]; [| discriminate H].
      apply prefix_app_iff. exists b. exact H.
  - split.
    + intros H. apply Bool.orb_true_iff in H. destruct H as [H | H].
      * apply prefix_app_iff in H. destruct H as [t H].
        exists EmptyString, t. exact H.
      * apply IH in H. destruct H as [a [b H]].
        exists (String ch a), b. simpl. rewrite H. reflexivity.
    + intros [a [b H]]. apply Bool.orb_true_iff. destruct a as [| c a].
      * left. apply prefix_app_iff. exists b. exact H.
      * right. simpl in H. injection H as _ H. apply IH. exists a, b. exact H.
Qed.

Lemma contains_tail (old : string) (ch : ascii) (s : string) :
  contains old (String ch s) = false ->
  String.prefix old (String ch s) = false /\ contains old s = false.
Proof.
  cbn [contains]. intros H. apply Bool.orb_false_iff in H. exact H.
Qed.

Lemma str_replace_absent (old new s : string) :
  contains old s = false -> str_replace old new s = s.
Proof.
  unfold str_replace. induction s as [| ch s IH]; intros H.
  - reflexivity.
  - apply contains_tail in H. destruct H as [Hp Hc].
    cbn [replace_from]. rewrite Hp. f_equal. apply IH, Hc.
Qed.

Lemma replace_from_length (old new : string) (s : string) :
  String.length old = String.length new -> old <> EmptyString ->
  forall k, (k <= String.length s)%nat ->
    String.length (replace_from old new k s) = (String.length s - k)%nat.
Proof.
  intros Hlen Hne. induction s as [| ch s IH]; intros k Hk.
  - simpl in *. lia.
  - destruct k as [| k]; cbn [replace_from].
    + destruct (String.prefix old (String ch s)) eqn:Hp.
      * apply prefix_app_iff in Hp. destruct Hp as [t Ht].
        apply (f_equal String.length) in Ht.
        rewrite string_length_append in Ht. simpl in Ht.
        assert (1 <= String.length old)%nat.
        { destruct old; [contradiction Hne; reflexivity | simpl; lia]. }
        rewrite string_length_append, IH by lia. simpl. lia.
      * simpl. rewrite IH by lia. lia.
    + simpl in Hk. rewrite IH by lia. simpl. reflexivity.
Qed.

Lemma gif_file_stem (stem : string) :
  contains ".mp4" stem = false ->
  gif_file (String.append stem ".mp4") = String.append stem ".gif".
Proof.
  unfold gif_file, str_replace. induction stem as [| ch stem IH]; intros H.
  - reflexivity.
  - apply contains_tail in H. destruct H as [Hp Hc].
    cbn [String.append replace_from].
    destruct (String.prefix ".mp4" (String ch (String.append stem ".mp4")))
      eqn:Hq.
    + exfalso. apply prefix_app_iff in Hq. destruct Hq as [t Ht].
      assert (Hs : String.prefix ".mp4" (String ch stem) = true).
      { apply prefix_app_iff.
        destruct stem as [| c1 [| c2 [| c3 r]]]; simpl in Ht;
          try discriminate Ht.
        injection Ht as -> -> -> -> _. exists r. reflexivity. }
      congruence.
    + f_equal. apply IH, Hc.
Qed.

(** X19.  Where the animation is written.  With a working [ffmpeg] writer
    it is [save_file]; otherwise, with a working [pillow] writer, it is
    [gif_file], which has the length of [save_file].  For a [save_file]
    that ends in [.mp4] and has no other [.mp4] in it, [gif_file] is the
    same name ending in [.gif]; for a [save_file] without [.mp4] it is
    [save_file] itself, so the fallback then writes under the very name
    that was asked for. *)
Theorem X19_animation_file_name :
  forall (save_file : string) (ffmpeg_works pillow_works : bool)
         (written : string),
    save_animation save_file ffmpeg_works pillow_works = Some written ->
    (ffmpeg_works = true /\ written = save_file \/
     ffmpeg_works = false /\ pillow_works = true /\
     written = gif_file save_file) /\
    String.length written = String.length save_file /\
    (contains ".mp4" save_file = false -> written = save_file) /\
    (forall stem,
        save_file = String.append stem ".mp4" ->
        contains ".mp4" stem = false ->
        ffmpeg_works = false ->
        written = String.append stem ".gif").
Proof.
  intros save_file ffmpeg_works pillow_works written H.
  assert (Hlen : String.length (gif_file save_file) = String.length save_file).
  { unfold gif_file, str_replace.
    rewrite (replace_from_length ".mp4" ".gif" save_file eq_refl)
      by (discriminate || lia).
    lia. }
  unfold save_animation in H.
  destruct ffmpeg_works.
  - injection H as <-. split; [left; auto |]. split; [reflexivity |].
    split; [reflexivity |]. intros stem _ _ Hf. discriminate Hf.
  - destruct pillow_works; [| discriminate H]. injection H as <-.
    split; [right; auto |]. split; [exact Hlen |]. split.
    + intros Hc. apply str_replace_absent, Hc.
    + intros stem -> Hc _. apply gif_file_stem, Hc.
Qed.

Lemma X19_animation_file_name_witness :
  gif_file "galaxy_collision.mp4" = "galaxy_collision.gif"%string.
Proof.
  destruct (X19_animation_file_name "galaxy_collision.mp4" false true
              (gif_file "galaxy_collision.mp4") eq_refl)
    as [_ [_ [_ H]]].
  apply (H "galaxy_collision"%string); reflexivity.
Defined.

Lemma X17_load_succeeds_iff_witness :
  exists d, load_snapshot disk_only_file = Ok d.
Proof.
  destruct (X17_load_succeeds_iff disk_only_file) as [[_ H] _].
  apply H. split; [exists 0; reflexivity | reflexivity].
Defined.

Lemma X18_frame_files_distinct_witness :
  NoDup (map fst (saved_frames "frames"
                    [scenario_frame 0; scenario_frame (1 / 2);
                     scenario_frame 1])).
Proof.
  apply (X18_frame_files_distinct "frames"
           [scenario_frame 0; scenario_frame (1 / 2); scenario_frame 1]).
Defined.

(** ** Outliers *)

Lemma sorted_app_max (l : list R) (x : R) :
  StronglySorted Rle l -> Forall (fun y => y <= x) l ->
  StronglySorted Rle (l ++ [x]).
Proof.
  induction 1 as [| a t Ht IH Ha]; intros Hx; cbn [app].
  - repeat constructor.
  - inversion Hx as [| ? ? Hax Htx]; subst.
    constructor; [apply IH, Htx |].
    apply Forall_app. split; [exact Ha |].
    constructor; [exact Hax | constructor].
Qed.

Lemma sort_max (x : R) (rest : list R) :
  Forall (fun y => y <= x) rest -> sort (x :: rest) = sort rest ++ [x].
Proof.
  intros Hx. apply sorted_perm_eq.
  - apply sort_sorted.
  - apply sorted_app_max; [apply sort_sorted |].
    eapply Permutation_Forall; [apply Permutation_sym, sort_perm | exact Hx].
  - eapply perm_trans; [apply sort_perm |].
    eapply perm_trans; [| apply Permutation_cons_append].
    apply perm_skip, Permutation_sym, sort_perm.
Qed.

Lemma interpolate_ignores_last (s : list R) (s0 x x' : R) (q : nat) :
  (101 <= length s)%nat -> (q <= 99)%nat ->
  interpolate (s ++ [x]) s0 q = interpolate (s ++ [x']) s0 q.
Proof.
  intros Hm Hq. unfold interpolate. rewrite !length_app. cbn [length].
  set (m := length s) in *.
  replace (m + 1 - 1)%nat with m by lia.
  assert (Hp : (m * q / 100 < m - 1)%nat).
  { apply Nat.Div0.div_lt_upper_bound. nia. }
  rewrite !(app_nth1 s [x]), !(app_nth1 s [x']) by (fold m; lia).
  reflexivity.
Qed.

Lemma percentile_ignores_max (rest : list R) (x x' : R) (q : nat) :
  (101 <= length rest)%nat -> (q <= 99)%nat ->
  Forall (fun y => y <= x) rest -> x <= x' ->
  percentile (x' :: rest) q = percentile (x :: rest) q.
Proof.
  intros Hm Hq Hx Hxx.
  assert (Hx' : Forall (fun y => y <= x') rest).
  { eapply Forall_impl; [| exact Hx]. intros y Hy. cbn beta in *. lra. }
  rewrite !percentile_unfold, (sort_max x rest Hx), (sort_max x' rest Hx').
  pose proof (sort_length rest) as Hl.
  destruct (sort rest) as [| s0 t] eqn:Es; [simpl in Hl; lia |].
  cbn [app]. f_equal.
  apply (interpolate_ignores_last (s0 :: t) s0 x' x q); [lia | exact Hq].
Qed.

Lemma percentile_limits_ignores_max (rest : list R) (x x' : R) :
  (101 <= length rest)%nat ->
  Forall (fun y => y <= x) rest -> x <= x' ->
  percentile_limits (x' :: rest) = percentile_limits (x :: rest).
Proof.
  intros Hm Hx Hxx. unfold percentile_limits.
  rewrite (percentile_ignores_max rest x x' 1 Hm ltac:(lia) Hx Hxx).
  rewrite (percentile_ignores_max rest x x' 99 Hm ltac:(lia) Hx Hxx).
  reflexivity.
Qed.

Lemma class_column_add_disk_star (k : vec3 -> R) (p : vec3) (snap : snapshot) :
  Permutation (class_column k (add_disk_star p snap))
              (k p :: class_column k snap).
Proof.
  unfold class_column, add_disk_star, column.
  cbn [newstars_pos disk_pos bulge_pos map].
  apply Permutation_sym, Permutation_middle.
Qed.

Lemma Allstars_limits_add_disk_star (p : vec3) (snap : snapshot)
  (snapshots : list snapshot) :
  Allstars.coordinate_limits (add_disk_star p snap :: snapshots) =
  limits_of_pools (c0 p :: fst (pools c1 (snap :: snapshots)))
                  (c1 p :: snd (pools c1 (snap :: snapshots))).
Proof.
  unfold Allstars.coordinate_limits, limits_of_pools.
  rewrite !pools_flat_map. cbn [fst snd flat_map].
  rewrite (percentile_limits_perm
             (class_column c0 (add_disk_star p snap) ++
              flat_map (class_column c0) snapshots)
             (c0 p :: class_column c0 snap ++
              flat_map (class_column c0) snapshots))
    by (apply (Permutation_app_tail _ (class_column_add_disk_star c0 p snap))).
  rewrite (percentile_limits_perm
             (class_column c1 (add_disk_star p snap) ++
              flat_map (class_column c1) snapshots)
             (c1 p :: class_column c1 snap ++
              flat_map (class_column c1) snapshots))
    by (apply (Permutation_app_tail _ (class_column_add_disk_star c1 p snap))).
  reflexivity.
Qed.

(** X20.  One far-away star does not move the window.  Take snapshots with
    at least 101 particles in all and one further disk star [p] that lies to
    the right of all of them.  Moving that star further to the right, to any
    [p'] with the same [y], leaves the face-on limits exactly as they
    were: the 99th percentile is read below the largest value. *)
Theorem X20_window_ignores_one_outlier :
  forall (p p' : vec3) (snap : snapshot) (snapshots : list snapshot),
    (101 <= length (fst (pools c1 (snap :: snapshots))))%nat ->
    Forall (fun x => x <= c0 p) (fst (pools c1 (snap :: snapshots))) ->
    c0 p <= c0 p' ->
    c1 p' = c1 p ->
    Allstars.coordinate_limits (add_disk_star p' snap :: snapshots) =
    Allstars.coordinate_limits (add_disk_star p snap :: snapshots).
Proof.
  intros p p' snap snapshots Hm Hx Hxx Hy.
  rewrite !Allstars_limits_add_disk_star. unfold limits_of_pools.
  rewrite (percentile_limits_ignores_max _ (c0 p) (c0 p') Hm Hx Hxx), Hy.
  reflexivity.
Qed.

Lemma crowd_pool : fst (pools c1 [crowd_snapshot]) = repeat 0 101.
Proof. reflexivity. Qed.

Lemma X20_window_ignores_one_outlier_witness :
  Allstars.coordinate_limits (add_disk_star (1000, 1, 0) crowd_snapshot :: []) =
  Allstars.coordinate_limits (add_disk_star (5, 1, 0) crowd_snapshot :: []).
Proof.
  apply (X20_window_ignores_one_outlier (5, 1, 0) (1000, 1, 0)
           crowd_snapshot []).
  - rewrite crowd_pool, repeat_length. lia.
  - rewrite crowd_pool. apply Forall_forall. intros x Hx.
    apply repeat_spec in Hx. subst x. unfold c0. cbn [fst]. lra.
  - unfold c0. cbn [fst]. lra.
  - reflexivity.
Defined.
